(** * Smart Heating: a shallow embedding of the predictive pre-heating core

    The development follows the Python sources of
    [custom_components/smart_heating]:

    - [thermal_model.py]   : [ThermalModel]   (session history, time estimate)
    - [feedback.py]        : [FeedbackLoop]   (arrival accuracy, margin delta)
    - [anticipation.py]    : [AnticipationEngine] (Idle/Active state machine)
    - [schedule_parser.py] : [ScheduleParser] (next set-point increase)

    Conventions of the embedding.

    - A Python [float] is the rational of [Q] it denotes; results are
      compared with [==] ([Qeq]).  The arithmetic on floats is embedded
      twice.  In [ThermalModel], [Feedback], [Anticipation],
      [ScheduleParser] and [Coordinator] every operation is exact: these
      modules carry the properties that do not hang on rounding (lengths of
      histories, the order of the tests, what a call changes).  In
      [ThermalModel64], [Feedback64], [Anticipation64] and
      [ScheduleParser64] every operation returns the IEEE 754 binary64
      number nearest to its exact result, ties to even ([Binary64.fl]): the
      arguments are the values of doubles, and a decimal literal [c] of the
      source or of an example is the double [Binary64.lit c].  Overflow,
      subnormal numbers, infinities and NaN are outside both: the exponent
      is unbounded.
    - [round(x)] and [round(x, n)] are round-half-to-even on the value, in
      binary64 followed by the rounding of the result to a double.
    - A [datetime] is a number of microseconds ([Z]); a [timedelta] likewise.
      Formatted dates ([strftime], [isoformat]) are kept as the [datetime]
      they print.
    - [None] is [option]'s [None]; a Python object mutated in place is passed
      and returned explicitly.
    - What the code reads from Home Assistant, and the clock, are fields of an
      environment record given to the function. *)

From Stdlib Require Import ZArith QArith Qround Qabs Qpower Qreduction List String Bool Lia Lqa.
From stdpp Require Import gmap strings.
Import ListNotations.

Local Open Scope Q_scope.

(** * Python numerics *)

Module Py.

(** [round(x)]: nearest integer, ties to the even one. *)
Definition round_half_even (x : Q) : Z :=
  let f := Qfloor x in
  match Qcompare (x - inject_Z f) (1 # 2) with
  | Lt => f
  | Gt => (f + 1)%Z
  | Eq => if Z.even f then f else (f + 1)%Z
  end.

(** [round(x, n)] for [n >= 0]. *)
Definition round_ndigits (x : Q) (n : nat) : Q :=
  inject_Z (round_half_even (x * inject_Z (10 ^ Z.of_nat n)))
  / inject_Z (10 ^ Z.of_nat n).

(** [math.ceil]. *)
Definition ceil (x : Q) : Z := Qceiling x.

(** A float is falsy exactly when it is zero. *)
Definition truthy (x : Q) : bool := negb (Qeq_bool x 0).

Definition Qlt_bool (x y : Q) : bool := negb (Qle_bool y x).

(** [sum(l)]: left to right from 0. *)
Definition sum (l : list Q) : Q := fold_left Qplus l 0.

(** [statistics.mean]; the callers never pass an empty list. *)
Definition mean (l : list Q) : Q := sum l / inject_Z (Z.of_nat (length l)).

Fixpoint insert_sorted (x : Q) (l : list Q) : list Q :=
  match l with
  | [] => [x]
  | y :: l' => if Qle_bool x y then x :: l else y :: insert_sorted x l'
  end.

(** [sorted(l)]. *)
Definition sorted (l : list Q) : list Q := fold_right insert_sorted [] l.

(** [statistics.median]: [None] stands for the [StatisticsError] raised on
    an empty list. *)
Definition median (l : list Q) : option Q :=
  let data := sorted l in
  let n := length data in
  match n with
  | O => None
  | _ =>
      if Nat.odd n then nth_error data (n / 2)
      else
        let i := (n / 2)%nat in
        match nth_error data (i - 1), nth_error data i with
        | Some a, Some b => Some ((a + b) / 2)
        | _, _ => None
        end
  end.

(** [min(l)] and [max(l)] of a non-empty list given as head and tail. *)
Definition min_list (x : Q) (l : list Q) : Q :=
  fold_left (fun m y => if Qlt_bool y m then y else m) l x.

Definition max_list (x : Q) (l : list Q) : Q :=
  fold_left (fun m y => if Qlt_bool m y then y else m) l x.

(** [l[-n:]]: the last [n] elements ([n > 0]), the whole list when it is
    shorter. *)
Definition last_n {A : Type} (n : nat) (l : list A) : list A :=
  skipn (length l - n) l.

(** [max(a, b)]: the first argument unless the second is larger. *)
Definition max (a b : Q) : Q := if Qlt_bool a b then b else a.

(** A naive [datetime] or a [timedelta], in microseconds. *)
Definition datetime := Z.
Definition timedelta := Z.

(** [timedelta.total_seconds()]. *)
Definition total_seconds (td : timedelta) : Q := inject_Z td / 1000000.

(** [timedelta(minutes=m)] for a float [m]: rounded to the microsecond. *)
Definition timedelta_minutes (m : Q) : timedelta := round_half_even (m * 60000000).

Definition one_day : timedelta := 86400000000%Z.

(** What [try ... except (ValueError, TypeError)] can see. *)
Inductive exn := AttributeError | TypeError | ValueError.

(** A computation that returns or raises. *)
Inductive result (A : Type) :=
  | Return (a : A)
  | Raise (e : exn).
Arguments Return {A} a.
Arguments Raise {A} e.

Definition bind {A B : Type} (r : result A) (k : A -> result B) : result B :=
  match r with
  | Return a => k a
  | Raise e => Raise e
  end.

End Py.

(** * thermal_model.py *)

Module ThermalModel.

(** One entry of [HeatingSession.points]. *)
Record Point := { pt_time : string; pt_temp : Q }.

Record HeatingSession := {
  date : string;
  temp_start : Q;
  temp_end : Q;
  temp_ext_avg : Q;
  delta_temp : Q;
  duration_min : Q;
  speed_degc_per_min : Q;
  anticipated : bool;
  points : list Point
}.

(** A persisted session: the decoded JSON object, each key present or
    absent. *)
Record SessionDict := {
  d_date : option string;
  d_temp_start : option Q;
  d_temp_end : option Q;
  d_temp_ext_avg : option Q;
  d_delta_temp : option Q;
  d_duration_min : option Q;
  d_speed_degc_per_min : option Q;
  d_anticipated : option bool
}.

(** [dict.get(key, default)]. *)
Definition get {A : Type} (o : option A) (default : A) : A :=
  match o with Some v => v | None => default end.

Definition to_dict (s : HeatingSession) : SessionDict :=
  {| d_date := Some (date s);
     d_temp_start := Some (temp_start s);
     d_temp_end := Some (temp_end s);
     d_temp_ext_avg := Some (temp_ext_avg s);
     d_delta_temp := Some (delta_temp s);
     d_duration_min := Some (duration_min s);
     d_speed_degc_per_min := Some (speed_degc_per_min s);
     d_anticipated := Some (anticipated s) |}.

Definition from_dict (data : SessionDict) : HeatingSession :=
  {| date := get (d_date data) ""%string;
     temp_start := get (d_temp_start data) 0;
     temp_end := get (d_temp_end data) 0;
     temp_ext_avg := get (d_temp_ext_avg data) 0;
     delta_temp := get (d_delta_temp data) 0;
     duration_min := get (d_duration_min data) 0;
     speed_degc_per_min := get (d_speed_degc_per_min data) 0;
     anticipated := get (d_anticipated data) false;
     points := [] |}.

(** The [_inertia] dictionary when it is not empty.  The keys of
    [by_ext_temp] are the bucket numbers the code prints with [str]. *)
Record Inertia := {
  avg_speed : Q;
  median_speed : Q;
  min_speed : Q;
  max_speed : Q;
  num_sessions : nat;
  min_per_deg : option Q;
  by_ext_temp : list (Z * Q)
}.

Record ThermalModel := {
  sessions : list HeatingSession;
  warmup_ignore_min : Q;
  _inertia : option Inertia
}.

(** [ThermalModel.__init__]. *)
Definition init (warmup : Q) : ThermalModel :=
  {| sessions := []; warmup_ignore_min := warmup; _inertia := None |}.

(** [round(x / 5) * 5]. *)
Definition bucket_of (t : Q) : Z := (Py.round_half_even (t / 5) * 5)%Z.

(** [by_ext[bucket].append(v)], creating the entry when it is missing;
    insertion order is kept. *)
Fixpoint by_ext_append (b : Z) (v : Q) (m : list (Z * list Q)) : list (Z * list Q) :=
  match m with
  | [] => [(b, [v])]
  | (k, vs) :: m' =>
      if Z.eqb k b then (k, vs ++ [v]) :: m' else (k, vs) :: by_ext_append b v m'
  end.

Definition is_valid (s : HeatingSession) : bool :=
  Py.Qlt_bool 0 (speed_degc_per_min s) && Qle_bool 5 (duration_min s).

(** [_recalculate]: the new value of [_inertia]. *)
Definition recalculate_inertia (ss : list HeatingSession) : option Inertia :=
  match ss with
  | [] => None
  | _ =>
      let valid := filter is_valid ss in
      match map speed_degc_per_min valid with
      | [] => None
      | v0 :: vs =>
          let speeds := v0 :: vs in
          let by_ext :=
            fold_left
              (fun m s => by_ext_append (bucket_of (temp_ext_avg s)) (speed_degc_per_min s) m)
              valid [] in
          let by_ext_avg :=
            map (fun kv => (fst kv, Py.round_ndigits (Py.mean (snd kv)) 5)) by_ext in
          Some {| avg_speed := Py.round_ndigits (Py.mean speeds) 5;
                  median_speed := Py.round_ndigits (get (Py.median speeds) 0) 5;
                  min_speed := Py.round_ndigits (Py.min_list v0 vs) 5;
                  max_speed := Py.round_ndigits (Py.max_list v0 vs) 5;
                  num_sessions := length valid;
                  min_per_deg :=
                    if Py.Qlt_bool 0 (Py.mean speeds)
                    then Some (Py.round_ndigits (1 / Py.mean speeds) 1)
                    else None;
                  by_ext_temp := by_ext_avg |}
      end
  end.

Definition _recalculate (self : ThermalModel) : ThermalModel :=
  {| sessions := sessions self;
     warmup_ignore_min := warmup_ignore_min self;
     _inertia := recalculate_inertia (sessions self) |}.

Definition load_sessions (self : ThermalModel) (data : list SessionDict) : ThermalModel :=
  _recalculate
    {| sessions := map from_dict data;
       warmup_ignore_min := warmup_ignore_min self;
       _inertia := _inertia self |}.

Definition add_session (self : ThermalModel) (session : HeatingSession) : ThermalModel :=
  let appended := sessions self ++ [session] in
  let kept :=
    if (100 <? length appended)%nat then Py.last_n 100 appended else appended in
  _recalculate
    {| sessions := kept;
       warmup_ignore_min := warmup_ignore_min self;
       _inertia := _inertia self |}.

Definition get_sessions_data (self : ThermalModel) : list SessionDict :=
  map to_dict (sessions self).

(** The [avg_speed] property: [self._inertia.get("avg_speed")]. *)
Definition avg_speed_of (self : ThermalModel) : option Q :=
  match _inertia self with
  | Some i => Some (avg_speed i)
  | None => None
  end.

(** Sessions whose outdoor average is within 5 of the bucket. *)
Definition nearby_sessions (self : ThermalModel) (ext_temp : Q) : list HeatingSession :=
  filter
    (fun s => Qle_bool (Qabs (temp_ext_avg s - inject_Z (bucket_of ext_temp))) 5)
    (sessions self).

Definition _get_speed_for_ext_temp (self : ThermalModel) (ext_temp : Q) : option Q :=
  match sessions self with
  | [] => None
  | _ =>
      let nearby := nearby_sessions self ext_temp in
      let speeds :=
        filter (fun v => Py.Qlt_bool 0 v) (map speed_degc_per_min nearby) in
      match speeds with
      | _ :: _ => Py.median speeds
      | [] => avg_speed_of self
      end
  end.

(** [estimate_time_to_target]: [None] is "not enough data". *)
Definition estimate_time_to_target (self : ThermalModel)
    (current_temp target_temp ext_temp margin : Q) : option Q :=
  let delta := target_temp - current_temp in
  if Qle_bool delta 0 then Some 0
  else
    match _get_speed_for_ext_temp self ext_temp with
    | None => None
    | Some speed =>
        if Qle_bool speed 0 then None
        else
          let base_minutes := delta / speed in
          Some (Py.round_ndigits (base_minutes * margin) 0)
    end.

End ThermalModel.

(** * feedback.py *)

Module Feedback.

Definition TARGET_EARLY_MINUTES : Q := 3.
Definition MARGIN_ADJUST_STEP : Q := 0.02.
Definition MAX_HISTORY : nat := 30.

(** [success] is [None] when the persisted value was [null]. *)
Record AnticipationResult := {
  date : Py.datetime;
  target_temp : Q;
  actual_temp_at_target_time : Q;
  temp_at_start : Q;
  target_time : Py.datetime;
  actual_arrival_time : option Py.datetime;
  minutes_early : Q;
  margin_used : Q;
  llm_adjustment : Q;
  ext_temp_avg : Q;
  success : option bool
}.

(** The [_pending_start] dictionary. *)
Record Pending := {
  p_target_temp : Q;
  p_target_time : Py.datetime;
  p_temp_at_start : Q;
  p_margin_used : Q;
  p_llm_adjustment : Q;
  p_ext_temp : Q;
  p_started_at : Py.datetime
}.

Record FeedbackLoop := {
  zone_name : string;
  history : list AnticipationResult;
  _pending_start : option Pending
}.

Definition init (zone : string) : FeedbackLoop :=
  {| zone_name := zone; history := []; _pending_start := None |}.

(** [load_history] on records that decoded; a decoding error empties the
    history. *)
Definition load_history (self : FeedbackLoop) (data : option (list AnticipationResult))
    : FeedbackLoop :=
  {| zone_name := zone_name self;
     history := match data with Some l => l | None => [] end;
     _pending_start := _pending_start self |}.

Definition get_history_data (self : FeedbackLoop) : list AnticipationResult :=
  Py.last_n MAX_HISTORY (history self).

Definition start_tracking (self : FeedbackLoop)
    (target_temp0 : Q) (target_time0 : Py.datetime)
    (temp_at_start0 margin_used0 llm_adjustment0 ext_temp : Q)
    (now : Py.datetime) : FeedbackLoop :=
  {| zone_name := zone_name self;
     history := history self;
     _pending_start :=
       Some {| p_target_temp := target_temp0;
               p_target_time := target_time0;
               p_temp_at_start := temp_at_start0;
               p_margin_used := margin_used0;
               p_llm_adjustment := llm_adjustment0;
               p_ext_temp := ext_temp;
               p_started_at := now |} |}.

(** [record_result]: the loop after the call and the value returned. *)
Definition record_result (self : FeedbackLoop) (current_temp : Q)
    (reached_target : bool) (now : Py.datetime)
    : FeedbackLoop * option AnticipationResult :=
  match _pending_start self with
  | None => (self, None)
  | Some pending =>
      let target_time0 := p_target_time pending in
      let minutes_early0 :=
        if reached_target
        then Py.total_seconds (target_time0 - now)%Z / 60
        else - (Py.total_seconds (now - target_time0)%Z / 60) in
      let actual_arrival :=
        if reached_target then Some now else None in
      let result :=
        {| date := now;
           target_temp := p_target_temp pending;
           actual_temp_at_target_time := current_temp;
           temp_at_start := p_temp_at_start pending;
           target_time := target_time0;
           actual_arrival_time := actual_arrival;
           minutes_early := Py.round_ndigits minutes_early0 1;
           margin_used := p_margin_used pending;
           llm_adjustment := p_llm_adjustment pending;
           ext_temp_avg := p_ext_temp pending;
           success := Some reached_target |} in
      let appended := history self ++ [result] in
      let kept :=
        if (MAX_HISTORY <? length appended)%nat
        then Py.last_n MAX_HISTORY appended else appended in
      ({| zone_name := zone_name self;
          history := kept;
          _pending_start := None |},
       Some result)
  end.

(** [r.success is not None]. *)
Definition qualifies (r : AnticipationResult) : bool :=
  match success r with Some _ => true | None => false end.

(** [if r.success]. *)
Definition succeeded (r : AnticipationResult) : bool :=
  match success r with Some b => b | None => false end.

(** The window [get_margin_suggestion] looks at. *)
Definition recent_results (self : FeedbackLoop) : list AnticipationResult :=
  filter qualifies (Py.last_n 10 (history self)).

Definition avg_early_of (recent : list AnticipationResult) : Q :=
  Py.mean (map minutes_early recent).

Definition success_rate_of (recent : list AnticipationResult) : Q :=
  inject_Z (Z.of_nat (length (filter succeeded recent)))
  / inject_Z (Z.of_nat (length recent)).

Definition get_margin_suggestion (self : FeedbackLoop) : option Q :=
  let recent := recent_results self in
  if (length recent <? 3)%nat then None
  else
    let avg_early := avg_early_of recent in
    let success_rate := success_rate_of recent in
    let adjustment :=
      if Py.Qlt_bool 10 avg_early then - MARGIN_ADJUST_STEP * 2
      else if Py.Qlt_bool 5 avg_early then - MARGIN_ADJUST_STEP
      else if Py.Qlt_bool avg_early 0 then MARGIN_ADJUST_STEP * 2
      else if Py.Qlt_bool avg_early 2 then MARGIN_ADJUST_STEP
      else 0 in
    let adjustment :=
      if Py.Qlt_bool success_rate 0.7
      then Py.max adjustment (MARGIN_ADJUST_STEP * 2)
      else adjustment in
    Some (Py.round_ndigits adjustment 3).

End Feedback.

(** * The Home Assistant state machine as the code reads it *)

Module HA.

(** An attribute value: what a JSON-like attribute can hold. *)
#[local] Set Warnings "-register-all".
Inductive pyval :=
  | PNone
  | PBool (b : bool)
  | PNum (q : Q)
  | PStr (s : string)
  | PList (l : list pyval)
  | PDict (d : gmap string pyval).

(** [hass.states.get(entity_id)]: the state string and the attributes. *)
Record State := {
  state : string;
  attributes : gmap string pyval
}.

Definition Hass := gmap string State.

Definition STATE_UNAVAILABLE : string := "unavailable".
Definition STATE_UNKNOWN : string := "unknown".

(** Functions of the Python runtime and of [datetime] the code calls:
    [float(s)] and [str(v)], [s.strip()], [s.lower()], and
    [datetime.strptime(s, fmt).time()] as microseconds after midnight.
    [None] stands for the [ValueError] they raise. *)
Class Builtins := {
  float_of_str : string -> option Q;
  str_of : pyval -> string;
  strip : string -> string;
  lower : string -> string;
  strptime_time : string -> string -> option Z
}.

(** Truth value of an object. *)
Definition truthy (v : pyval) : bool :=
  match v with
  | PNone => false
  | PBool b => b
  | PNum q => Py.truthy q
  | PStr s => negb (String.eqb s "")
  | PList l => match l with [] => false | _ => true end
  | PDict d => negb (Nat.eqb (size d) 0)
  end.

(** Truth value of the result of [dict.get]: a missing key gives [None]. *)
Definition truthy_opt (a : option pyval) : bool :=
  match a with
  | Some v => truthy v
  | None => false
  end.

(** [a or b] on the results of two [dict.get]: a missing key is [None]. *)
Definition or_else (a b : option pyval) : option pyval :=
  match a with
  | Some v => if truthy v then Some v else b
  | None => b
  end.

(** [x is not None] on the result of [dict.get]. *)
Definition not_none (a : option pyval) : option pyval :=
  match a with
  | Some PNone => None
  | _ => a
  end.

(** [float(v)]: a [TypeError] or [ValueError] unless [v] is a number, a
    boolean or a string that reads as a number. *)
Definition float `{Builtins} (v : pyval) : Py.result Q :=
  match v with
  | PNum q => Py.Return q
  | PBool b => Py.Return (if b then 1 else 0)
  | PStr s =>
      match float_of_str s with
      | Some q => Py.Return q
      | None => Py.Raise Py.ValueError
      end
  | PNone | PList _ | PDict _ => Py.Raise Py.TypeError
  end.

(** [try: return float(x)  except (ValueError, TypeError): return None]. *)
Definition float_or_none `{Builtins} (v : pyval) : option Q :=
  match float v with
  | Py.Return q => Some q
  | Py.Raise _ => None
  end.

End HA.

(** * anticipation.py *)

Module Anticipation.

Import HA.

Record AnticipationState := {
  active : bool;
  target_consigne : option Q;
  target_time : option Py.datetime;
  minutes_needed : option Q;
  minutes_until_target : option Q;
  optimal_start_time : option Py.datetime;
  started_at : option Py.datetime;
  temp_at_start : option Q
}.

(** [AnticipationState(active=a)]: every other field at its default. *)
Definition AnticipationState_default (a : bool) : AnticipationState :=
  {| active := a;
     target_consigne := None;
     target_time := None;
     minutes_needed := None;
     minutes_until_target := None;
     optimal_start_time := None;
     started_at := None;
     temp_at_start := None |}.

Record AnticipationEngine := {
  zone_name : string;
  climate_entity : string;
  schedule_entity : option string;
  anti_short_cycle : bool;
  min_off_time_sec : Z;
  state : AnticipationState;
  _last_consigne_sent : option Q;
  _last_consigne_sent_time : option Py.datetime
}.

(** What one call reads from outside: the entity states, the clock of
    [async_evaluate], the clock of [_send_consigne], and whether the
    [climate.set_temperature] service call returns ([true]) or raises. *)
Record Env := {
  hass : Hass;
  now : Py.datetime;
  send_now : Py.datetime;
  service_ok : bool
}.

(** The same surroundings with the service call succeeding or raising. *)
Definition with_service (env : Env) (ok : bool) : Env :=
  {| hass := hass env;
     now := now env;
     send_now := send_now env;
     service_ok := ok |}.

Definition init (zone climate : string) (schedule : option string)
    (anti : bool) (min_off : Z) : AnticipationEngine :=
  {| zone_name := zone;
     climate_entity := climate;
     schedule_entity := schedule;
     anti_short_cycle := anti;
     min_off_time_sec := min_off;
     state := AnticipationState_default false;
     _last_consigne_sent := None;
     _last_consigne_sent_time := None |}.

Definition with_state (self : AnticipationEngine) (s : AnticipationState)
    : AnticipationEngine :=
  {| zone_name := zone_name self;
     climate_entity := climate_entity self;
     schedule_entity := schedule_entity self;
     anti_short_cycle := anti_short_cycle self;
     min_off_time_sec := min_off_time_sec self;
     state := s;
     _last_consigne_sent := _last_consigne_sent self;
     _last_consigne_sent_time := _last_consigne_sent_time self |}.

Definition with_last_sent (self : AnticipationEngine)
    (sent : option Q) (sent_time : option Py.datetime) : AnticipationEngine :=
  {| zone_name := zone_name self;
     climate_entity := climate_entity self;
     schedule_entity := schedule_entity self;
     anti_short_cycle := anti_short_cycle self;
     min_off_time_sec := min_off_time_sec self;
     state := state self;
     _last_consigne_sent := sent;
     _last_consigne_sent_time := sent_time |}.

Definition set_active (s : AnticipationState) (a : bool) : AnticipationState :=
  {| active := a;
     target_consigne := target_consigne s;
     target_time := target_time s;
     minutes_needed := minutes_needed s;
     minutes_until_target := minutes_until_target s;
     optimal_start_time := optimal_start_time s;
     started_at := started_at s;
     temp_at_start := temp_at_start s |}.

Definition set_minutes_until_target (s : AnticipationState) (m : option Q)
    : AnticipationState :=
  {| active := active s;
     target_consigne := target_consigne s;
     target_time := target_time s;
     minutes_needed := minutes_needed s;
     minutes_until_target := m;
     optimal_start_time := optimal_start_time s;
     started_at := started_at s;
     temp_at_start := temp_at_start s |}.

Section Engine.

Context `{Builtins}.

(** The engine after a call, and the temperatures for which the call
    invoked the [climate.set_temperature] service, in order. *)
Definition Outcome : Type := AnticipationEngine * list Q.

Definition no_command (self : AnticipationEngine) : Outcome := (self, []).

(** [_send_consigne]: the service call is attempted with [temperature];
    when it raises, the exception is logged and nothing is recorded. *)
Definition _send_consigne (env : Env) (self : AnticipationEngine) (temperature : Q)
    : Outcome :=
  (if service_ok env
   then with_last_sent self (Some temperature) (Some (send_now env))
   else self,
   [temperature]).

Definition async_restore_consigne (env : Env) (self : AnticipationEngine)
    (temperature : Q) : Outcome :=
  _send_consigne env self temperature.

Definition _deactivate (self : AnticipationEngine) : AnticipationEngine :=
  with_last_sent (with_state self (AnticipationState_default false)) None None.

Definition _get_current_consigne (env : Env) (self : AnticipationEngine) : option Q :=
  match schedule_entity self with
  | None => None
  | Some entity =>
      if String.eqb entity "" then None
      else
        match hass env !! entity with
        | None => None
        | Some st =>
            if String.eqb (HA.state st) STATE_UNAVAILABLE
               || String.eqb (HA.state st) STATE_UNKNOWN
            then None
            else float_of_str (HA.state st)
        end
  end.

Definition _get_climate_setpoint (env : Env) (self : AnticipationEngine) : option Q :=
  match hass env !! climate_entity self with
  | None => None
  | Some st =>
      match not_none (attributes st !! "temperature"%string) with
      | None => None
      | Some temp => float_or_none temp
      end
  end.

(** Minutes from [now] to [t]. *)
Definition minutes_from (now0 t : Py.datetime) : Q :=
  Py.total_seconds (t - now0)%Z / 60.

(** The [should_start] decision and the estimated target time. *)
Definition decide_start (env : Env) (self : AnticipationEngine)
    (minutes_needed0 next_consigne : Q) (target_time0 : option Py.datetime)
    : bool * option Py.datetime :=
  let without_target_time :=
    match _get_current_consigne env self with
    | Some current_sched =>
        if Py.Qlt_bool (current_sched + 0.3) next_consigne
        then (true, Some (now env + Py.timedelta_minutes minutes_needed0)%Z)
        else (false, target_time0)
    | None => (false, target_time0)
    end in
  match target_time0 with
  | Some transition_time =>
      if Py.Qlt_bool 0 minutes_needed0 then
        let minutes_until_transition := minutes_from (now env) transition_time in
        let minutes_until_start := minutes_until_transition - minutes_needed0 in
        if Qle_bool minutes_until_start 2 then (true, target_time0)
        else if Py.Qlt_bool minutes_until_transition 0 then (true, target_time0)
        else (false, target_time0)
      else without_target_time
  | None => without_target_time
  end.

(** The "still active" branch: refresh the remaining minutes, then resend
    on the 10-minute rule or on drift. *)
Definition should_resend (env : Env) (self : AnticipationEngine) : bool :=
  let by_interval :=
    match _last_consigne_sent_time self with
    | None => true
    | Some t => Py.Qlt_bool 600 (Py.total_seconds (now env - t)%Z)
    end in
  let by_drift :=
    match _get_climate_setpoint env self, target_consigne (state self) with
    | Some climate_setpoint, Some target =>
        Py.Qlt_bool 0.3 (Qabs (climate_setpoint - target))
    | _, _ => false
    end in
  by_interval || by_drift.

Definition stay_active (env : Env) (self : AnticipationEngine) : Outcome :=
  let remaining :=
    Py.max 0
      match target_time (state self) with
      | Some t => minutes_from (now env) t
      | None => 0
      end in
  let self1 := with_state self (set_minutes_until_target (state self) (Some remaining)) in
  match target_consigne (state self1) with
  | Some target =>
      if should_resend env self1 && Py.truthy target
      then _send_consigne env self1 target
      else no_command self1
  | None => no_command self1
  end.

(** [async_evaluate]: the engine after the call (the value returned is its
    [state]) and the commands sent. *)
Definition async_evaluate (env : Env) (self : AnticipationEngine)
    (temp_indoor temp_outdoor minutes_needed0 next_consigne : option Q)
    (is_anti_cycle_active : bool) (target_time0 : option Py.datetime)
    (effective_margin : Q) : Outcome :=
  match temp_indoor, next_consigne, minutes_needed0 with
  | Some temp_indoor, Some next_consigne, Some minutes_needed0 =>
      if Qle_bool (next_consigne - 0.2) temp_indoor then
        if active (state self)
        then no_command (_deactivate self)
        else no_command self
      else if is_anti_cycle_active && negb (active (state self))
      then no_command self
      else
        let '(should_start, estimated_target_time) :=
          decide_start env self minutes_needed0 next_consigne target_time0 in
        if should_start && negb (active (state self)) then
          let delta := next_consigne - temp_indoor in
          if Py.Qlt_bool 0.3 delta && Py.Qlt_bool 0 minutes_needed0 then
            let estimated_target_time :=
              match estimated_target_time with
              | Some t => t
              | None => (now env + Py.timedelta_minutes minutes_needed0)%Z
              end in
            let self1 :=
              with_state self
                {| active := true;
                   target_consigne := Some next_consigne;
                   target_time := Some estimated_target_time;
                   minutes_needed := Some minutes_needed0;
                   minutes_until_target := Some minutes_needed0;
                   optimal_start_time := Some (now env);
                   started_at := Some (now env);
                   temp_at_start := Some temp_indoor |} in
            _send_consigne env self1 next_consigne
          else no_command self
        else if active (state self) then
          if should_start
             || (Py.truthy next_consigne
                 && Py.Qlt_bool temp_indoor (next_consigne - 0.2))
          then stay_active env self
          else no_command (_deactivate self)
        else no_command self
  | _, _, _ =>
      if active (state self)
      then no_command (with_state self (set_active (state self) false))
      else no_command self
  end.

End Engine.

End Anticipation.

(** * schedule_parser.py *)

Module ScheduleParser.

Import HA.

Record NextTransition := {
  target_time : option Py.datetime;
  target_temp : Q;
  current_temp_schedule : Q;
  source : string
}.

Definition is_heating_up (t : NextTransition) : bool :=
  Py.Qlt_bool (current_temp_schedule t + 0.3) (target_temp t).

Definition delta (t : NextTransition) : Q :=
  target_temp t - current_temp_schedule t.

Definition minutes_until (t : NextTransition) (now : Py.datetime) : option Q :=
  match target_time t with
  | None => None
  | Some tt0 => Some (Py.max 0 (Py.total_seconds (tt0 - now)%Z / 60))
  end.

Record ScheduleParser := { schedule_entity : option string }.

(** The dictionary [_parse_single_event] returns. *)
Record ParsedEvent := {
  start_dt : Py.datetime;
  end_dt : Py.datetime;
  ev_state : string
}.

(** Calendar: a date is a day number, day 0 being a Thursday (1970-01-01). *)
Definition date_of (now : Py.datetime) : Z := (now / Py.one_day)%Z.

Definition combine (date time : Z) : Py.datetime := (date * Py.one_day + time)%Z.

Definition day_names : list string :=
  ["Monday"; "Tuesday"; "Wednesday"; "Thursday"; "Friday"; "Saturday"; "Sunday"]%string.

Section Parser.

Context `{Builtins}.

(** [d.strftime("%A").lower()]. *)
Definition weekday_of (date : Z) : string :=
  lower (nth (Z.to_nat ((date + 3) mod 7)) day_names ""%string).

(** [_parse_time]: the first of the three formats that reads the string. *)
Definition _parse_time (time_str : pyval) : Py.result Z :=
  let time_str := strip (str_of time_str) in
  match strptime_time time_str "%H:%M:%S" with
  | Some t => Py.Return t
  | None =>
      match strptime_time time_str "%H:%M" with
      | Some t => Py.Return t
      | None =>
          match strptime_time time_str "%I:%M %p" with
          | Some t => Py.Return t
          | None => Py.Raise Py.ValueError
          end
      end
  end.

(** [[d.lower() for d in days]]: an element that is not a string has no
    [lower]. *)
Fixpoint lower_all (days : list pyval) : Py.result (list string) :=
  match days with
  | [] => Py.Return []
  | PStr d :: rest => Py.bind (lower_all rest) (fun l => Py.Return (lower d :: l))
  | _ :: _ => Py.Raise Py.AttributeError
  end.

Definition _parse_single_event (event : pyval) (date : Z) (weekday : string)
    : Py.result (option ParsedEvent) :=
  match event with
  | PDict event =>
      let applies :=
        match event !! "days"%string with
        | Some (PList (d :: ds)) =>
            Py.bind (lower_all (d :: ds))
              (fun names => Py.Return (existsb (String.eqb weekday) names))
        | _ => Py.Return true
        end in
      Py.bind applies (fun ok =>
        if negb ok then Py.Return None
        else
          let start_str :=
            or_else (or_else (event !! "start"%string) (event !! "from"%string))
                    (event !! "time_start"%string) in
          let end_str :=
            or_else (or_else (event !! "end"%string) (event !! "to"%string))
                    (event !! "time_end"%string) in
          let state_val :=
            or_else (or_else (event !! "state"%string) (event !! "value"%string))
                    (event !! "temperature"%string) in
          match start_str, state_val with
          | Some start_v, Some state_v =>
              if negb (truthy start_v) || negb (truthy state_v) then Py.Return None
              else
                match _parse_time start_v with
                | Py.Raise _ => Py.Return None
                | Py.Return start_time =>
                    let start := combine date start_time in
                    let finish :=
                      match end_str with
                      | Some end_v =>
                          if truthy end_v then
                            Py.bind (_parse_time end_v) (fun end_time =>
                              let e := combine date end_time in
                              Py.Return (if (e <=? start)%Z then (e + Py.one_day)%Z else e))
                          else Py.Return (start + 86340000000)%Z
                      | None => Py.Return (start + 86340000000)%Z
                      end in
                    match finish with
                    | Py.Raise _ => Py.Return None
                    | Py.Return e =>
                        Py.Return
                          (Some {| start_dt := start; end_dt := e;
                                   ev_state := str_of state_v |})
                    end
                end
          | _, _ => Py.Return None
          end)
  | _ => Py.Raise Py.AttributeError
  end.

(** The first loop: every event is parsed for today, the ones that apply
    are kept in order. *)
Fixpoint parse_all (events : list pyval) (date : Z) (weekday : string)
    : Py.result (list ParsedEvent) :=
  match events with
  | [] => Py.Return []
  | event :: rest =>
      Py.bind (_parse_single_event event date weekday) (fun ev =>
      Py.bind (parse_all rest date weekday) (fun evs =>
        Py.Return match ev with Some e => e :: evs | None => evs end))
  end.

Fixpoint insert_by_start (e : ParsedEvent) (l : list ParsedEvent) : list ParsedEvent :=
  match l with
  | [] => [e]
  | x :: l' =>
      if (start_dt e <=? start_dt x)%Z then e :: l else x :: insert_by_start e l'
  end.

(** [list.sort(key=start_dt)]: stable. *)
Definition sort_by_start (l : list ParsedEvent) : list ParsedEvent :=
  fold_right insert_by_start [] l.

(** The inner loop: the first later event that is more than 0.3 above the
    current one; an event whose value does not read is skipped. *)
Fixpoint first_above (current : ParsedEvent) (later : list ParsedEvent)
    : option ParsedEvent :=
  match later with
  | [] => None
  | candidate :: rest =>
      match float_of_str (ev_state candidate), float_of_str (ev_state current) with
      | Some candidate_temp, Some current_temp =>
          if Py.Qlt_bool (current_temp + 0.3) candidate_temp then Some candidate
          else first_above current rest
      | _, _ => first_above current rest
      end
  end.

(** The outer loop: stop at the first event that covers [now]. *)
Fixpoint next_today (now : Py.datetime) (sorted : list ParsedEvent)
    : option ParsedEvent :=
  match sorted with
  | [] => None
  | ev :: rest =>
      if (start_dt ev <=? now)%Z && (now <? end_dt ev)%Z
      then first_above ev rest
      else next_today now rest
  end.

(** The loop over tomorrow's events, in the order of the attribute. *)
Fixpoint next_tomorrow (events : list pyval) (tomorrow : Z) (weekday : string)
    (current_consigne : Q) : Py.result (option ParsedEvent) :=
  match events with
  | [] => Py.Return None
  | event :: rest =>
      Py.bind (_parse_single_event event tomorrow weekday) (fun ev =>
        match ev with
        | Some e =>
            match float_of_str (ev_state e) with
            | Some ev_temp =>
                if Py.Qlt_bool (current_consigne + 0.3) ev_temp
                then Py.Return (Some e)
                else next_tomorrow rest tomorrow weekday current_consigne
            | None => next_tomorrow rest tomorrow weekday current_consigne
            end
        | None => next_tomorrow rest tomorrow weekday current_consigne
        end)
  end.

(** [for event in events]: only a list gives events; the characters of a
    string and the keys of a dictionary have no [get], a number is not
    iterable.  The value is truthy here. *)
Definition iterate (events : pyval) : Py.result (list pyval) :=
  match events with
  | PList l => Py.Return l
  | PStr _ | PDict _ => Py.Raise Py.AttributeError
  | PNone | PBool _ | PNum _ => Py.Raise Py.TypeError
  end.

Definition is_list (v : option pyval) : bool :=
  match v with Some (PList _) => true | _ => false end.

Definition _parse_schedule_state (st : State) (current_consigne : Q)
    (now : Py.datetime) : Py.result (option NextTransition) :=
  let attrs := attributes st in
  let events := attrs !! "events"%string in
  let events :=
    if negb (truthy_opt events) || negb (is_list events)
    then or_else (attrs !! "schedule"%string) (attrs !! "entries"%string)
    else events in
  match events with
  | None => Py.Return None
  | Some events =>
      if negb (truthy events) then Py.Return None
      else
        Py.bind (iterate events) (fun events =>
          let today := date_of now in
          let current_weekday := weekday_of today in
          Py.bind (parse_all events today current_weekday) (fun parsed_events =>
            match parsed_events with
            | [] => Py.Return None
            | _ =>
                let parsed_events := sort_by_start parsed_events in
                let next_event :=
                  match next_today now parsed_events with
                  | Some e => Py.Return (Some e)
                  | None =>
                      let tomorrow := (today + 1)%Z in
                      next_tomorrow events tomorrow (weekday_of tomorrow)
                                    current_consigne
                  end in
                Py.bind next_event (fun next_event =>
                  match next_event with
                  | None => Py.Return None
                  | Some e =>
                      match float_of_str (ev_state e) with
                      | None => Py.Return None
                      | Some target =>
                          Py.Return
                            (Some {| target_time := Some (start_dt e);
                                     target_temp := target;
                                     current_temp_schedule := current_consigne;
                                     source := "schedule_state" |})
                      end
                  end)
            end))
  end.

(** The comfort and eco attributes as [_parse_vtherm_attrs] looks them up:
    [attrs.get("comfort_temp") or attrs.get("comfort")], likewise for eco. *)
Definition comfort_attr (st : State) : option pyval :=
  or_else (attributes st !! "comfort_temp"%string) (attributes st !! "comfort"%string).

Definition eco_attr (st : State) : option pyval :=
  or_else (attributes st !! "eco_temp"%string) (attributes st !! "eco"%string).

Definition _parse_vtherm_attrs (st : State) (current_consigne : Q)
    : option NextTransition :=
  match not_none (comfort_attr st), not_none (eco_attr st) with
  | Some comfort_temp, Some eco_temp =>
      match float comfort_temp with
      | Py.Return comfort =>
          match float eco_temp with
          | Py.Return eco =>
              if Qle_bool current_consigne (eco + 0.3)
                 && Py.Qlt_bool (eco + 0.3) comfort
              then Some {| target_time := None;
                           target_temp := comfort;
                           current_temp_schedule := current_consigne;
                           source := "vtherm_preset" |}
              else None
          | Py.Raise _ => None
          end
      | Py.Raise _ => None
      end
  | _, _ => None
  end.

(** [get_next_heating_transition].  [hass] and [now] are what the call
    reads from outside. *)
Definition get_next_heating_transition (self : ScheduleParser) (hass : Hass)
    (now : Py.datetime) : Py.result (option NextTransition) :=
  match schedule_entity self with
  | None => Py.Return None
  | Some entity =>
      if String.eqb entity "" then Py.Return None
      else
        match hass !! entity with
        | None => Py.Return None
        | Some st =>
            if String.eqb (state st) STATE_UNAVAILABLE
               || String.eqb (state st) STATE_UNKNOWN
            then Py.Return None
            else
              match float_of_str (state st) with
              | None => Py.Return None
              | Some current_consigne =>
                  Py.bind (_parse_schedule_state st current_consigne now)
                    (fun transition =>
                       match transition with
                       | Some t => Py.Return (Some t)
                       | None =>
                           match _parse_vtherm_attrs st current_consigne with
                           | Some t => Py.Return (Some t)
                           | None =>
                               Py.Return
                                 (Some {| target_time := None;
                                          target_temp := current_consigne;
                                          current_temp_schedule := current_consigne;
                                          source := "current_only" |})
                           end
                       end)
              end
        end
  end.

End Parser.

End ScheduleParser.

(** * Concrete inputs used by the examples below *)

Module Scenarios.

(** A session that gained 2 degrees in 40 minutes, with the given outdoor
    average and recorded speed. *)
Definition session_at (ext speed : Q) : ThermalModel.HeatingSession :=
  {| ThermalModel.date := "2025-01-10 06:00";
     ThermalModel.temp_start := 18;
     ThermalModel.temp_end := 20;
     ThermalModel.temp_ext_avg := ext;
     ThermalModel.delta_temp := 2;
     ThermalModel.duration_min := 40;
     ThermalModel.speed_degc_per_min := speed;
     ThermalModel.anticipated := false;
     ThermalModel.points := [] |}.

(** Three sessions of speeds 0.05, 0.06 and 0.055 recorded around 5 degrees
    outside. *)
Definition three_sessions_model : ThermalModel.ThermalModel :=
  ThermalModel.add_session
    (ThermalModel.add_session
       (ThermalModel.add_session (ThermalModel.init 0) (session_at 5 0.05))
       (session_at 4.8 0.06))
    (session_at 5.2 0.055).

(** One session of speed 1 degree per minute. *)
Definition unit_speed_model : ThermalModel.ThermalModel :=
  ThermalModel.add_session (ThermalModel.init 0) (session_at 5 1).

(** A history of [n] copies of a session. *)
Definition full_model (n : nat) : ThermalModel.ThermalModel :=
  ThermalModel._recalculate
    {| ThermalModel.sessions := repeat (session_at 5 0.05) n;
       ThermalModel.warmup_ignore_min := 0;
       ThermalModel._inertia := None |}.

Definition empty_dict : ThermalModel.SessionDict :=
  {| ThermalModel.d_date := None;
     ThermalModel.d_temp_start := None;
     ThermalModel.d_temp_end := None;
     ThermalModel.d_temp_ext_avg := None;
     ThermalModel.d_delta_temp := None;
     ThermalModel.d_duration_min := None;
     ThermalModel.d_speed_degc_per_min := None;
     ThermalModel.d_anticipated := None |}.

(** A completed cycle that arrived [early] minutes early. *)
Definition result_early (early : Q) (ok : option bool) : Feedback.AnticipationResult :=
  {| Feedback.date := 0%Z;
     Feedback.target_temp := 20;
     Feedback.actual_temp_at_target_time := 20;
     Feedback.temp_at_start := 18;
     Feedback.target_time := 0%Z;
     Feedback.actual_arrival_time := None;
     Feedback.minutes_early := early;
     Feedback.margin_used := 1.15;
     Feedback.llm_adjustment := 0;
     Feedback.ext_temp_avg := 5;
     Feedback.success := ok |}.

Definition pending_cycle : Feedback.Pending :=
  {| Feedback.p_target_temp := 20;
     Feedback.p_target_time := 600000000%Z;
     Feedback.p_temp_at_start := 18;
     Feedback.p_margin_used := 1.15;
     Feedback.p_llm_adjustment := 0;
     Feedback.p_ext_temp := 5;
     Feedback.p_started_at := 0%Z |}.

(** A loop with the given history and one cycle being tracked. *)
Definition tracking_loop (h : list Feedback.AnticipationResult) : Feedback.FeedbackLoop :=
  {| Feedback.zone_name := "salon";
     Feedback.history := h;
     Feedback._pending_start := Some pending_cycle |}.

(** A Python runtime that reads the few strings the examples use. *)
Definition simple_builtins : HA.Builtins :=
  {| HA.float_of_str :=
       fun s =>
         if String.eqb s "0" then Some 0
         else if String.eqb s "16" then Some 16
         else if String.eqb s "19" then Some 19
         else if String.eqb s "19.5" then Some 19.5
         else None;
     HA.str_of := fun v => match v with HA.PStr s => s | _ => ""%string end;
     HA.strip := fun s => s;
     HA.lower := fun s => s;
     HA.strptime_time :=
       fun s fmt =>
         if String.eqb fmt "%H:%M" then
           if String.eqb s "08:00" then Some 28800000000%Z
           else if String.eqb s "17:00" then Some 61200000000%Z
           else if String.eqb s "21:00" then Some 75600000000%Z
           else None
         else None |}.

(** The schedule entity shows [setpoint]; the thermostat reports
    [reported] as its target temperature. *)
Definition home (setpoint : string) (reported : Q) : HA.Hass :=
  <["sensor.planning"%string :=
      {| HA.state := setpoint; HA.attributes := ∅ |}]>
  (<["climate.salon"%string :=
      {| HA.state := "heat";
         HA.attributes := <["temperature"%string := HA.PNum reported]> ∅ |}]> ∅).

(** Time is counted from midnight; [minute n] is [n] minutes later. *)
Definition minute (n : Z) : Py.datetime := (n * 60000000)%Z.

Definition env_at (now : Py.datetime) (reported : Q) (ok : bool) : Anticipation.Env :=
  {| Anticipation.hass := home "16" reported;
     Anticipation.now := now;
     Anticipation.send_now := now;
     Anticipation.service_ok := ok |}.

Definition idle_engine : Anticipation.AnticipationEngine :=
  Anticipation.init "salon" "climate.salon" (Some "sensor.planning"%string) true 1800.

(** An engine that started anticipating 19.5 degrees for 17:00 at 16:30 and
    last sent its command at [last_sent]. *)
Definition active_engine (last_sent : option Py.datetime) : Anticipation.AnticipationEngine :=
  {| Anticipation.zone_name := "salon";
     Anticipation.climate_entity := "climate.salon";
     Anticipation.schedule_entity := Some "sensor.planning"%string;
     Anticipation.anti_short_cycle := true;
     Anticipation.min_off_time_sec := 1800;
     Anticipation.state :=
       {| Anticipation.active := true;
          Anticipation.target_consigne := Some 19.5;
          Anticipation.target_time := Some (minute 1020);
          Anticipation.minutes_needed := Some 30;
          Anticipation.minutes_until_target := Some 30;
          Anticipation.optimal_start_time := Some (minute 990);
          Anticipation.started_at := Some (minute 990);
          Anticipation.temp_at_start := Some 17 |};
     Anticipation._last_consigne_sent := match last_sent with Some _ => Some 19.5 | None => None end;
     Anticipation._last_consigne_sent_time := last_sent |}.

(** A schedule entity at 16 degrees with comfort and eco presets and no
    event list. *)
Definition preset_entity (comfort eco : HA.pyval) : HA.State :=
  {| HA.state := "16";
     HA.attributes :=
       <["comfort_temp"%string := comfort]> (<["eco_temp"%string := eco]> ∅) |}.

Definition preset_home (comfort eco : HA.pyval) : HA.Hass :=
  <["sensor.planning"%string := preset_entity comfort eco]> ∅.

Definition planning_parser : ScheduleParser.ScheduleParser :=
  {| ScheduleParser.schedule_entity := Some "sensor.planning"%string |}.

(** One event of an event list. *)
Definition event (start finish value : string) : HA.pyval :=
  HA.PDict (<["start"%string := HA.PStr start]>
            (<["end"%string := HA.PStr finish]>
             (<["state"%string := HA.PStr value]> ∅))).

(** A schedule entity at 16 degrees with the events 08:00-17:00 at 16 and
    17:00-21:00 at 19.5. *)
Definition event_entity : HA.State :=
  {| HA.state := "16";
     HA.attributes :=
       <["events"%string :=
           HA.PList [event "08:00" "17:00" "16"; event "17:00" "21:00" "19.5"]]> ∅ |}.

End Scenarios.

(** * Predicates in the words of the specification *)

Module Spec.

(** What the two lookups of [_parse_vtherm_attrs] find:
    [attrs.get("comfort_temp") or attrs.get("comfort")] and
    [attrs.get("eco_temp") or attrs.get("eco")] give values that read as
    the numbers [comfort] and [eco]. *)
Definition presets_found `{HA.Builtins} (st : HA.State) (comfort eco : Q) : Prop :=
  exists comfort_value eco_value,
    ScheduleParser.comfort_attr st = Some comfort_value
    /\ HA.float comfort_value = Py.Return comfort
    /\ ScheduleParser.eco_attr st = Some eco_value
    /\ HA.float eco_value = Py.Return eco.

(** The current set-point is at or near eco (not more than 0.3 above it)
    and comfort exceeds eco by more than 0.3. *)
Definition eco_now_comfort_next (current comfort eco : Q) : Prop :=
  current <= eco + 0.3 /\ eco + 0.3 < comfort.

(** The transition the preset strategy reports. *)
Definition to_comfort (comfort current : Q) : ScheduleParser.NextTransition :=
  {| ScheduleParser.target_time := None;
     ScheduleParser.target_temp := comfort;
     ScheduleParser.current_temp_schedule := current;
     ScheduleParser.source := "vtherm_preset" |}.

(** The transition the fallback reports. *)
Definition current_only (current : Q) : ScheduleParser.NextTransition :=
  {| ScheduleParser.target_time := None;
     ScheduleParser.target_temp := current;
     ScheduleParser.current_temp_schedule := current;
     ScheduleParser.source := "current_only" |}.

End Spec.

(** * feedback.py: the persisted form of the history *)

Module FeedbackStore.

Import Feedback.

(** A persisted result: the decoded JSON object, each key present or
    absent; [actual_arrival_time] and [success] may hold [null]. *)
Record ResultDict := {
  d_date : option Py.datetime;
  d_target_temp : option Q;
  d_actual_temp_at_target_time : option Q;
  d_temp_at_start : option Q;
  d_target_time : option Py.datetime;
  d_actual_arrival_time : option (option Py.datetime);
  d_minutes_early : option Q;
  d_margin_used : option Q;
  d_llm_adjustment : option Q;
  d_ext_temp_avg : option Q;
  d_success : option (option bool)
}.

Definition to_dict (r : AnticipationResult) : ResultDict :=
  {| d_date := Some (date r);
     d_target_temp := Some (target_temp r);
     d_actual_temp_at_target_time := Some (actual_temp_at_target_time r);
     d_temp_at_start := Some (temp_at_start r);
     d_target_time := Some (target_time r);
     d_actual_arrival_time := Some (actual_arrival_time r);
     d_minutes_early := Some (minutes_early r);
     d_margin_used := Some (margin_used r);
     d_llm_adjustment := Some (llm_adjustment r);
     d_ext_temp_avg := Some (ext_temp_avg r);
     d_success := Some (success r) |}.

(** [from_dict]: the constructor is called with the keys that are there;
    [None] stands for the [TypeError] of a missing argument. *)
Definition from_dict (data : ResultDict) : option AnticipationResult :=
  match d_date data, d_target_temp data, d_actual_temp_at_target_time data,
        d_temp_at_start data, d_target_time data, d_actual_arrival_time data,
        d_minutes_early data, d_margin_used data, d_llm_adjustment data,
        d_ext_temp_avg data, d_success data with
  | Some a, Some b, Some c, Some d, Some e, Some f, Some g, Some h, Some i,
    Some j, Some k =>
      Some {| date := a;
              target_temp := b;
              actual_temp_at_target_time := c;
              temp_at_start := d;
              target_time := e;
              actual_arrival_time := f;
              minutes_early := g;
              margin_used := h;
              llm_adjustment := i;
              ext_temp_avg := j;
              success := k |}
  | _, _, _, _, _, _, _, _, _, _, _ => None
  end.

(** [[AnticipationResult.from_dict(d) for d in data]]: the first error
    ends the comprehension. *)
Fixpoint decode_all (data : list ResultDict) : option (list AnticipationResult) :=
  match data with
  | [] => Some []
  | d :: rest =>
      match from_dict d with
      | None => None
      | Some r =>
          match decode_all rest with
          | None => None
          | Some rs => Some (r :: rs)
          end
      end
  end.

(** [load_history] on the persisted list. *)
Definition load_history_data (self : FeedbackLoop) (data : list ResultDict)
    : FeedbackLoop :=
  load_history self (decode_all data).

(** [get_history_data] as it is written to storage. *)
Definition get_history_dicts (self : FeedbackLoop) : list ResultDict :=
  map to_dict (get_history_data self).

End FeedbackStore.

(** * coordinator.py: session tracking and the anticipation figures *)

Module Coordinator.

Import HA.

Definition MIN_SESSION_DURATION_SEC : Q := 300.
Definition MIN_SESSION_DELTA_TEMP : Q := 0.3.

Definition STATE_LEARNING : string := "learning".
Definition STATE_READY : string := "ready".
Definition STATE_ANTICIPATING : string := "anticipating".

(** The [_current_session] dictionary; a point is the time and the indoor
    temperature of one observation. *)
Record CurrentSession := {
  start_time : Py.datetime;
  cs_temp_start : Q;
  temp_ext_start : option Q;
  cs_points : list (Py.datetime * Q)
}.

(** The fields of [SmartHeatingCoordinator] the modelled methods use. *)
Record Coordinator := {
  schedule_entity : option string;
  safety_margin : Q;
  warmup_ignore_min : Q;
  anti_short_cycle : bool;
  min_off_time_sec : Z;
  min_sessions : Z;
  thermal_model : ThermalModel.ThermalModel;
  feedback : Feedback.FeedbackLoop;
  _current_session : option CurrentSession;
  _last_off_time : option Py.datetime;
  _anticipation_active : bool;
  _llm_margin_adjustment : Q
}.

Definition with_session (self : Coordinator) (s : option CurrentSession) : Coordinator :=
  {| schedule_entity := schedule_entity self;
     safety_margin := safety_margin self;
     warmup_ignore_min := warmup_ignore_min self;
     anti_short_cycle := anti_short_cycle self;
     min_off_time_sec := min_off_time_sec self;
     min_sessions := min_sessions self;
     thermal_model := thermal_model self;
     feedback := feedback self;
     _current_session := s;
     _last_off_time := _last_off_time self;
     _anticipation_active := _anticipation_active self;
     _llm_margin_adjustment := _llm_margin_adjustment self |}.

Definition with_last_off_time (self : Coordinator) (t : option Py.datetime) : Coordinator :=
  {| schedule_entity := schedule_entity self;
     safety_margin := safety_margin self;
     warmup_ignore_min := warmup_ignore_min self;
     anti_short_cycle := anti_short_cycle self;
     min_off_time_sec := min_off_time_sec self;
     min_sessions := min_sessions self;
     thermal_model := thermal_model self;
     feedback := feedback self;
     _current_session := _current_session self;
     _last_off_time := t;
     _anticipation_active := _anticipation_active self;
     _llm_margin_adjustment := _llm_margin_adjustment self |}.

Definition with_thermal_model (self : Coordinator) (m : ThermalModel.ThermalModel)
    : Coordinator :=
  {| schedule_entity := schedule_entity self;
     safety_margin := safety_margin self;
     warmup_ignore_min := warmup_ignore_min self;
     anti_short_cycle := anti_short_cycle self;
     min_off_time_sec := min_off_time_sec self;
     min_sessions := min_sessions self;
     thermal_model := m;
     feedback := feedback self;
     _current_session := _current_session self;
     _last_off_time := _last_off_time self;
     _anticipation_active := _anticipation_active self;
     _llm_margin_adjustment := _llm_margin_adjustment self |}.

(** What [_calculate_anticipation] returns; a key that is not set is
    [None]. *)
Record Calc := {
  optimal_start : option Py.datetime;
  minutes_needed : option Q;
  next_consigne : option Q;
  next_time : option Py.datetime;
  should_start_now : option bool;
  minutes_until_start : option Q
}.

Definition no_calc : Calc :=
  {| optimal_start := None;
     minutes_needed := None;
     next_consigne := None;
     next_time := None;
     should_start_now := None;
     minutes_until_start := None |}.

(** [hvac_action == "heating"] on the result of [_get_attribute]. *)
Definition is_heating (hvac_action : option pyval) : bool :=
  match hvac_action with
  | Some (PStr s) => String.eqb s "heating"
  | _ => false
  end.

(** [self.feedback.get_margin_suggestion() or 0.0]. *)
Definition or_zero (v : option Q) : Q :=
  match v with
  | Some q => if Py.truthy q then q else 0
  | None => 0
  end.

Definition effective_margin (self : Coordinator) : Q :=
  safety_margin self + _llm_margin_adjustment self
  + or_zero (Feedback.get_margin_suggestion (feedback self)).

(** [num_sessions]. *)
Definition num_sessions (m : ThermalModel.ThermalModel) : Z :=
  Z.of_nat (length (ThermalModel.sessions m)).

Definition _compute_state (self : Coordinator) : string :=
  if (num_sessions (thermal_model self) <? min_sessions self)%Z then STATE_LEARNING
  else if _anticipation_active self then STATE_ANTICIPATING
  else STATE_READY.

Definition _is_anti_cycle_active (self : Coordinator) (now : Py.datetime) : bool :=
  match _last_off_time self with
  | None => false
  | Some last_off =>
      if negb (anti_short_cycle self) then false
      else Py.Qlt_bool (Py.total_seconds (now - last_off)%Z)
                       (inject_Z (min_off_time_sec self))
  end.

(** [_handle_reset_sessions]: the history is cleared and the statistics
    recalculated. *)
Definition reset_sessions (self : Coordinator) : Coordinator :=
  with_thermal_model self
    (ThermalModel._recalculate
       {| ThermalModel.sessions := [];
          ThermalModel.warmup_ignore_min :=
            ThermalModel.warmup_ignore_min (thermal_model self);
          ThermalModel._inertia := ThermalModel._inertia (thermal_model self) |}).

Section Methods.

Context `{Builtins}.

(** [strftime("%Y-%m-%d %H:%M")]. *)
Variable format_date : Py.datetime -> string.

Definition _get_float_state (hass : Hass) (entity_id : string) : option Q :=
  match hass !! entity_id with
  | None => None
  | Some st =>
      if String.eqb (state st) STATE_UNAVAILABLE
         || String.eqb (state st) STATE_UNKNOWN
      then None
      else float_of_str (state st)
  end.

Definition _get_attribute (hass : Hass) (entity_id attr : string) : option pyval :=
  match hass !! entity_id with
  | None => None
  | Some st => attributes st !! attr
  end.

Definition _get_schedule_consigne (self : Coordinator) (hass : Hass) : option Q :=
  match schedule_entity self with
  | None => None
  | Some entity =>
      if String.eqb entity "" then None else _get_float_state hass entity
  end.

(** [_end_session]: the coordinator after the call and whether
    [_save_data] ran.  [clock k] is the [k]-th reading of [datetime.now()]
    in the call. *)
Definition _end_session (self : Coordinator) (temp_indoor temp_outdoor : option Q)
    (clock : nat -> Py.datetime) : Coordinator * bool :=
  match _current_session self, temp_indoor with
  | Some session, Some temp_indoor =>
      let self1 := with_last_off_time (with_session self None) (Some (clock 0%nat)) in
      let duration := Py.total_seconds (clock 1%nat - start_time session)%Z in
      let delta_temp := temp_indoor - cs_temp_start session in
      if Py.Qlt_bool duration MIN_SESSION_DURATION_SEC
         || Py.Qlt_bool delta_temp MIN_SESSION_DELTA_TEMP
      then (self1, false)
      else
        let duration_min := duration / 60 in
        let effective_duration := Py.max 0 (duration_min - warmup_ignore_min self) in
        if Qle_bool effective_duration 0 then (self1, false)
        else
          let speed := delta_temp / effective_duration in
          let ext_temps :=
            match temp_ext_start session with Some t => [t] | None => [] end
            ++ match temp_outdoor with Some t => [t] | None => [] end in
          let temp_ext_avg :=
            match ext_temps with
            | [] => 0
            | _ => Py.sum ext_temps / inject_Z (Z.of_nat (length ext_temps))
            end in
          let heating_session :=
            {| ThermalModel.date := format_date (clock 2%nat);
               ThermalModel.temp_start := cs_temp_start session;
               ThermalModel.temp_end := temp_indoor;
               ThermalModel.temp_ext_avg := Py.round_ndigits temp_ext_avg 1;
               ThermalModel.delta_temp := Py.round_ndigits delta_temp 2;
               ThermalModel.duration_min := Py.round_ndigits duration_min 1;
               ThermalModel.speed_degc_per_min := Py.round_ndigits speed 5;
               ThermalModel.anticipated := _anticipation_active self;
               ThermalModel.points := [] |} in
          (with_thermal_model self1
             (ThermalModel.add_session (thermal_model self1) heating_session),
           true)
  | _, _ => (with_session self None, false)
  end.

Definition _track_heating_session (self : Coordinator) (hvac_action : option pyval)
    (temp_indoor temp_outdoor : option Q) (clock : nat -> Py.datetime)
    : Coordinator * bool :=
  match is_heating hvac_action, _current_session self with
  | true, None =>
      match temp_indoor with
      | Some t =>
          (with_session self
             (Some {| start_time := clock 0%nat;
                      cs_temp_start := t;
                      temp_ext_start := temp_outdoor;
                      cs_points := [(clock 1%nat, t)] |}),
           false)
      | None => (self, false)
      end
  | true, Some session =>
      match temp_indoor with
      | Some t =>
          (with_session self
             (Some {| start_time := start_time session;
                      cs_temp_start := cs_temp_start session;
                      temp_ext_start := temp_ext_start session;
                      cs_points := cs_points session ++ [(clock 0%nat, t)] |}),
           false)
      | None => (self, false)
      end
  | false, Some _ => _end_session self temp_indoor temp_outdoor clock
  | false, None => (self, false)
  end.

(** [_calculate_anticipation]; [now] is the clock [minutes_until] reads. *)
Definition _calculate_anticipation (self : Coordinator) (hass : Hass)
    (temp_indoor temp_outdoor : option Q)
    (next_transition : option ScheduleParser.NextTransition)
    (now : Py.datetime) : Calc :=
  match temp_indoor, temp_outdoor with
  | Some temp_indoor, Some temp_outdoor =>
      if (num_sessions (thermal_model self) <? min_sessions self)%Z then no_calc
      else
        let from_schedule :=
          match _get_schedule_consigne self hass with
          | Some schedule_consigne =>
              if Py.Qlt_bool (temp_indoor + 0.3) schedule_consigne
              then Some (schedule_consigne, None)
              else None
          | None => None
          end in
        let target :=
          match next_transition with
          | Some t =>
              if ScheduleParser.is_heating_up t
              then Some (ScheduleParser.target_temp t, Some t)
              else from_schedule
          | None => from_schedule
          end in
        match target with
        | None => no_calc
        | Some (next_consigne0, transition) =>
            if Qle_bool next_consigne0 temp_indoor then no_calc
            else
              match ThermalModel.estimate_time_to_target (thermal_model self)
                      temp_indoor next_consigne0 temp_outdoor
                      (effective_margin self) with
              | None => no_calc
              | Some minutes_needed0 =>
                  match transition with
                  | Some t =>
                      match ScheduleParser.target_time t with
                      | Some target_time =>
                          let until := ScheduleParser.minutes_until t now in
                          {| optimal_start :=
                               Some (target_time - Py.timedelta_minutes minutes_needed0)%Z;
                             minutes_needed := Some minutes_needed0;
                             next_consigne := Some next_consigne0;
                             next_time := Some target_time;
                             should_start_now :=
                               match until with
                               | Some u => Some (Qle_bool u minutes_needed0)
                               | None => Some true
                               end;
                             minutes_until_start :=
                               match until with
                               | Some u => Some (Py.round_ndigits (u - minutes_needed0) 0)
                               | None => Some 0
                               end |}
                      | None =>
                          {| optimal_start := None;
                             minutes_needed := Some minutes_needed0;
                             next_consigne := Some next_consigne0;
                             next_time := None;
                             should_start_now := Some true;
                             minutes_until_start := Some 0 |}
                      end
                  | None =>
                      {| optimal_start := None;
                         minutes_needed := Some minutes_needed0;
                         next_consigne := Some next_consigne0;
                         next_time := None;
                         should_start_now := Some true;
                         minutes_until_start := Some 0 |}
                  end
              end
        end
  | _, _ => no_calc
  end.

End Methods.

End Coordinator.

(** * More concrete inputs *)

Module MoreScenarios.

(** A schedule entity at 16 degrees whose event list holds a number where
    an event is expected. *)
Definition broken_entity : HA.State :=
  {| HA.state := "16";
     HA.attributes :=
       <["events"%string :=
           HA.PList [Scenarios.event "08:00" "17:00" "16"; HA.PNum 17]]> ∅ |}.

(** A coordinator for the zone of the scenarios. *)
Definition coordinator (m : ThermalModel.ThermalModel)
    (session : option Coordinator.CurrentSession) (min_sessions0 : Z)
    : Coordinator.Coordinator :=
  {| Coordinator.schedule_entity := Some "sensor.planning"%string;
     Coordinator.safety_margin := 1.15;
     Coordinator.warmup_ignore_min := 0;
     Coordinator.anti_short_cycle := true;
     Coordinator.min_off_time_sec := 1800;
     Coordinator.min_sessions := min_sessions0;
     Coordinator.thermal_model := m;
     Coordinator.feedback := Feedback.init "salon";
     Coordinator._current_session := session;
     Coordinator._last_off_time := None;
     Coordinator._anticipation_active := false;
     Coordinator._llm_margin_adjustment := 0 |}.

(** A heating period that began at 16:00 at 17 degrees. *)
Definition running_session : Coordinator.CurrentSession :=
  {| Coordinator.start_time := Scenarios.minute 960;
     Coordinator.cs_temp_start := 17;
     Coordinator.temp_ext_start := Some 5;
     Coordinator.cs_points := [(Scenarios.minute 960, 17)] |}.

(** A history of two sessions that gained nothing: both speeds are 0. *)
Definition stalled_model : ThermalModel.ThermalModel :=
  ThermalModel._recalculate
    {| ThermalModel.sessions := [Scenarios.session_at 5 0; Scenarios.session_at 4 0];
       ThermalModel.warmup_ignore_min := 0;
       ThermalModel._inertia := None |}.

(** Every clock reading of a call gives the same instant. *)
Definition at_instant (t : Py.datetime) : nat -> Py.datetime := fun _ => t.

Definition format_date (t : Py.datetime) : string := "2025-01-10 16:40".

End MoreScenarios.

(** * Properties named in the statements below *)

Module Invariants.

(** An Active state has its target, times and start temperature set. *)
Definition state_complete (s : Anticipation.AnticipationState) : Prop :=
  Anticipation.active s = true ->
  exists target time needed remaining started temp,
    Anticipation.target_consigne s = Some target
    /\ Anticipation.target_time s = Some time
    /\ Anticipation.minutes_needed s = Some needed
    /\ Anticipation.minutes_until_target s = Some remaining
    /\ Anticipation.started_at s = Some started
    /\ Anticipation.temp_at_start s = Some temp.

(** The state [async_evaluate] builds on activation. *)
Definition activated (next_consigne temp_indoor minutes_needed : Q)
    (target_time now : Py.datetime) : Anticipation.AnticipationState :=
  {| Anticipation.active := true;
     Anticipation.target_consigne := Some next_consigne;
     Anticipation.target_time := Some target_time;
     Anticipation.minutes_needed := Some minutes_needed;
     Anticipation.minutes_until_target := Some minutes_needed;
     Anticipation.optimal_start_time := Some now;
     Anticipation.started_at := Some now;
     Anticipation.temp_at_start := Some temp_indoor |}.

(** An event entry the parser can read: a dictionary whose [days], when
    it is a list, holds strings only. *)
Definition well_formed_event (event : HA.pyval) : Prop :=
  match event with
  | HA.PDict d =>
      match d !! "days"%string with
      | Some (HA.PList days) => Forall (fun x => exists s, x = HA.PStr s) days
      | _ => True
      end
  | _ => False
  end.

(** [strptime(...).time()] gives a time of day. *)
Definition times_of_day `{HA.Builtins} : Prop :=
  forall s fmt t, HA.strptime_time s fmt = Some t -> (0 <= t < Py.one_day)%Z.

End Invariants.

(** * Binary64: the floats of Python as rationals

    A double is the rational it denotes.  Every operation returns the
    double nearest to its exact result, ties to the even mantissa; the
    exponent is unbounded. *)

Module Binary64.

(** The mantissa has 53 bits. *)
Definition prec : Z := 53.

(** The magnitude of [x <> 0]: the [e] with [2^(e-1) <= |x| < 2^e]. *)
Definition mag (x : Q) : Z :=
  let e0 := (Z.log2 (Z.abs (Qnum x)) - Z.log2 (Zpos (Qden x)))%Z in
  if Qle_bool (2 ^ e0) (Qabs x) then (e0 + 1)%Z else e0.

(** The double nearest to [x]: [x] scaled to a mantissa of 53 bits, rounded
    to the nearest integer, ties to even, and scaled back. *)
Definition fl (x : Q) : Q :=
  if Qeq_bool x 0 then 0
  else
    let e := (mag x - prec)%Z in
    Qred (inject_Z (Py.round_half_even (x / 2 ^ e)) * 2 ^ e).

(** The rationals that are doubles. *)
Definition is_float (x : Q) : Prop := fl x == x.

(** The same as a test. *)
Definition is_floatb (x : Q) : bool := Qeq_bool (fl x) x.

(** Every number of a list is a double. *)
Definition floats (l : list Q) : Prop := forallb is_floatb l = true.

(** A decimal literal of the source denotes the nearest double. *)
Definition lit (q : Q) : Q := fl q.

(** [float(n)] of an integer, as in [x - n] for a float [x]. *)
Definition of_int (z : Z) : Q := fl (inject_Z z).

(** [x + y], [x - y], [x * y] and [x / y] on floats: the exact result,
    rounded.  [m / n] on two integers is rounded the same way. *)
Definition add (x y : Q) : Q := fl (x + y).
Definition sub (x y : Q) : Q := fl (x - y).
Definition mul (x y : Q) : Q := fl (x * y).
Definition div (x y : Q) : Q := fl (x / y).

(** [round(x, n)] of a float: the decimal rounding of the value of [x]
    (ties to even), then the nearest double. *)
Definition round_ndigits (x : Q) (n : nat) : Q := fl (Py.round_ndigits x n).

(** [statistics.mean] of floats: the exact sum and quotient, rounded
    once. *)
Definition mean (l : list Q) : Q := fl (Py.mean l).

(** [statistics.median] of floats; [None] stands for the
    [StatisticsError] raised on an empty list. *)
Definition median (l : list Q) : option Q :=
  let data := Py.sorted l in
  let n := length data in
  match n with
  | O => None
  | _ =>
      if Nat.odd n then nth_error data (n / 2)
      else
        let i := (n / 2)%nat in
        match nth_error data (i - 1), nth_error data i with
        | Some a, Some b => Some (div (add a b) 2)
        | _, _ => None
        end
  end.

(** [timedelta.total_seconds()]: the microseconds divided by [10**6]. *)
Definition total_seconds (td : Py.timedelta) : Q := fl (inject_Z td / 1000000).

(** [math.modf]: the whole part of a float, towards zero. *)
Definition trunc (x : Q) : Z := if Qle_bool 0 x then Qfloor x else Qceiling x.

(** [timedelta(minutes=m)] for a float [m]: the whole minutes are
    converted exactly, the fraction of a minute is multiplied by
    [60000000] as a float and rounded to the microsecond. *)
Definition timedelta_minutes (m : Q) : Py.timedelta :=
  (trunc m * 60000000
   + Py.round_half_even (mul (m - inject_Z (trunc m)) 60000000))%Z.

End Binary64.

(** * Inputs that are doubles *)

(** The functions of the binary64 modules take the values of doubles.  The
    predicates below say that the numbers a call reads are doubles. *)
Module Typed.

(** The number of an optional argument. *)
Definition number (o : option Q) : list Q :=
  match o with Some x => [x] | None => [] end.

(** [float(s)] returns doubles. *)
Definition builtins `{HA.Builtins} : Prop :=
  forall s q, HA.float_of_str s = Some q -> Binary64.is_float q.

(** The numbers among the attributes of the entities. *)
Definition numbers_of_state (st : HA.State) : list Q :=
  flat_map
    (fun kv : string * HA.pyval =>
       match snd kv with HA.PNum q => [q] | _ => [] end)
    (map_to_list (HA.attributes st)).

Definition numbers_of_hass (h : HA.Hass) : list Q :=
  flat_map (fun entry : string * HA.State => numbers_of_state (snd entry))
           (map_to_list h).

(** The numbers among the attributes of the entities are doubles. *)
Definition hass (h : HA.Hass) : Prop := Binary64.floats (numbers_of_hass h).

End Typed.

(** * thermal_model.py in binary64 *)

Module ThermalModel64.

Import ThermalModel.

(** The numbers of a session and of a model: the fields of the sessions,
    the warm-up time and the stored average. *)
Definition numbers_of_session (s : HeatingSession) : list Q :=
  [temp_start s; temp_end s; temp_ext_avg s; delta_temp s; duration_min s;
   speed_degc_per_min s].

Definition numbers (self : ThermalModel) : list Q :=
  flat_map numbers_of_session (sessions self)
  ++ warmup_ignore_min self :: Typed.number (avg_speed_of self).

(** [round(x / 5) * 5]. *)
Definition bucket_of (t : Q) : Z := (Py.round_half_even (Binary64.div t 5) * 5)%Z.

(** [_recalculate]: the new value of [_inertia]. *)
Definition recalculate_inertia (ss : list HeatingSession) : option Inertia :=
  match ss with
  | [] => None
  | _ =>
      let valid := filter is_valid ss in
      match map speed_degc_per_min valid with
      | [] => None
      | v0 :: vs =>
          let speeds := v0 :: vs in
          let by_ext :=
            fold_left
              (fun m s => by_ext_append (bucket_of (temp_ext_avg s)) (speed_degc_per_min s) m)
              valid [] in
          let by_ext_avg :=
            map (fun kv => (fst kv, Binary64.round_ndigits (Binary64.mean (snd kv)) 5))
                by_ext in
          Some {| avg_speed := Binary64.round_ndigits (Binary64.mean speeds) 5;
                  median_speed :=
                    Binary64.round_ndigits (get (Binary64.median speeds) 0) 5;
                  min_speed := Binary64.round_ndigits (Py.min_list v0 vs) 5;
                  max_speed := Binary64.round_ndigits (Py.max_list v0 vs) 5;
                  num_sessions := length valid;
                  min_per_deg :=
                    if Py.Qlt_bool 0 (Binary64.mean speeds)
                    then Some (Binary64.round_ndigits
                                 (Binary64.div 1 (Binary64.mean speeds)) 1)
                    else None;
                  by_ext_temp := by_ext_avg |}
      end
  end.

Definition _recalculate (self : ThermalModel) : ThermalModel :=
  {| sessions := sessions self;
     warmup_ignore_min := warmup_ignore_min self;
     _inertia := recalculate_inertia (sessions self) |}.

(** Sessions whose outdoor average is within 5 of the bucket. *)
Definition nearby_sessions (self : ThermalModel) (ext_temp : Q) : list HeatingSession :=
  filter
    (fun s =>
       Qle_bool
         (Qabs (Binary64.sub (temp_ext_avg s) (Binary64.of_int (bucket_of ext_temp))))
         5)
    (sessions self).

Definition _get_speed_for_ext_temp (self : ThermalModel) (ext_temp : Q) : option Q :=
  match sessions self with
  | [] => None
  | _ =>
      let nearby := nearby_sessions self ext_temp in
      let speeds :=
        filter (fun v => Py.Qlt_bool 0 v) (map speed_degc_per_min nearby) in
      match speeds with
      | _ :: _ => Binary64.median speeds
      | [] => avg_speed_of self
      end
  end.

(** [estimate_time_to_target]: [None] is "not enough data". *)
Definition estimate_time_to_target (self : ThermalModel)
    (current_temp target_temp ext_temp margin : Q) : option Q :=
  let delta := Binary64.sub target_temp current_temp in
  if Qle_bool delta 0 then Some 0
  else
    match _get_speed_for_ext_temp self ext_temp with
    | None => None
    | Some speed =>
        if Qle_bool speed 0 then None
        else
          let base_minutes := Binary64.div delta speed in
          Some (Binary64.round_ndigits (Binary64.mul base_minutes margin) 0)
    end.

End ThermalModel64.

(** * feedback.py in binary64 *)

Module Feedback64.

Import Feedback.

(** The numbers [get_margin_suggestion] reads: the minutes-early of the
    results. *)
Definition numbers (self : FeedbackLoop) : list Q :=
  map minutes_early (history self).

Definition MARGIN_ADJUST_STEP : Q := Binary64.lit 0.02.

(** [record_result]: the loop after the call and the value returned. *)
Definition record_result (self : FeedbackLoop) (current_temp : Q)
    (reached_target : bool) (now : Py.datetime)
    : FeedbackLoop * option AnticipationResult :=
  match _pending_start self with
  | None => (self, None)
  | Some pending =>
      let target_time0 := p_target_time pending in
      let minutes_early0 :=
        if reached_target
        then Binary64.div (Binary64.total_seconds (target_time0 - now)%Z) 60
        else - Binary64.div (Binary64.total_seconds (now - target_time0)%Z) 60 in
      let actual_arrival :=
        if reached_target then Some now else None in
      let result :=
        {| date := now;
           target_temp := p_target_temp pending;
           actual_temp_at_target_time := current_temp;
           temp_at_start := p_temp_at_start pending;
           target_time := target_time0;
           actual_arrival_time := actual_arrival;
           minutes_early := Binary64.round_ndigits minutes_early0 1;
           margin_used := p_margin_used pending;
           llm_adjustment := p_llm_adjustment pending;
           ext_temp_avg := p_ext_temp pending;
           success := Some reached_target |} in
      let appended := history self ++ [result] in
      let kept :=
        if (MAX_HISTORY <? length appended)%nat
        then Py.last_n MAX_HISTORY appended else appended in
      ({| zone_name := zone_name self;
          history := kept;
          _pending_start := None |},
       Some result)
  end.

Definition avg_early_of (recent : list AnticipationResult) : Q :=
  Binary64.mean (map minutes_early recent).

(** [sum(1 for r in recent if r.success) / len(recent)]. *)
Definition success_rate_of (recent : list AnticipationResult) : Q :=
  Binary64.div (inject_Z (Z.of_nat (length (filter succeeded recent))))
               (inject_Z (Z.of_nat (length recent))).

Definition get_margin_suggestion (self : FeedbackLoop) : option Q :=
  let recent := recent_results self in
  if (length recent <? 3)%nat then None
  else
    let avg_early := avg_early_of recent in
    let success_rate := success_rate_of recent in
    let adjustment :=
      if Py.Qlt_bool 10 avg_early then Binary64.mul (- MARGIN_ADJUST_STEP) 2
      else if Py.Qlt_bool 5 avg_early then - MARGIN_ADJUST_STEP
      else if Py.Qlt_bool avg_early 0 then Binary64.mul MARGIN_ADJUST_STEP 2
      else if Py.Qlt_bool avg_early 2 then MARGIN_ADJUST_STEP
      else 0 in
    let adjustment :=
      if Py.Qlt_bool success_rate (Binary64.lit 0.7)
      then Py.max adjustment (Binary64.mul MARGIN_ADJUST_STEP 2)
      else adjustment in
    Some (Binary64.round_ndigits adjustment 3).

End Feedback64.

(** * anticipation.py in binary64 *)

Module Anticipation64.

Import HA.
Import Anticipation.

Section Engine.

Context `{Builtins}.

(** Minutes from [now] to [t]: [(t - now).total_seconds() / 60]. *)
Definition minutes_from (now0 t : Py.datetime) : Q :=
  Binary64.div (Binary64.total_seconds (t - now0)%Z) 60.

(** The [should_start] decision and the estimated target time. *)
Definition decide_start (env : Env) (self : AnticipationEngine)
    (minutes_needed0 next_consigne : Q) (target_time0 : option Py.datetime)
    : bool * option Py.datetime :=
  let without_target_time :=
    match _get_current_consigne env self with
    | Some current_sched =>
        if Py.Qlt_bool (Binary64.add current_sched (Binary64.lit 0.3)) next_consigne
        then (true, Some (now env + Binary64.timedelta_minutes minutes_needed0)%Z)
        else (false, target_time0)
    | None => (false, target_time0)
    end in
  match target_time0 with
  | Some transition_time =>
      if Py.Qlt_bool 0 minutes_needed0 then
        let minutes_until_transition := minutes_from (now env) transition_time in
        let minutes_until_start :=
          Binary64.sub minutes_until_transition minutes_needed0 in
        if Qle_bool minutes_until_start 2 then (true, target_time0)
        else if Py.Qlt_bool minutes_until_transition 0 then (true, target_time0)
        else (false, target_time0)
      else without_target_time
  | None => without_target_time
  end.

(** The resend decision of the "still active" branch: the 10-minute rule,
    then the drift of the thermostat's set-point. *)
Definition should_resend (env : Env) (self : AnticipationEngine) : bool :=
  let by_interval :=
    match _last_consigne_sent_time self with
    | None => true
    | Some t => Py.Qlt_bool 600 (Binary64.total_seconds (now env - t)%Z)
    end in
  let by_drift :=
    match _get_climate_setpoint env self, target_consigne (state self) with
    | Some climate_setpoint, Some target =>
        Py.Qlt_bool (Binary64.lit 0.3) (Qabs (Binary64.sub climate_setpoint target))
    | _, _ => false
    end in
  by_interval || by_drift.

Definition stay_active (env : Env) (self : AnticipationEngine) : Outcome :=
  let remaining :=
    Py.max 0
      match target_time (state self) with
      | Some t => minutes_from (now env) t
      | None => 0
      end in
  let self1 := with_state self (set_minutes_until_target (state self) (Some remaining)) in
  match target_consigne (state self1) with
  | Some target =>
      if should_resend env self1 && Py.truthy target
      then _send_consigne env self1 target
      else no_command self1
  | None => no_command self1
  end.

(** [async_evaluate]: the engine after the call (the value returned is its
    [state]) and the commands sent. *)
Definition async_evaluate (env : Env) (self : AnticipationEngine)
    (temp_indoor temp_outdoor minutes_needed0 next_consigne : option Q)
    (is_anti_cycle_active : bool) (target_time0 : option Py.datetime)
    (effective_margin : Q) : Outcome :=
  match temp_indoor, next_consigne, minutes_needed0 with
  | Some temp_indoor, Some next_consigne, Some minutes_needed0 =>
      if Qle_bool (Binary64.sub next_consigne (Binary64.lit 0.2)) temp_indoor then
        if active (state self)
        then no_command (_deactivate self)
        else no_command self
      else if is_anti_cycle_active && negb (active (state self))
      then no_command self
      else
        let '(should_start, estimated_target_time) :=
          decide_start env self minutes_needed0 next_consigne target_time0 in
        if should_start && negb (active (state self)) then
          let delta := Binary64.sub next_consigne temp_indoor in
          if Py.Qlt_bool (Binary64.lit 0.3) delta && Py.Qlt_bool 0 minutes_needed0 then
            let estimated_target_time :=
              match estimated_target_time with
              | Some t => t
              | None => (now env + Binary64.timedelta_minutes minutes_needed0)%Z
              end in
            let self1 :=
              with_state self
                {| active := true;
                   target_consigne := Some next_consigne;
                   target_time := Some estimated_target_time;
                   minutes_needed := Some minutes_needed0;
                   minutes_until_target := Some minutes_needed0;
                   optimal_start_time := Some (now env);
                   started_at := Some (now env);
                   temp_at_start := Some temp_indoor |} in
            _send_consigne env self1 next_consigne
          else no_command self
        else if active (state self) then
          if should_start
             || (Py.truthy next_consigne
                 && Py.Qlt_bool temp_indoor
                      (Binary64.sub next_consigne (Binary64.lit 0.2)))
          then stay_active env self
          else no_command (_deactivate self)
        else no_command self
  | _, _, _ =>
      if active (state self)
      then no_command (with_state self (set_active (state self) false))
      else no_command self
  end.

(** The numbers a call of [async_evaluate] reads are doubles: the
    temperatures and the estimate it is given, the target the engine holds,
    what [float] returns and the numbers among the attributes. *)
Definition typed (env : Env) (self : AnticipationEngine)
    (temp_indoor minutes_needed0 next_consigne : option Q) : Prop :=
  Typed.builtins
  /\ Typed.hass (hass env)
  /\ Binary64.floats
       (Typed.number temp_indoor ++ Typed.number minutes_needed0
        ++ Typed.number next_consigne
        ++ Typed.number (target_consigne (state self))).

End Engine.

End Anticipation64.

(** * schedule_parser.py in binary64 *)

Module ScheduleParser64.

Import HA.
Import ScheduleParser.

(** [target_temp > current_temp_schedule + 0.3]. *)
Definition is_heating_up (t : NextTransition) : bool :=
  Py.Qlt_bool (Binary64.add (current_temp_schedule t) (Binary64.lit 0.3))
              (target_temp t).

Section Parser.

Context `{Builtins}.

(** The inner loop: the first later event that is more than 0.3 above the
    current one; an event whose value does not read is skipped. *)
Fixpoint first_above (current : ParsedEvent) (later : list ParsedEvent)
    : option ParsedEvent :=
  match later with
  | [] => None
  | candidate :: rest =>
      match float_of_str (ev_state candidate), float_of_str (ev_state current) with
      | Some candidate_temp, Some current_temp =>
          if Py.Qlt_bool (Binary64.add current_temp (Binary64.lit 0.3)) candidate_temp
          then Some candidate
          else first_above current rest
      | _, _ => first_above current rest
      end
  end.

(** The outer loop: stop at the first event that covers [now]. *)
Fixpoint next_today (now : Py.datetime) (sorted : list ParsedEvent)
    : option ParsedEvent :=
  match sorted with
  | [] => None
  | ev :: rest =>
      if (start_dt ev <=? now)%Z && (now <? end_dt ev)%Z
      then first_above ev rest
      else next_today now rest
  end.

(** The loop over tomorrow's events, in the order of the attribute. *)
Fixpoint next_tomorrow (events : list pyval) (tomorrow : Z) (weekday : string)
    (current_consigne : Q) : Py.result (option ParsedEvent) :=
  match events with
  | [] => Py.Return None
  | event :: rest =>
      Py.bind (_parse_single_event event tomorrow weekday) (fun ev =>
        match ev with
        | Some e =>
            match float_of_str (ev_state e) with
            | Some ev_temp =>
                if Py.Qlt_bool (Binary64.add current_consigne (Binary64.lit 0.3)) ev_temp
                then Py.Return (Some e)
                else next_tomorrow rest tomorrow weekday current_consigne
            | None => next_tomorrow rest tomorrow weekday current_consigne
            end
        | None => next_tomorrow rest tomorrow weekday current_consigne
        end)
  end.

Definition _parse_schedule_state (st : State) (current_consigne : Q)
    (now : Py.datetime) : Py.result (option NextTransition) :=
  let attrs := attributes st in
  let events := attrs !! "events"%string in
  let events :=
    if negb (truthy_opt events) || negb (is_list events)
    then or_else (attrs !! "schedule"%string) (attrs !! "entries"%string)
    else events in
  match events with
  | None => Py.Return None
  | Some events =>
      if negb (truthy events) then Py.Return None
      else
        Py.bind (iterate events) (fun events =>
          let today := date_of now in
          let current_weekday := weekday_of today in
          Py.bind (parse_all events today current_weekday) (fun parsed_events =>
            match parsed_events with
            | [] => Py.Return None
            | _ =>
                let parsed_events := sort_by_start parsed_events in
                let next_event :=
                  match next_today now parsed_events with
                  | Some e => Py.Return (Some e)
                  | None =>
                      let tomorrow := (today + 1)%Z in
                      next_tomorrow events tomorrow (weekday_of tomorrow)
                                    current_consigne
                  end in
                Py.bind next_event (fun next_event =>
                  match next_event with
                  | None => Py.Return None
                  | Some e =>
                      match float_of_str (ev_state e) with
                      | None => Py.Return None
                      | Some target =>
                          Py.Return
                            (Some {| target_time := Some (start_dt e);
                                     target_temp := target;
                                     current_temp_schedule := current_consigne;
                                     source := "schedule_state" |})
                      end
                  end)
            end))
  end.

Definition _parse_vtherm_attrs (st : State) (current_consigne : Q)
    : option NextTransition :=
  match not_none (comfort_attr st), not_none (eco_attr st) with
  | Some comfort_temp, Some eco_temp =>
      match float comfort_temp with
      | Py.Return comfort =>
          match float eco_temp with
          | Py.Return eco =>
              if Qle_bool current_consigne (Binary64.add eco (Binary64.lit 0.3))
                 && Py.Qlt_bool (Binary64.add eco (Binary64.lit 0.3)) comfort
              then Some {| target_time := None;
                           target_temp := comfort;
                           current_temp_schedule := current_consigne;
                           source := "vtherm_preset" |}
              else None
          | Py.Raise _ => None
          end
      | Py.Raise _ => None
      end
  | _, _ => None
  end.

(** [get_next_heating_transition].  [hass] and [now] are what the call
    reads from outside. *)
Definition get_next_heating_transition (self : ScheduleParser) (hass : Hass)
    (now : Py.datetime) : Py.result (option NextTransition) :=
  match schedule_entity self with
  | None => Py.Return None
  | Some entity =>
      if String.eqb entity "" then Py.Return None
      else
        match hass !! entity with
        | None => Py.Return None
        | Some st =>
            if String.eqb (state st) STATE_UNAVAILABLE
               || String.eqb (state st) STATE_UNKNOWN
            then Py.Return None
            else
              match float_of_str (state st) with
              | None => Py.Return None
              | Some current_consigne =>
                  Py.bind (_parse_schedule_state st current_consigne now)
                    (fun transition =>
                       match transition with
                       | Some t => Py.Return (Some t)
                       | None =>
                           match _parse_vtherm_attrs st current_consigne with
                           | Some t => Py.Return (Some t)
                           | None =>
                               Py.Return
                                 (Some {| target_time := None;
                                          target_temp := current_consigne;
                                          current_temp_schedule := current_consigne;
                                          source := "current_only" |})
                           end
                       end)
              end
        end
  end.

(** The last loop of [get_all_transitions_today]: an event whose value does
    not read is skipped and leaves [prev_temp] as it was. *)
Fixpoint transitions_from (prev_temp : option Q) (parsed : list ParsedEvent)
    : list NextTransition :=
  match parsed with
  | [] => []
  | ev :: rest =>
      match float_of_str (ev_state ev) with
      | None => transitions_from prev_temp rest
      | Some temp =>
          let later := transitions_from (Some temp) rest in
          match prev_temp with
          | Some prev =>
              if Py.Qlt_bool (Binary64.lit 0.1) (Qabs (Binary64.sub temp prev))
              then {| target_time := Some (start_dt ev);
                      target_temp := temp;
                      current_temp_schedule := prev;
                      source := "schedule_state" |} :: later
              else later
          | None => later
          end
      end
  end.

Definition get_all_transitions_today (self : ScheduleParser) (hass : Hass)
    (now : Py.datetime) : Py.result (list NextTransition) :=
  match schedule_entity self with
  | None => Py.Return []
  | Some entity =>
      if String.eqb entity "" then Py.Return []
      else
        match hass !! entity with
        | None => Py.Return []
        | Some st =>
            match float_of_str (state st) with
            | None => Py.Return []
            | Some current_consigne =>
                match attributes st !! "events"%string with
                | None => Py.Return []
                | Some events =>
                    if negb (truthy events) then Py.Return []
                    else
                      Py.bind (iterate events) (fun events =>
                        let today := date_of now in
                        let weekday := weekday_of today in
                        Py.bind (parse_all events today weekday) (fun parsed =>
                          Py.Return (transitions_from None (sort_by_start parsed))))
                end
            end
        end
  end.

End Parser.

End ScheduleParser64.

(** * Predicates in the words of the specification, on binary64 values *)

Module Spec64.

(** ** The thermal model *)

(** The 5-degree bucket of an outdoor temperature: the multiple of 5
    nearest to it. *)
Definition bucket (ext_temp : Q) : Z :=
  (5 * Py.round_half_even (Binary64.div ext_temp 5))%Z.

(** A session is near the query when its average outdoor temperature lies
    within 5 of the bucket. *)
Definition near (ext_temp : Q) (s : ThermalModel.HeatingSession) : bool :=
  Qle_bool
    (Qabs (Binary64.sub (ThermalModel.temp_ext_avg s) (Binary64.of_int (bucket ext_temp))))
    5.

(** The positive speeds of the sessions near the query, in the order of the
    history. *)
Fixpoint nearby_speeds (ext_temp : Q) (history : list ThermalModel.HeatingSession)
    : list Q :=
  match history with
  | [] => []
  | s :: rest =>
      if near ext_temp s && Py.Qlt_bool 0 (ThermalModel.speed_degc_per_min s)
      then ThermalModel.speed_degc_per_min s :: nearby_speeds ext_temp rest
      else nearby_speeds ext_temp rest
  end.

(** The speeds of the valid sessions: positive speed, at least 5
    minutes. *)
Fixpoint valid_speeds (history : list ThermalModel.HeatingSession) : list Q :=
  match history with
  | [] => []
  | s :: rest =>
      if Py.Qlt_bool 0 (ThermalModel.speed_degc_per_min s)
         && Qle_bool 5 (ThermalModel.duration_min s)
      then ThermalModel.speed_degc_per_min s :: valid_speeds rest
      else valid_speeds rest
  end.

(** The global mean speed as the model stores it: to 5 decimals. *)
Definition global_mean_speed (history : list ThermalModel.HeatingSession) : Q :=
  Binary64.round_ndigits (Binary64.mean (valid_speeds history)) 5.

(** The speed selected for a query: the median of the nearby speeds, or
    else the stored average; nothing on an empty history. *)
Definition selected_speed (self : ThermalModel.ThermalModel) (ext_temp : Q)
    : option Q :=
  match ThermalModel.sessions self with
  | [] => None
  | history =>
      match nearby_speeds ext_temp history with
      | [] => ThermalModel.avg_speed_of self
      | speeds => Binary64.median speeds
      end
  end.

(** The speed selected on a history, in the words of the specification: the
    median of the positive speeds near the query, or else the global mean
    speed over the valid sessions. *)
Definition speed_for (history : list ThermalModel.HeatingSession) (ext_temp : Q)
    : option Q :=
  match nearby_speeds ext_temp history with
  | [] =>
      match valid_speeds history with
      | [] => None
      | _ => Some (global_mean_speed history)
      end
  | speeds => Binary64.median speeds
  end.

(** ** The feedback loop *)

(** A result qualifies when its outcome is recorded. *)
Definition recorded (r : Feedback.AnticipationResult) : bool :=
  match Feedback.success r with Some _ => true | None => false end.

(** The window of the margin suggestion: the results among the last 10
    that qualify. *)
Definition window (history : list Feedback.AnticipationResult)
    : list Feedback.AnticipationResult :=
  filter recorded (Py.last_n 10 history).

(** The number of results that reached their target in time. *)
Fixpoint successes (results : list Feedback.AnticipationResult) : nat :=
  match results with
  | [] => 0
  | r :: rest =>
      match Feedback.success r with
      | Some true => S (successes rest)
      | _ => successes rest
      end
  end.

(** The success rate of a window, as a fraction. *)
Definition success_rate (results : list Feedback.AnticipationResult) : Q :=
  inject_Z (Z.of_nat (successes results)) / inject_Z (Z.of_nat (length results)).




(** ** The schedule parser *)

(** The entity exposes [value] under one of the names: an attribute of
    that name holds something that reads as that number. *)
Definition exposes `{HA.Builtins} (st : HA.State) (names : list string)
    (value : Q) : Prop :=
  exists name v,
    In name names
    /\ HA.attributes st !! name = Some v
    /\ HA.float v = Py.Return value.

(** The entity exposes a comfort value and an eco value. *)
Definition exposes_presets `{HA.Builtins} (st : HA.State) (comfort eco : Q) : Prop :=
  exposes st ["comfort_temp"; "comfort"]%string comfort
  /\ exposes st ["eco_temp"; "eco"]%string eco.

(** The current set-point is at or near eco (not more than 0.3 above it)
    and comfort exceeds eco by more than 0.3, the sum being the float sum
    the code compares with. *)
Definition eco_now_comfort_next (current comfort eco : Q) : Prop :=
  current <= Binary64.add eco (Binary64.lit 0.3)
  /\ Binary64.add eco (Binary64.lit 0.3) < comfort.

(** ** The engine *)

(** The set-point the thermostat reports: the [temperature] attribute of
    the climate entity, when it reads as a number. *)
Definition reported_setpoint `{HA.Builtins} (hass : HA.Hass) (climate_entity : string)
    (reported : Q) : Prop :=
  exists st value,
    hass !! climate_entity = Some st
    /\ HA.attributes st !! "temperature"%string = Some value
    /\ HA.float value = Py.Return reported.

(** The drift of the reported set-point from the target, as the engine
    measures it: the absolute value of their difference as floats. *)
Definition drift (reported target : Q) : Q := Qabs (Binary64.sub reported target).

(** The resend rule of an Active engine: no command recorded yet, or more
    than 10 minutes since the last recorded command, or a reported
    set-point that has drifted from the target by more than 0.3. *)
Definition resend_rule `{HA.Builtins} (hass : HA.Hass) (climate_entity : string)
    (last_sent_time : option Py.datetime) (now : Py.datetime) (target : Q) : Prop :=
  last_sent_time = None
  \/ (exists t, last_sent_time = Some t /\ (600 * 1000000 < now - t)%Z)
  \/ (exists reported,
        reported_setpoint hass climate_entity reported
        /\ Binary64.lit 0.3 < drift reported target).

End Spec64.

(** * Scenarios on doubles *)

Module Scenarios64.

(** A valid session with the doubles nearest to the given outdoor average
    and speed. *)
Definition session_at (ext speed : Q) : ThermalModel.HeatingSession :=
  Scenarios.session_at (Binary64.lit ext) (Binary64.lit speed).

(** A model holding the given history, its statistics recalculated. *)
Definition model (history : list ThermalModel.HeatingSession)
    : ThermalModel.ThermalModel :=
  ThermalModel64._recalculate
    {| ThermalModel.sessions := history;
       ThermalModel.warmup_ignore_min := 0;
       ThermalModel._inertia := None |}.

(** Three sessions of speeds 0.05, 0.06 and 0.055 recorded around 5 degrees
    outside. *)
Definition three_sessions_model : ThermalModel.ThermalModel :=
  model [session_at 5 0.05; session_at 4.8 0.06; session_at 5.2 0.055].

(** One session of speed 1 degree per minute. *)
Definition unit_speed_model : ThermalModel.ThermalModel :=
  model [session_at 5 1].

(** One session of speed 0.04 degrees per minute. *)
Definition slow_model : ThermalModel.ThermalModel :=
  model [session_at 5 0.04].

(** Three sessions recorded around 20 degrees outside. *)
Definition mild_days_model : ThermalModel.ThermalModel :=
  model [session_at 20 0.05; session_at 20 0.06; session_at 20 0.06].

(** A session of speed 0 and a session of speed 0.06, both around 5
    degrees outside. *)
Definition stalled_session_model : ThermalModel.ThermalModel :=
  model [session_at 5 0; session_at 5 0.06].





(** A Python runtime that reads the strings the examples use as the
    doubles nearest to them. *)
Definition simple_builtins : HA.Builtins :=
  {| HA.float_of_str :=
       fun s =>
         if String.eqb s "0" then Some 0
         else if String.eqb s "16" then Some 16
         else if String.eqb s "19" then Some 19
         else if String.eqb s "19.5" then Some (Binary64.lit 19.5)
         else if String.eqb s "19.6" then Some (Binary64.lit 19.6)
         else None;
     HA.str_of := HA.str_of (Builtins := Scenarios.simple_builtins);
     HA.strip := HA.strip (Builtins := Scenarios.simple_builtins);
     HA.lower := HA.lower (Builtins := Scenarios.simple_builtins);
     HA.strptime_time := HA.strptime_time (Builtins := Scenarios.simple_builtins) |}.

(** A schedule entity at 19.5 degrees with the events 08:00-17:00 at 19.5
    and 17:00-21:00 at 19.6. *)
Definition small_step_entity : HA.State :=
  {| HA.state := "19.5";
     HA.attributes :=
       <["events"%string :=
           HA.PList [Scenarios.event "08:00" "17:00" "19.5";
                     Scenarios.event "17:00" "21:00" "19.6"]]> ∅ |}.

Definition small_step_home : HA.Hass :=
  <["sensor.planning"%string := small_step_entity]> ∅.

(** A schedule entity at 0 degrees whose eco preset is 0 and whose comfort
    preset is 19, without event list. *)
Definition zero_eco_entity : HA.State :=
  {| HA.state := "0";
     HA.attributes :=
       <["comfort_temp"%string := HA.PNum 19]>
         (<["eco_temp"%string := HA.PNum 0]> ∅) |}.

Definition zero_eco_home : HA.Hass :=
  <["sensor.planning"%string := zero_eco_entity]> ∅.

(** The engine that started anticipating at 16:30, at 16:41 with a service
    call that raises, and at 16:43. *)
Definition engine_since_1630 : Anticipation.AnticipationEngine :=
  Scenarios.active_engine (Some (Scenarios.minute 990)).

Definition failing_env : Anticipation.Env :=
  Scenarios.env_at (Scenarios.minute 1001) 19.5 false.

Definition retry_env : Anticipation.Env :=
  Scenarios.env_at (Scenarios.minute 1003) 19.5 true.

(** The engine after the evaluation of 16:41, whose send failed. *)
Definition after_failed_send : Anticipation.AnticipationEngine :=
  fst (@Anticipation64.async_evaluate Scenarios.simple_builtins
         (Anticipation.with_service failing_env false) engine_since_1630
         (Some (Binary64.lit 17.2)) (Some 5) (Some 40) (Some 19.5) false
         (Some (Scenarios.minute 1020)) (Binary64.lit 1.15)).

(** An Idle engine evaluated at 16:50 for 19.5 degrees at 17:00, and the
    surroundings two minutes later, the thermostat reporting 19.6. *)
Definition start_env : Anticipation.Env :=
  Scenarios.env_at (Scenarios.minute 1010) 16 true.

Definition later_env : Anticipation.Env :=
  Scenarios.env_at (Scenarios.minute 1012) (Binary64.lit 19.6) true.

Definition first_evaluation : Anticipation.Outcome :=
  @Anticipation64.async_evaluate Scenarios.simple_builtins start_env
    Scenarios.idle_engine (Some 17) (Some 5) (Some 30) (Some 19.5) false
    (Some (Scenarios.minute 1020)) (Binary64.lit 1.15).

End Scenarios64.

(** * Facts about the numeric helpers *)

Module PyFacts.

Import Py.

Lemma Qlt_bool_iff (x y : Q) : Qlt_bool x y = true <-> x < y.
Proof.
  unfold Qlt_bool. rewrite negb_true_iff. split.
  - intros E. apply Qnot_le_lt. intros L. apply Qle_bool_iff in L. congruence.
  - intros L. destruct (Qle_bool y x) eqn:E; [|reflexivity].
    apply Qle_bool_iff in E. exfalso. apply (Qlt_not_le _ _ L E).
Qed.

Lemma Qlt_bool_false_iff (x y : Q) : Qlt_bool x y = false <-> y <= x.
Proof.
  unfold Qlt_bool. rewrite negb_false_iff. apply Qle_bool_iff.
Qed.

Lemma Qle_bool_false_iff (x y : Q) : Qle_bool x y = false <-> y < x.
Proof.
  rewrite <- (Qlt_bool_iff y x). unfold Qlt_bool.
  destruct (Qle_bool x y); simpl; split; congruence.
Qed.

Ltac cmp_to_order :=
  repeat match goal with
  | H : Qcompare _ _ = Eq |- _ => apply Qeq_alt in H
  | H : Qcompare _ _ = Lt |- _ => apply Qlt_alt in H
  | H : Qcompare _ _ = Gt |- _ => apply Qgt_alt in H
  end.

Lemma round_half_even_comp (x y : Q) :
  x == y -> round_half_even x = round_half_even y.
Proof.
  intros E. unfold round_half_even.
  rewrite (Qfloor_comp x y E).
  assert (C : Qcompare (x - inject_Z (Qfloor y)) (1 # 2)
              = Qcompare (y - inject_Z (Qfloor y)) (1 # 2)).
  { apply Qcompare_comp; [rewrite E|]; reflexivity. }
  rewrite C. reflexivity.
Qed.

Lemma round_half_even_bounds (x : Q) :
  (Qfloor x <= round_half_even x <= Qfloor x + 1)%Z.
Proof.
  unfold round_half_even.
  destruct (Qcompare _ _); [destruct (Z.even _)| |]; lia.
Qed.

(** Rounding to the nearest integer keeps the order. *)
Lemma round_half_even_mono (x y : Q) :
  x <= y -> (round_half_even x <= round_half_even y)%Z.
Proof.
  intros L.
  pose proof (Qfloor_resp_le x y L) as F.
  destruct (Z.eq_dec (Qfloor x) (Qfloor y)) as [E | N].
  - unfold round_half_even. rewrite E.
    destruct (Qcompare (x - inject_Z (Qfloor y)) (1 # 2)) eqn:Cx;
      destruct (Qcompare (y - inject_Z (Qfloor y)) (1 # 2)) eqn:Cy;
      try (destruct (Z.even (Qfloor y))); try lia;
      cmp_to_order; exfalso; lra.
  - pose proof (round_half_even_bounds x). pose proof (round_half_even_bounds y). lia.
Qed.

Lemma round_ndigits_0 (x : Q) : round_ndigits x 0 == inject_Z (round_half_even x).
Proof.
  unfold round_ndigits. change (10 ^ Z.of_nat 0)%Z with 1%Z.
  rewrite (round_half_even_comp (x * inject_Z 1) x) by (unfold inject_Z; lra).
  unfold inject_Z. field.
Qed.

Lemma length_last_n {A : Type} (n : nat) (l : list A) :
  length (last_n n l) = Nat.min n (length l).
Proof. unfold last_n. rewrite length_skipn. lia. Qed.

(** Dropping down to [n] elements from [n + 1] removes the head. *)
Lemma last_n_drop_head {A : Type} (n : nat) (x : A) (l : list A) :
  length l = n -> last_n n (x :: l) = l.
Proof.
  intros E. unfold last_n. simpl length. rewrite E.
  replace (S n - n)%nat with 1%nat by lia. reflexivity.
Qed.

(** [l.append(x)] followed by [if len(l) > cap: l = l[-cap:]]. *)
Lemma bounded_append_length {A : Type} (cap : nat) (l : list A) (x : A) :
  (length (if (cap <? length (l ++ [x]))%nat
           then last_n cap (l ++ [x]) else l ++ [x]) <= cap)%nat.
Proof.
  destruct (cap <? length (l ++ [x]))%nat eqn:E.
  - rewrite length_last_n. lia.
  - apply Nat.ltb_ge in E. exact E.
Qed.

Lemma bounded_append_full {A : Type} (cap : nat) (l : list A) (x : A) :
  length l = cap -> (0 < cap)%nat ->
  (if (cap <? length (l ++ [x]))%nat then last_n cap (l ++ [x]) else l ++ [x])
  = tl l ++ [x].
Proof.
  intros E P.
  assert (L : (cap <? length (l ++ [x]))%nat = true).
  { apply Nat.ltb_lt. rewrite length_app. simpl. lia. }
  rewrite L. destruct l as [|y l]; simpl in *; [lia|].
  apply last_n_drop_head. rewrite length_app. simpl. lia.
Qed.

Lemma bounded_append_room {A : Type} (cap : nat) (l : list A) (x : A) :
  (length l < cap)%nat ->
  (if (cap <? length (l ++ [x]))%nat then last_n cap (l ++ [x]) else l ++ [x])
  = l ++ [x].
Proof.
  intros E.
  assert (L : (cap <? length (l ++ [x]))%nat = false).
  { apply Nat.ltb_ge. rewrite length_app. simpl. lia. }
  rewrite L. reflexivity.
Qed.

End PyFacts.

(** * thermal_model.py: the time estimate and the session history *)

Module ThermalModelFacts.

Import ThermalModel.
Import PyFacts.

(** The speed [_get_speed_for_ext_temp] selects: the median of the positive
    speeds of the nearby sessions when there is one, the stored average
    otherwise; nothing on an empty history. *)
Lemma speed_selection (self : ThermalModel) (ext_temp : Q) :
  let speeds :=
    filter (fun v => Py.Qlt_bool 0 v)
           (map speed_degc_per_min (nearby_sessions self ext_temp)) in
  (sessions self = [] -> _get_speed_for_ext_temp self ext_temp = None)
  /\ (sessions self <> [] -> speeds <> [] ->
      _get_speed_for_ext_temp self ext_temp = Py.median speeds)
  /\ (sessions self <> [] -> speeds = [] ->
      _get_speed_for_ext_temp self ext_temp = avg_speed_of self).
Proof.
  unfold _get_speed_for_ext_temp. simpl.
  destruct (sessions self) as [|s ss] eqn:E.
  - repeat split; congruence.
  - repeat split; try congruence; intros _ Hs.
    + destruct (filter _ _); [congruence | reflexivity].
    + rewrite Hs. reflexivity.
Qed.

Lemma estimate_with_speed (self : ThermalModel)
    (current_temp target_temp ext_temp margin speed : Q) :
  _get_speed_for_ext_temp self ext_temp = Some speed ->
  0 < speed ->
  current_temp < target_temp ->
  estimate_time_to_target self current_temp target_temp ext_temp margin
  = Some (Py.round_ndigits ((target_temp - current_temp) / speed * margin) 0).
Proof.
  intros Hs Hpos Hlt. unfold estimate_time_to_target.
  assert (D : Qle_bool (target_temp - current_temp) 0 = false)
    by (apply Qle_bool_false_iff; lra).
  rewrite D, Hs.
  assert (P : Qle_bool speed 0 = false) by (apply Qle_bool_false_iff; lra).
  rewrite P. reflexivity.
Qed.

Lemma estimate_at_or_above_target (self : ThermalModel)
    (current_temp target_temp ext_temp margin : Q) :
  target_temp <= current_temp ->
  estimate_time_to_target self current_temp target_temp ext_temp margin = Some 0.
Proof.
  intros L. unfold estimate_time_to_target.
  assert (D : Qle_bool (target_temp - current_temp) 0 = true)
    by (apply Qle_bool_iff; lra).
  rewrite D. reflexivity.
Qed.

(** C6: the estimate is 0 whenever the target is not above the current
    temperature, whatever the history, the outdoor temperature and the
    margin. *)
Theorem estimate_zero_at_or_above_target :
  forall (self : ThermalModel) (current_temp target_temp ext_temp margin : Q),
    target_temp <= current_temp ->
    estimate_time_to_target self current_temp target_temp ext_temp margin = Some 0.
Proof. exact estimate_at_or_above_target. Qed.

(** A run of C6's theorem on an empty history and a negative margin. *)
Lemma estimate_zero_at_or_above_target_witness :
  19 <= 20
  /\ estimate_time_to_target (init 0) 20 19 (-3) (-1) = Some 0.
Proof.
  split; [discriminate|].
  apply (estimate_zero_at_or_above_target (init 0) 20 19 (-3) (-1)).
  discriminate.
Defined.

Lemma scaled_time_nonneg (d speed margin : Q) :
  0 <= d -> 0 < speed -> 0 <= margin -> 0 <= d / speed * margin.
Proof.
  intros Hd Hs Hm. apply Qmult_le_0_compat; [|exact Hm].
  unfold Qdiv. apply Qmult_le_0_compat; [exact Hd|].
  apply Qlt_le_weak, Qinv_lt_0_compat, Hs.
Qed.

Lemma round_ndigits_0_mono (x y : Q) :
  x <= y -> Py.round_ndigits x 0 <= Py.round_ndigits y 0.
Proof.
  intros L. rewrite !round_ndigits_0. rewrite <- Zle_Qle.
  apply round_half_even_mono, L.
Qed.

Lemma round_ndigits_0_nonneg (x : Q) : 0 <= x -> 0 <= Py.round_ndigits x 0.
Proof.
  intros L. apply (round_ndigits_0_mono 0 x) in L.
  exact L.
Qed.

(** C10: [load_sessions] keeps every decoded session: the history is the
    decoded list, so a persisted list of more than 100 sessions gives a
    history longer than 100; the next [add_session] brings it back to at
    most 100. *)
Theorem load_sessions_is_not_capped :
  (forall (self : ThermalModel) (data : list SessionDict),
      sessions (load_sessions self data) = map from_dict data)
  /\ (forall (self : ThermalModel) (data : list SessionDict),
      (100 < length data)%nat ->
      (100 < length (sessions (load_sessions self data)))%nat)
  /\ (forall (self : ThermalModel) (data : list SessionDict) (s : HeatingSession),
      (length (sessions (add_session (load_sessions self data) s)) <= 100)%nat).
Proof.
  split; [reflexivity|]. split.
  - intros self data L. simpl. rewrite length_map. exact L.
  - intros self data s. simpl. apply bounded_append_length.
Qed.

(** A run of C10's theorem on 101 persisted sessions. *)
Lemma load_sessions_is_not_capped_witness :
  (100 < length (repeat Scenarios.empty_dict 101))%nat
  /\ (100 < length (sessions (load_sessions (init 0)
                                (repeat Scenarios.empty_dict 101))))%nat.
Proof.
  split; [vm_compute; lia|].
  apply (proj1 (proj2 load_sessions_is_not_capped) (init 0)
           (repeat Scenarios.empty_dict 101)).
  vm_compute; lia.
Defined.

End ThermalModelFacts.

(** * feedback.py: the bounded history and the margin suggestion *)

Module FeedbackFacts.

Import Feedback.
Import PyFacts.

Lemma record_result_history (self : FeedbackLoop) (current_temp : Q)
    (reached_target : bool) (now : Py.datetime) (pending : Pending) :
  _pending_start self = Some pending ->
  exists r,
    snd (record_result self current_temp reached_target now) = Some r
    /\ success r = Some reached_target
    /\ history (fst (record_result self current_temp reached_target now))
       = if (MAX_HISTORY <? length (history self ++ [r]))%nat
         then Py.last_n MAX_HISTORY (history self ++ [r])
         else history self ++ [r].
Proof.
  intros P. unfold record_result. rewrite P. cbv zeta. simpl.
  eexists. split; [reflexivity|]. split; reflexivity.
Qed.

(** C4: at capacity, adding one element keeps the length and drops exactly
    the element at index 0, for the 100 sessions of [ThermalModel] and for
    the 30 results of [FeedbackLoop]; and after adding one element neither
    history is above its capacity, whatever its length was. *)
Theorem histories_drop_the_oldest :
  (forall (self : ThermalModel.ThermalModel) (s : ThermalModel.HeatingSession),
      length (ThermalModel.sessions self) = 100%nat ->
      ThermalModel.sessions (ThermalModel.add_session self s)
      = tl (ThermalModel.sessions self) ++ [s]
      /\ length (ThermalModel.sessions (ThermalModel.add_session self s)) = 100%nat)
  /\ (forall (self : ThermalModel.ThermalModel) (s : ThermalModel.HeatingSession),
      (length (ThermalModel.sessions (ThermalModel.add_session self s)) <= 100)%nat)
  /\ (forall (self : FeedbackLoop) (current_temp : Q) (reached_target : bool)
             (now : Py.datetime) (pending : Pending),
      _pending_start self = Some pending ->
      length (history self) = 30%nat ->
      exists r,
        snd (record_result self current_temp reached_target now) = Some r
        /\ history (fst (record_result self current_temp reached_target now))
           = tl (history self) ++ [r]
        /\ length (history (fst (record_result self current_temp reached_target now)))
           = 30%nat)
  /\ (forall (self : FeedbackLoop) (current_temp : Q) (reached_target : bool)
             (now : Py.datetime) (pending : Pending),
      _pending_start self = Some pending ->
      (length (history (fst (record_result self current_temp reached_target now)))
       <= 30)%nat).
Proof.
  repeat split.
  - simpl. apply bounded_append_full; [assumption | lia].
  - simpl. rewrite bounded_append_full by (try assumption; lia).
    destruct (ThermalModel.sessions self); simpl in *; [lia|].
    rewrite length_app. simpl. lia.
  - intros self s. simpl. apply bounded_append_length.
  - intros self c b now p P L.
    destruct (record_result_history self c b now p P) as [r [R [_ Hh]]].
    exists r. split; [exact R|].
    rewrite Hh. unfold MAX_HISTORY.
    rewrite bounded_append_full by (try assumption; lia).
    split; [reflexivity|].
    destruct (history self); simpl in *; [lia|].
    rewrite length_app. simpl. lia.
  - intros self c b now p P.
    destruct (record_result_history self c b now p P) as [r [_ [_ Hh]]].
    rewrite Hh. apply bounded_append_length.
Qed.

(** A run of C4's theorem on a full session history and a full feedback
    history. *)
Lemma histories_drop_the_oldest_witness :
  length (ThermalModel.sessions (Scenarios.full_model 100)) = 100%nat
  /\ ThermalModel.sessions
       (ThermalModel.add_session (Scenarios.full_model 100) (Scenarios.session_at 0 1))
     = tl (ThermalModel.sessions (Scenarios.full_model 100))
       ++ [Scenarios.session_at 0 1]
  /\ _pending_start (Scenarios.tracking_loop (repeat (Scenarios.result_early 3 (Some true)) 30))
     = Some Scenarios.pending_cycle
  /\ (length (history (fst (record_result
        (Scenarios.tracking_loop (repeat (Scenarios.result_early 3 (Some true)) 30))
        20 true 420000000%Z))) <= 30)%nat.
Proof.
  split; [reflexivity|].
  split.
  - apply (proj1 histories_drop_the_oldest (Scenarios.full_model 100)
             (Scenarios.session_at 0 1)).
    reflexivity.
  - split; [reflexivity|].
    apply (proj2 (proj2 (proj2 histories_drop_the_oldest))
             (Scenarios.tracking_loop (repeat (Scenarios.result_early 3 (Some true)) 30))
             20 true 420000000%Z Scenarios.pending_cycle).
    reflexivity.
Defined.

End FeedbackFacts.

(** * anticipation.py: the Idle/Active state machine *)

Module AnticipationFacts.

Import HA.
Import Anticipation.
Import PyFacts.

Section Engine.

Context `{Builtins}.

End Engine.

(** C2: with the anti-short-cycle gate set, an Idle engine stays Idle
    whatever the other inputs are; the call changes nothing and sends no
    command. *)
Theorem anti_cycle_gate_keeps_idle :
  forall (B : Builtins) (env : Env) (self : AnticipationEngine)
         (temp_indoor temp_outdoor minutes_needed next_consigne : option Q)
         (target_time : option Py.datetime) (effective_margin : Q),
    active (state self) = false ->
    active (state (fst (async_evaluate env self temp_indoor temp_outdoor
                          minutes_needed next_consigne true target_time
                          effective_margin))) = false
    /\ async_evaluate env self temp_indoor temp_outdoor minutes_needed
         next_consigne true target_time effective_margin
       = (self, []).
Proof.
  intros B env self ti to mn nc tt m Idle.
  assert (E : async_evaluate env self ti to mn nc true tt m = (self, [])).
  { unfold async_evaluate. rewrite Idle.
    destruct ti as [ti|], nc as [nc|], mn as [mn|]; try reflexivity.
    destruct (Qle_bool (nc - 0.2) ti); reflexivity. }
  rewrite E. split; [exact Idle | reflexivity].
Qed.

(** A run of C2's theorem: 17 degrees inside, 19.5 wanted at 17:00, 30
    minutes needed, evaluated at 16:50 with the gate set. *)
Lemma anti_cycle_gate_keeps_idle_witness :
  active (state Scenarios.idle_engine) = false
  /\ active (state (fst (@async_evaluate Scenarios.simple_builtins
                 (Scenarios.env_at (Scenarios.minute 1010) 16 true)
                 Scenarios.idle_engine (Some 17) (Some 5) (Some 30) (Some 19.5)
                 true (Some (Scenarios.minute 1020)) 1.15))) = false.
Proof.
  split; [reflexivity|].
  apply (anti_cycle_gate_keeps_idle Scenarios.simple_builtins
           (Scenarios.env_at (Scenarios.minute 1010) 16 true)
           Scenarios.idle_engine (Some 17) (Some 5) (Some 30) (Some 19.5)
           (Some (Scenarios.minute 1020)) 1.15).
  reflexivity.
Defined.

Section Resend.

Context `{Builtins}.

Lemma stay_active_state (env : Env) (self : AnticipationEngine) :
  active (state (fst (stay_active env self))) = active (state self)
  /\ target_consigne (state (fst (stay_active env self)))
     = target_consigne (state self)
  /\ target_time (state (fst (stay_active env self))) = target_time (state self).
Proof.
  unfold stay_active, _send_consigne, no_command. cbv zeta. simpl.
  destruct (target_consigne (state self)) as [t|] eqn:T;
    [|simpl; rewrite ?T; repeat split].
  destruct (should_resend env _ && Py.truthy t); [|simpl; rewrite ?T; repeat split].
  destruct (service_ok env); simpl; rewrite ?T; repeat split.
Qed.

Lemma stay_active_commands (env : Env) (self : AnticipationEngine) :
  snd (stay_active env self)
  = match target_consigne (state self) with
    | Some t => if should_resend env self && Py.truthy t then [t] else []
    | None => []
    end.
Proof.
  unfold stay_active. cbv zeta. simpl.
  destruct (target_consigne (state self)) as [t|] eqn:T; [|reflexivity].
  assert (R : should_resend env
                (with_state self (set_minutes_until_target (state self)
                   (Some (Py.max 0 match target_time (state self) with
                                   | Some t0 => minutes_from (now env) t0
                                   | None => 0
                                   end))))
              = should_resend env self).
  { unfold should_resend, _get_climate_setpoint. simpl. reflexivity. }
  rewrite R. destruct (should_resend env self && Py.truthy t); reflexivity.
Qed.


End Resend.

(** The engine checked on the scenarios of the specification. *)

End AnticipationFacts.

(** * schedule_parser.py: the preset strategy and the fallback *)

Module ScheduleParserFacts.

Import HA.
Import ScheduleParser.
Import PyFacts.

Section Parser.

Context `{Builtins}.

Lemma float_not_none (v : pyval) (q : Q) :
  float v = Py.Return q -> not_none (Some v) = Some v.
Proof. destruct v; simpl; intros E; try reflexivity; discriminate. Qed.

Lemma not_none_some (a : option pyval) (v : pyval) :
  not_none a = Some v -> a = Some v.
Proof. destruct a as [[]|]; simpl; intros E; try discriminate; exact E. Qed.

Lemma parse_vtherm_attrs_some (st : State) (current : Q) (t : NextTransition) :
  _parse_vtherm_attrs st current = Some t
  <-> exists comfort eco,
        Spec.presets_found st comfort eco
        /\ Spec.eco_now_comfort_next current comfort eco
        /\ t = Spec.to_comfort comfort current.
Proof.
  unfold _parse_vtherm_attrs, Spec.presets_found, Spec.eco_now_comfort_next.
  split.
  - destruct (not_none (comfort_attr st)) as [cv|] eqn:C; [|discriminate].
    destruct (not_none (eco_attr st)) as [ev|] eqn:E; [|discriminate].
    destruct (float cv) as [comfort|] eqn:FC; [|discriminate].
    destruct (float ev) as [eco|] eqn:FE; [|discriminate].
    destruct (Qle_bool current (eco + 0.3)) eqn:L1; [|discriminate].
    destruct (Py.Qlt_bool (eco + 0.3) comfort) eqn:L2; [|discriminate].
    simpl. intros T. injection T as <-.
    exists comfort, eco. split.
    + exists cv, ev. repeat split; auto using not_none_some.
    + split; [|reflexivity].
      split; [apply Qle_bool_iff, L1 | apply Qlt_bool_iff, L2].
  - intros [comfort [eco [[cv [ev [C [FC [E FE]]]]] [[L1 L2] ->]]]].
    rewrite C, E, (float_not_none _ _ FC), (float_not_none _ _ FE), FC, FE.
    apply Qle_bool_iff in L1. apply Qlt_bool_iff in L2. rewrite L1, L2.
    reflexivity.
Qed.

End Parser.

(** The event list 08:00-17:00 at 16 and 17:00-21:00 at 19.5, read at 16:50:
    the next transition is 19.5 at 17:00. *)
Example event_list_scenario :
  @get_next_heating_transition Scenarios.simple_builtins
    Scenarios.planning_parser
    (<["sensor.planning"%string := Scenarios.event_entity]> ∅)
    (Scenarios.minute 1010)
  = Py.Return (Some {| target_time := Some (Scenarios.minute 1020);
                       target_temp := 19.5;
                       current_temp_schedule := 16;
                       source := "schedule_state" |}).
Proof. vm_compute. reflexivity. Qed.

End ScheduleParserFacts.

(** * More facts about the numeric helpers *)

Module PyMoreFacts.

Import Py.
Import PyFacts.

Lemma pow10_pos (n : nat) : 0 < inject_Z (10 ^ Z.of_nat n).
Proof.
  rewrite <- (Zlt_Qlt 0). apply Z.pow_pos_nonneg; lia.
Qed.

(** The nearest integer is within one half. *)
Lemma round_half_even_close (x : Q) :
  Qabs (x - inject_Z (round_half_even x)) <= 1 # 2.
Proof.
  pose proof (Qfloor_le x) as Lo. pose proof (Qlt_floor x) as Hi.
  rewrite inject_Z_plus in Hi.
  apply Qabs_case; intros _; unfold round_half_even;
    destruct (Qcompare (x - inject_Z (Qfloor x)) (1 # 2)) eqn:C;
    try destruct (Z.even (Qfloor x));
    rewrite ?inject_Z_plus; change (inject_Z 1) with 1 in *; cmp_to_order; lra.
Qed.

Lemma round_ndigits_comp (x y : Q) (n : nat) :
  x == y -> round_ndigits x n == round_ndigits y n.
Proof.
  intros E. unfold round_ndigits.
  rewrite (round_half_even_comp (x * inject_Z (10 ^ Z.of_nat n))
             (y * inject_Z (10 ^ Z.of_nat n))) by (rewrite E; reflexivity).
  reflexivity.
Qed.

(** Rounding to [n] decimals keeps the order. *)
Lemma round_ndigits_mono (x y : Q) (n : nat) :
  x <= y -> round_ndigits x n <= round_ndigits y n.
Proof.
  intros L. unfold round_ndigits.
  pose proof (pow10_pos n) as P.
  unfold Qdiv. apply Qmult_le_compat_r.
  - rewrite <- Zle_Qle. apply round_half_even_mono.
    apply Qmult_le_compat_r; [exact L | apply Qlt_le_weak, P].
  - apply Qlt_le_weak, Qinv_lt_0_compat, P.
Qed.

Lemma round_ndigits_nonneg (x : Q) (n : nat) : 0 <= x -> 0 <= round_ndigits x n.
Proof.
  intros L. apply (round_ndigits_mono 0 x n) in L.
  assert (Z0 : round_ndigits 0 n == 0).
  { unfold round_ndigits.
    rewrite (round_half_even_comp (0 * inject_Z (10 ^ Z.of_nat n)) 0) by ring.
    unfold Qdiv. change (inject_Z (round_half_even 0)) with 0. ring. }
  rewrite Z0 in L. exact L.
Qed.

Lemma round_ndigits_nonpos (x : Q) (n : nat) : x <= 0 -> round_ndigits x n <= 0.
Proof.
  intros L. apply (round_ndigits_mono x 0 n) in L.
  assert (Z0 : round_ndigits 0 n == 0).
  { unfold round_ndigits.
    rewrite (round_half_even_comp (0 * inject_Z (10 ^ Z.of_nat n)) 0) by ring.
    unfold Qdiv. change (inject_Z (round_half_even 0)) with 0. ring. }
  rewrite Z0 in L. exact L.
Qed.

(** [sorted] keeps the elements and the length. *)
Lemma In_insert_sorted (x y : Q) (l : list Q) :
  In y (insert_sorted x l) <-> y = x \/ In y l.
Proof.
  induction l as [|z l IH]; simpl.
  - intuition.
  - destruct (Qle_bool x z); simpl; rewrite ?IH; intuition.
Qed.

Lemma In_sorted (y : Q) (l : list Q) : In y (sorted l) <-> In y l.
Proof.
  induction l as [|x l IH]; simpl; [reflexivity|].
  rewrite In_insert_sorted, IH. intuition.
Qed.

Lemma length_insert_sorted (x : Q) (l : list Q) :
  length (insert_sorted x l) = S (length l).
Proof.
  induction l as [|z l IH]; simpl; [reflexivity|].
  destruct (Qle_bool x z); simpl; [reflexivity | rewrite IH; reflexivity].
Qed.

Lemma length_sorted (l : list Q) : length (sorted l) = length l.
Proof.
  induction l as [|x l IH]; simpl; [reflexivity|].
  rewrite length_insert_sorted, IH. reflexivity.
Qed.

(** The median of a non-empty list is one of its elements or the mean of
    two of them. *)
Lemma median_spec (l : list Q) :
  l <> [] ->
  exists a b, In a l /\ In b l
              /\ (median l = Some a \/ median l = Some ((a + b) / 2)).
Proof.
  intros NE. unfold median.
  assert (Len : (0 < length (sorted l))%nat).
  { rewrite length_sorted. destruct l; [congruence | simpl; lia]. }
  destruct (length (sorted l)) as [|k] eqn:E; [lia|].
  rewrite <- E.
  assert (Half : (length (sorted l) / 2 < length (sorted l))%nat).
  { apply Nat.div_lt; lia. }
  destruct (nth_error (sorted l) (length (sorted l) / 2)) as [b|] eqn:Nb;
    [|apply nth_error_None in Nb; lia].
  assert (Ib : In b l) by (apply In_sorted; eapply nth_error_In; eauto).
  destruct (Nat.odd (length (sorted l))).
  - exists b, b. auto.
  - destruct (nth_error (sorted l) (length (sorted l) / 2 - 1)) as [a|] eqn:Na;
      [|apply nth_error_None in Na; lia].
    assert (Ia : In a l) by (apply In_sorted; eapply nth_error_In; eauto).
    exists a, b. auto.
Qed.

Lemma median_some (l : list Q) : median l <> None <-> l <> [].
Proof.
  split.
  - intros M E. apply M. subst l. reflexivity.
  - intros NE. destruct (median_spec l NE) as [a [b [_ [_ [M | M]]]]];
      rewrite M; discriminate.
Qed.

Lemma median_between (l : list Q) (lo hi v : Q) :
  (forall x, In x l -> lo <= x /\ x <= hi) ->
  median l = Some v -> lo <= v /\ v <= hi.
Proof.
  intros B M.
  assert (NE : l <> []) by (apply median_some; congruence).
  destruct (median_spec l NE) as [a [b [Ia [Ib [Ma | Mab]]]]].
  - rewrite Ma in M. injection M as <-. apply B, Ia.
  - rewrite Mab in M. injection M as <-.
    destruct (B a Ia), (B b Ib).
    split; [apply Qle_shift_div_l | apply Qle_shift_div_r]; lra.
Qed.

Lemma median_positive (l : list Q) (v : Q) :
  (forall x, In x l -> 0 < x) -> median l = Some v -> 0 < v.
Proof.
  intros B M.
  assert (NE : l <> []) by (apply median_some; congruence).
  destruct (median_spec l NE) as [a [b [Ia [Ib [Ma | Mab]]]]].
  - rewrite Ma in M. injection M as <-. apply B, Ia.
  - rewrite Mab in M. injection M as <-.
    pose proof (B a Ia). pose proof (B b Ib).
    apply Qlt_shift_div_l; lra.
Qed.

(** Bounds on a sum and on a mean. *)
Lemma fold_sum_bounds (l : list Q) (acc lo hi : Q) :
  (forall x, In x l -> lo <= x /\ x <= hi) ->
  acc + inject_Z (Z.of_nat (length l)) * lo <= fold_left Qplus l acc
  /\ fold_left Qplus l acc <= acc + inject_Z (Z.of_nat (length l)) * hi.
Proof.
  revert acc. induction l as [|x l IH]; intros acc B.
  - simpl. split; ring_simplify; apply Qle_refl.
  - destruct (B x (or_introl eq_refl)) as [Lx Hx].
    destruct (IH (acc + x) (fun y Hy => B y (or_intror Hy))) as [L H].
    simpl fold_left. simpl length.
    rewrite Nat2Z.inj_succ, <- Z.add_1_r, inject_Z_plus.
    change (inject_Z 1) with 1.
    split; lra.
Qed.

Lemma mean_between (l : list Q) (lo hi : Q) :
  l <> [] ->
  (forall x, In x l -> lo <= x /\ x <= hi) ->
  lo <= mean l /\ mean l <= hi.
Proof.
  intros NE B. unfold mean, sum.
  destruct (fold_sum_bounds l 0 lo hi B) as [L H].
  assert (P : 0 < inject_Z (Z.of_nat (length l))).
  { rewrite <- (Zlt_Qlt 0). destruct l; [congruence | simpl; lia]. }
  split; [apply Qle_shift_div_l | apply Qle_shift_div_r]; try exact P; lra.
Qed.

(** [min] and [max] bound every element. *)
Lemma min_list_le (x : Q) (l : list Q) :
  min_list x l <= x /\ forall y, In y l -> min_list x l <= y.
Proof.
  unfold min_list. revert x. induction l as [|z l IH]; intros x; simpl.
  - split; [apply Qle_refl | contradiction].
  - destruct (Qlt_bool z x) eqn:E.
    + apply Qlt_bool_iff in E. destruct (IH z) as [A B].
      split; [lra|]. intros y [<- | Hy]; [exact A | apply B, Hy].
    + apply Qlt_bool_false_iff in E. destruct (IH x) as [A B].
      split; [exact A|]. intros y [<- | Hy]; [lra | apply B, Hy].
Qed.

Lemma max_list_ge (x : Q) (l : list Q) :
  x <= max_list x l /\ forall y, In y l -> y <= max_list x l.
Proof.
  unfold max_list. revert x. induction l as [|z l IH]; intros x; simpl.
  - split; [apply Qle_refl | contradiction].
  - destruct (Qlt_bool x z) eqn:E.
    + apply Qlt_bool_iff in E. destruct (IH z) as [A B].
      split; [lra|]. intros y [<- | Hy]; [exact A | apply B, Hy].
    + apply Qlt_bool_false_iff in E. destruct (IH x) as [A B].
      split; [exact A|]. intros y [<- | Hy]; [lra | apply B, Hy].
Qed.

Lemma min_list_In (x : Q) (l : list Q) : In (min_list x l) (x :: l).
Proof.
  unfold min_list. revert x. induction l as [|z l IH]; intros x; simpl.
  - left; reflexivity.
  - destruct (Qlt_bool z x).
    + right. apply IH.
    + destruct (IH x) as [E | I]; [left; exact E | right; right; exact I].
Qed.

(** [[x for x in l if f(x)]] holds the elements of [l] that pass [f]. *)
Lemma In_filter_bool {A : Type} (f : A -> bool) (l : list A) (x : A) :
  In x (filter f l) <-> In x l /\ f x = true.
Proof.
  induction l as [|y l IH].
  - simpl. tauto.
  - rewrite filter_cons. destruct (f y) eqn:E; simpl.
    + rewrite IH. split.
      * intros [<- | [I F]]; auto.
      * intros [[<- | I] F]; auto.
    + rewrite IH. split.
      * intros [I F]; auto.
      * intros [[<- | I] F]; [congruence | auto].
Qed.

Lemma filter_nil_bool {A : Type} (f : A -> bool) (l : list A) :
  (forall x, In x l -> f x = false) -> filter f l = [].
Proof.
  intros B. induction l as [|y l IH]; [reflexivity|].
  rewrite filter_cons. rewrite (B y (or_introl eq_refl)). simpl.
  apply IH. intros x I. apply B. right; exact I.
Qed.

(** Appending one element and keeping the last [n >= 1]: the new element
    stays last, what is kept before it is a suffix of the old list. *)
Lemma last_n_app_one {A : Type} (n : nat) (l : list A) (x : A) :
  (0 < n)%nat ->
  last_n n (l ++ [x]) = skipn (length l + 1 - n) l ++ [x].
Proof.
  intros P. unfold last_n. rewrite length_app. simpl length.
  rewrite skipn_app.
  replace (length l + 1 - n - length l)%nat with 0%nat by lia.
  reflexivity.
Qed.

Lemma last_n_all {A : Type} (n : nat) (l : list A) :
  (length l <= n)%nat -> last_n n l = l.
Proof.
  intros L. unfold last_n. replace (length l - n)%nat with 0%nat by lia.
  reflexivity.
Qed.

Lemma last_n_app_exact {A : Type} (n : nat) (old w : list A) :
  length w = n -> last_n n (old ++ w) = w.
Proof.
  intros E. unfold last_n. rewrite length_app, E.
  replace (length old + n - n)%nat with (length old + 0)%nat by lia.
  rewrite Nat.add_0_r, skipn_app, skipn_all, Nat.sub_diag. reflexivity.
Qed.

End PyMoreFacts.

(** * thermal_model.py: storage, speed selection and statistics *)

Module ThermalModelMoreFacts.

Import ThermalModel.
Import PyFacts.
Import PyMoreFacts.

Lemma from_dict_to_dict (s : HeatingSession) :
  points s = [] -> from_dict (to_dict s) = s.
Proof. destruct s; simpl; intros ->; reflexivity. Qed.

(** X1: what [get_sessions_data] exports, [load_sessions] reads back: a
    history whose sessions carry no points is restored as it was, with the
    statistics recalculated from it; the points are the only thing an
    export drops. *)
Theorem sessions_survive_storage :
  (forall (m other : ThermalModel),
      Forall (fun s => points s = []) (sessions m) ->
      sessions (load_sessions other (get_sessions_data m)) = sessions m
      /\ _inertia (load_sessions other (get_sessions_data m))
         = recalculate_inertia (sessions m))
  /\ (forall s : HeatingSession,
      to_dict (from_dict (to_dict s)) = to_dict s
      /\ points (from_dict (to_dict s)) = []).
Proof.
  split.
  - intros m other F.
    assert (E : map from_dict (get_sessions_data m) = sessions m).
    { unfold get_sessions_data. induction F as [|s l P _ IH]; simpl.
      - reflexivity.
      - change (from_dict (to_dict s)) with (from_dict (to_dict s)).
        rewrite (from_dict_to_dict s P), IH. reflexivity. }
    unfold load_sessions, _recalculate. simpl. rewrite E. split; reflexivity.
  - intros s. split; reflexivity.
Qed.

(** A run of X1's theorem on the three recorded sessions. *)
Lemma sessions_survive_storage_witness :
  Forall (fun s => points s = []) (sessions Scenarios.three_sessions_model)
  /\ sessions (load_sessions (init 0)
                 (get_sessions_data Scenarios.three_sessions_model))
     = sessions Scenarios.three_sessions_model.
Proof.
  assert (F : Forall (fun s => points s = [])
                (sessions Scenarios.three_sessions_model)).
  { repeat constructor. }
  split; [exact F|].
  apply (proj1 sessions_survive_storage Scenarios.three_sessions_model (init 0) F).
Defined.

Lemma bucket_of_close (t : Q) :
  Z.divide 5 (bucket_of t) /\ Qabs (t - inject_Z (bucket_of t)) <= 2.5.
Proof.
  unfold bucket_of. split; [exists (Py.round_half_even (t / 5)); reflexivity|].
  pose proof (round_half_even_close (t / 5)) as C.
  apply Qabs_Qle_condition in C. apply Qabs_Qle_condition.
  rewrite inject_Z_mult. change (inject_Z 5) with 5.
  assert (E : t == 5 * (t / 5)) by field.
  set (y := t / 5) in *. clearbody y.
  split; lra.
Qed.

Lemma close_session_is_nearby (m : ThermalModel) (ext_temp : Q)
    (s : HeatingSession) :
  In s (sessions m) ->
  Qabs (temp_ext_avg s - ext_temp) <= 2.5 ->
  In s (nearby_sessions m ext_temp).
Proof.
  intros I N.
  destruct (bucket_of_close ext_temp) as [_ C].
  apply Qabs_Qle_condition in C.
  unfold nearby_sessions. apply In_filter_bool. split; [exact I|].
  apply Qle_bool_iff, Qabs_Qle_condition.
  apply Qabs_Qle_condition in N. split; lra.
Qed.

(** X2: the bucket of an outdoor temperature is a multiple of 5 within 2.5
    of it; a session recorded within 2.5 degrees of the query is always
    among the nearby sessions, and a nearby session is never more than 7.5
    degrees away. *)
Theorem nearby_sessions_window :
  forall (m : ThermalModel) (ext_temp : Q) (s : HeatingSession),
    Z.divide 5 (bucket_of ext_temp)
    /\ Qabs (ext_temp - inject_Z (bucket_of ext_temp)) <= 2.5
    /\ (In s (sessions m) ->
        Qabs (temp_ext_avg s - ext_temp) <= 2.5 ->
        In s (nearby_sessions m ext_temp))
    /\ (In s (nearby_sessions m ext_temp) ->
        In s (sessions m) /\ Qabs (temp_ext_avg s - ext_temp) <= 7.5).
Proof.
  intros m ext s.
  destruct (bucket_of_close ext) as [D C].
  split; [exact D|]. split; [exact C|].
  apply Qabs_Qle_condition in C.
  unfold nearby_sessions. split.
  - apply close_session_is_nearby.
  - intros I. apply In_filter_bool in I. destruct I as [I N].
    split; [exact I|].
    apply Qle_bool_iff, Qabs_Qle_condition in N.
    apply Qabs_Qle_condition. split; lra.
Qed.

(** A run of X2's theorem: a session at 4.8 degrees, a query at 5. *)
Lemma nearby_sessions_window_witness :
  In (Scenarios.session_at 4.8 0.06) (sessions Scenarios.three_sessions_model)
  /\ Qabs (temp_ext_avg (Scenarios.session_at 4.8 0.06) - 5) <= 2.5
  /\ In (Scenarios.session_at 4.8 0.06)
        (nearby_sessions Scenarios.three_sessions_model 5).
Proof.
  assert (I : In (Scenarios.session_at 4.8 0.06)
                 (sessions Scenarios.three_sessions_model)).
  { right; left; reflexivity. }
  assert (N : Qabs (temp_ext_avg (Scenarios.session_at 4.8 0.06) - 5) <= 2.5).
  { vm_compute. discriminate. }
  split; [exact I|]. split; [exact N|].
  exact (proj1 (proj2 (proj2 (nearby_sessions_window
           Scenarios.three_sessions_model 5 (Scenarios.session_at 4.8 0.06))))
           I N).
Defined.

Lemma positive_speeds_In (l : list HeatingSession) (v : Q) :
  In v (filter (fun v => Py.Qlt_bool 0 v) (map speed_degc_per_min l))
  <-> exists s, In s l /\ speed_degc_per_min s = v /\ 0 < v.
Proof.
  rewrite In_filter_bool, in_map_iff. split.
  - intros [[s [E I]] P]. exists s. apply Qlt_bool_iff in P. auto.
  - intros [s [I [E P]]]. split; [exists s; auto | apply Qlt_bool_iff, P].
Qed.

(** X3: when a session with a positive speed was recorded within 2.5
    degrees of the outdoor temperature, a positive speed is selected and
    the estimate for a target above the current temperature is never
    "not enough data". *)
Theorem estimate_defined_near_a_session :
  forall (m : ThermalModel) (s : HeatingSession)
         (current_temp target_temp ext_temp margin : Q),
    In s (sessions m) ->
    Qabs (temp_ext_avg s - ext_temp) <= 2.5 ->
    0 < speed_degc_per_min s ->
    current_temp < target_temp ->
    exists speed minutes,
      _get_speed_for_ext_temp m ext_temp = Some speed
      /\ 0 < speed
      /\ estimate_time_to_target m current_temp target_temp ext_temp margin
         = Some minutes.
Proof.
  intros m s c t e mg I N P L.
  pose proof (close_session_is_nearby m e s I N) as Near.
  set (speeds := filter (fun v => Py.Qlt_bool 0 v)
                        (map speed_degc_per_min (nearby_sessions m e))).
  assert (Is : In (speed_degc_per_min s) speeds).
  { apply positive_speeds_In. exists s. auto. }
  assert (NE : speeds <> []) by (intros E; rewrite E in Is; contradiction).
  assert (Sm : sessions m <> []) by (intros E; rewrite E in I; contradiction).
  destruct (ThermalModelFacts.speed_selection m e) as [_ [Sel _]].
  specialize (Sel Sm NE). fold speeds in Sel.
  destruct (Py.median speeds) as [v|] eqn:M;
    [|exfalso; apply (proj2 (median_some speeds) NE); exact M].
  assert (Pv : 0 < v).
  { apply (median_positive speeds v); [|exact M].
    intros x Hx. apply positive_speeds_In in Hx.
    destruct Hx as [_ [_ [_ Px]]]. exact Px. }
  exists v. eexists. split; [exact Sel|]. split; [exact Pv|].
  apply (ThermalModelFacts.estimate_with_speed m c t e mg v Sel Pv L).
Qed.

(** A run of X3's theorem on the three recorded sessions. *)
Lemma estimate_defined_near_a_session_witness :
  In (Scenarios.session_at 5 0.05) (sessions Scenarios.three_sessions_model)
  /\ Qabs (temp_ext_avg (Scenarios.session_at 5 0.05) - 6) <= 2.5
  /\ 0 < speed_degc_per_min (Scenarios.session_at 5 0.05)
  /\ 18 < 21
  /\ exists speed minutes,
       _get_speed_for_ext_temp Scenarios.three_sessions_model 6 = Some speed
       /\ 0 < speed
       /\ estimate_time_to_target Scenarios.three_sessions_model 18 21 6 1.15
          = Some minutes.
Proof.
  assert (I : In (Scenarios.session_at 5 0.05)
                 (sessions Scenarios.three_sessions_model)).
  { left; reflexivity. }
  assert (N : Qabs (temp_ext_avg (Scenarios.session_at 5 0.05) - 6) <= 2.5).
  { vm_compute. discriminate. }
  split; [exact I|]. split; [exact N|].
  split; [reflexivity|]. split; [reflexivity|].
  apply (estimate_defined_near_a_session Scenarios.three_sessions_model
           (Scenarios.session_at 5 0.05) 18 21 6 1.15 I N);
    reflexivity.
Defined.

Lemma no_valid_session (l : list HeatingSession) :
  (forall s, In s l -> speed_degc_per_min s <= 0) -> filter is_valid l = [].
Proof.
  intros B. apply filter_nil_bool. intros s I. unfold is_valid.
  assert (P : Py.Qlt_bool 0 (speed_degc_per_min s) = false).
  { apply Qlt_bool_false_iff, B, I. }
  rewrite P. reflexivity.
Qed.

(** X4: a model whose history holds no session of positive speed (an empty
    history included), once its statistics are recalculated, answers "not
    enough data" for every target above the current temperature. *)
Theorem no_estimate_without_positive_speed :
  forall (m : ThermalModel) (current_temp target_temp ext_temp margin : Q),
    (forall s, In s (sessions m) -> speed_degc_per_min s <= 0) ->
    current_temp < target_temp ->
    estimate_time_to_target (_recalculate m) current_temp target_temp
      ext_temp margin = None.
Proof.
  intros m c t e mg B L. unfold estimate_time_to_target.
  assert (D : Qle_bool (t - c) 0 = false) by (apply Qle_bool_false_iff; lra).
  rewrite D.
  assert (S : _get_speed_for_ext_temp (_recalculate m) e = None).
  { unfold _get_speed_for_ext_temp. simpl.
    destruct (sessions m) as [|s0 l] eqn:E; [reflexivity|].
    assert (F : filter (fun v => Py.Qlt_bool 0 v)
                  (map speed_degc_per_min (nearby_sessions (_recalculate m) e))
                = []).
    { destruct (filter _ _) as [|v vs] eqn:Fv; [reflexivity|]. exfalso.
      assert (Iv : In v (v :: vs)) by (left; reflexivity).
      rewrite <- Fv in Iv. apply positive_speeds_In in Iv.
      destruct Iv as [s [Is [Es Pv]]].
      unfold nearby_sessions in Is. apply In_filter_bool in Is. destruct Is as [Is _].
      simpl in Is. rewrite E in Is. specialize (B s Is). rewrite Es in B. lra. }
    rewrite F. unfold avg_speed_of, _recalculate, recalculate_inertia. simpl.
    rewrite E. rewrite (no_valid_session (s0 :: l) B). reflexivity. }
  rewrite S. reflexivity.
Qed.

(** A run of X4's theorem on a history of two sessions whose speed is 0. *)
Lemma no_estimate_without_positive_speed_witness :
  length (sessions MoreScenarios.stalled_model) = 2%nat
  /\ (forall s, In s (sessions MoreScenarios.stalled_model) ->
        speed_degc_per_min s <= 0)
  /\ 18 < 20
  /\ estimate_time_to_target (_recalculate MoreScenarios.stalled_model) 18 20 5 1.15
     = None.
Proof.
  assert (B : forall s, In s (sessions MoreScenarios.stalled_model) ->
                speed_degc_per_min s <= 0).
  { intros s [<- | [<- | []]]; vm_compute; discriminate. }
  split; [reflexivity|]. split; [exact B|]. split; [reflexivity|].
  apply (no_estimate_without_positive_speed MoreScenarios.stalled_model
           18 20 5 1.15 B).
  reflexivity.
Defined.

Lemma valid_speed_positive (s : HeatingSession) :
  is_valid s = true -> 0 < speed_degc_per_min s /\ 5 <= duration_min s.
Proof.
  unfold is_valid. intros V. apply andb_true_iff in V. destruct V as [P D].
  split; [apply Qlt_bool_iff, P | apply Qle_bool_iff, D].
Qed.

(** X5: after [_recalculate] the statistics exist exactly when a valid
    session does; they count the valid sessions, and the stored minimum,
    average, median and maximum speed are ordered: 0 <= min <= average <=
    max and min <= median <= max. *)
Theorem inertia_statistics :
  forall m : ThermalModel,
    let valid := filter is_valid (sessions m) in
    (valid = [] -> _inertia (_recalculate m) = None)
    /\ (valid <> [] ->
        exists i,
          _inertia (_recalculate m) = Some i
          /\ num_sessions i = length valid
          /\ 0 <= min_speed i
          /\ min_speed i <= avg_speed i /\ avg_speed i <= max_speed i
          /\ min_speed i <= median_speed i /\ median_speed i <= max_speed i).
Proof.
  intros m. cbv zeta. unfold _recalculate, recalculate_inertia. simpl.
  split.
  - intros E. destruct (sessions m); [reflexivity|]. rewrite E. reflexivity.
  - intros NE.
    destruct (sessions m) as [|s0 ss] eqn:Es.
    { exfalso. apply NE. reflexivity. }
    set (valid := filter is_valid (s0 :: ss)) in *.
    destruct (map speed_degc_per_min valid) as [|v0 vs] eqn:Ev.
    { exfalso. apply NE. destruct valid; [reflexivity | discriminate]. }
    eexists. split; [reflexivity|]. simpl.
    assert (Pos : forall x, In x (v0 :: vs) -> 0 < x).
    { intros x Hx. rewrite <- Ev in Hx. apply in_map_iff in Hx.
      destruct Hx as [s [<- Is]]. apply In_filter_bool in Is.
      apply valid_speed_positive, Is. }
    destruct (min_list_le v0 vs) as [Lo0 Lo].
    destruct (max_list_ge v0 vs) as [Hi0 Hi].
    assert (B : forall x, In x (v0 :: vs) ->
                          Py.min_list v0 vs <= x /\ x <= Py.max_list v0 vs).
    { intros x [<- | Hx]; [split; assumption | split; [apply Lo | apply Hi]; exact Hx]. }
    assert (NEs : v0 :: vs <> []) by discriminate.
    destruct (mean_between (v0 :: vs) _ _ NEs B) as [M1 M2].
    destruct (Py.median (v0 :: vs)) as [md|] eqn:Md;
      [|exfalso; apply (proj2 (median_some (v0 :: vs)) NEs); exact Md].
    destruct (median_between (v0 :: vs) _ _ md B Md) as [D1 D2].
    simpl get.
    split; [reflexivity|].
    split.
    { apply round_ndigits_nonneg, Qlt_le_weak, Pos, min_list_In. }
    repeat split; apply round_ndigits_mono; assumption.
Qed.

(** A run of X5's theorem on the three recorded sessions. *)
Lemma inertia_statistics_witness :
  filter is_valid (sessions Scenarios.three_sessions_model) <> []
  /\ exists i,
       _inertia (_recalculate Scenarios.three_sessions_model) = Some i
       /\ num_sessions i
          = length (filter is_valid (sessions Scenarios.three_sessions_model))
       /\ 0 <= min_speed i
       /\ min_speed i <= avg_speed i /\ avg_speed i <= max_speed i
       /\ min_speed i <= median_speed i /\ median_speed i <= max_speed i.
Proof.
  assert (NE : filter is_valid (sessions Scenarios.three_sessions_model) <> []).
  { vm_compute. discriminate. }
  split; [exact NE|].
  exact (proj2 (inertia_statistics Scenarios.three_sessions_model) NE).
Defined.

Lemma by_ext_append_keys (b : Z) (v : Q) (m : list (Z * list Q)) :
  (forall k, In k (map fst (by_ext_append b v m)) <-> k = b \/ In k (map fst m))
  /\ (List.NoDup (map fst m) -> List.NoDup (map fst (by_ext_append b v m))).
Proof.
  induction m as [|[k0 vs0] m [IHi IHn]].
  - simpl. split.
    + intros k. intuition.
    + intros _. constructor; [simpl; tauto | constructor].
  - simpl. destruct (Z.eqb_spec k0 b) as [-> | Ne]; simpl.
    + split; [intros k; intuition (subst; auto) | auto].
    + split.
      * intros k. rewrite IHi. intuition (subst; auto).
      * intros N. inversion N as [|? ? Nin Nm]; subst.
        constructor; [|apply IHn, Nm].
        rewrite IHi. intros [E | I]; [congruence | contradiction].
Qed.

Lemma by_ext_fold_keys (l : list HeatingSession) (acc : list (Z * list Q)) :
  let r :=
    fold_left
      (fun m s => by_ext_append (bucket_of (temp_ext_avg s)) (speed_degc_per_min s) m)
      l acc in
  (forall k, In k (map fst r)
             <-> In k (map fst acc)
                 \/ exists s, In s l /\ bucket_of (temp_ext_avg s) = k)
  /\ (List.NoDup (map fst acc) -> List.NoDup (map fst r)).
Proof.
  revert acc. induction l as [|s l IH]; intros acc; simpl.
  - split; [|auto]. intros k. split; [auto|].
    intros [I | [s [[] _]]]. exact I.
  - destruct (IH (by_ext_append (bucket_of (temp_ext_avg s))
                    (speed_degc_per_min s) acc)) as [Ii In_].
    destruct (by_ext_append_keys (bucket_of (temp_ext_avg s))
                (speed_degc_per_min s) acc) as [Ai An].
    split.
    + intros k. rewrite Ii, Ai. split.
      * intros [[E | I] | [x [Ix Ex]]].
        -- right. exists s. auto.
        -- left. exact I.
        -- right. exists x. auto.
      * intros [I | [x [[<- | Ix] Ex]]].
        -- left; right; exact I.
        -- left; left; symmetry; exact Ex.
        -- right. exists x. auto.
    + intros N. apply In_, An, N.
Qed.

(** X6: the per-bucket table of the statistics has one entry per bucket in
    which a valid session falls: its keys are pairwise distinct, each is
    the bucket (a multiple of 5) of some valid session, and every valid
    session's bucket is a key. *)
Theorem by_ext_temp_buckets :
  forall (m : ThermalModel) (i : Inertia),
    _inertia (_recalculate m) = Some i ->
    List.NoDup (map fst (by_ext_temp i))
    /\ (forall k, In k (map fst (by_ext_temp i))
                  <-> exists s, In s (sessions m) /\ is_valid s = true
                                /\ bucket_of (temp_ext_avg s) = k)
    /\ (forall k, In k (map fst (by_ext_temp i)) -> Z.divide 5 k).
Proof.
  intros m i. unfold _recalculate, recalculate_inertia. simpl.
  destruct (sessions m) as [|s0 ss] eqn:Es; [discriminate|].
  rewrite <- Es.
  destruct (map speed_degc_per_min (filter is_valid (sessions m))) as [|v0 vs];
    [discriminate|].
  intros E. injection E as <-. simpl by_ext_temp.
  rewrite map_map. simpl.
  destruct (by_ext_fold_keys (filter is_valid (sessions m)) []) as [Ki Kn].
  simpl in Ki, Kn.
  assert (Keys : forall k,
    In k (map (fun x : Z * list Q => fst x)
            (fold_left
               (fun m0 s => by_ext_append (bucket_of (temp_ext_avg s))
                              (speed_degc_per_min s) m0)
               (filter is_valid (sessions m)) []))
    <-> exists s, In s (sessions m) /\ is_valid s = true
                  /\ bucket_of (temp_ext_avg s) = k).
  { intros k. rewrite Ki. split.
    - intros [[] | [s [Is Eb]]]. apply In_filter_bool in Is.
      exists s. tauto.
    - intros [s [Is [V Eb]]]. right. exists s. split; [|exact Eb].
      apply In_filter_bool. auto. }
  split; [apply Kn; constructor|].
  split; [exact Keys|].
  intros k Ik. apply Keys in Ik. destruct Ik as [s [_ [_ <-]]].
  apply bucket_of_close.
Qed.

(** A run of X6's theorem on the three recorded sessions. *)
Lemma by_ext_temp_buckets_witness :
  exists i,
    _inertia (_recalculate Scenarios.three_sessions_model) = Some i
    /\ List.NoDup (map fst (by_ext_temp i)).
Proof.
  refine (let E := _ : _inertia (_recalculate Scenarios.three_sessions_model)
                       = Some _ in
          ex_intro _ _
            (conj E (proj1 (by_ext_temp_buckets
                              Scenarios.three_sessions_model _ E)))).
  vm_compute. reflexivity.
Defined.


(** X7: [add_session] always keeps the session it is given, as the last
    element; what precedes it is the tail end of the old history, the
    oldest [len - 99] sessions being dropped (none while the history holds
    fewer than 100). *)
Theorem add_session_keeps_newest :
  forall (m : ThermalModel) (s : HeatingSession),
    exists dropped kept,
      sessions m = dropped ++ kept
      /\ sessions (add_session m s) = kept ++ [s]
      /\ length dropped = (length (sessions m) - 99)%nat.
Proof.
  intros m s. simpl.
  destruct (100 <? length (sessions m ++ [s]))%nat eqn:E.
  - apply Nat.ltb_lt in E. rewrite length_app in E. simpl in E.
    exists (firstn (length (sessions m) + 1 - 100) (sessions m)),
           (skipn (length (sessions m) + 1 - 100) (sessions m)).
    split; [symmetry; apply firstn_skipn|].
    split; [apply last_n_app_one; lia|].
    rewrite length_firstn. lia.
  - apply Nat.ltb_ge in E. rewrite length_app in E. simpl in E.
    exists [], (sessions m). repeat split. simpl. lia.
Qed.

(** X8: an estimate, when there is one, is a whole number of minutes, and
    it is not negative when the margin is not. *)
Theorem estimate_is_whole_and_nonnegative :
  forall (m : ThermalModel) (current_temp target_temp ext_temp margin minutes : Q),
    estimate_time_to_target m current_temp target_temp ext_temp margin
    = Some minutes ->
    (exists z : Z, minutes == inject_Z z)
    /\ (0 <= margin -> 0 <= minutes).
Proof.
  intros m c t e mg v. unfold estimate_time_to_target.
  destruct (Qle_bool (t - c) 0) eqn:D.
  - intros E. injection E as <-. split; [exists 0%Z; reflexivity|].
    intros _. apply Qle_refl.
  - destruct (_get_speed_for_ext_temp m e) as [speed|]; [|discriminate].
    destruct (Qle_bool speed 0) eqn:P; [discriminate|].
    intros E. injection E as <-.
    apply Qle_bool_false_iff in D. apply Qle_bool_false_iff in P.
    split; [eexists; apply round_ndigits_0|].
    intros M. apply ThermalModelFacts.round_ndigits_0_nonneg.
    apply ThermalModelFacts.scaled_time_nonneg; lra.
Qed.

(** A run of X8's theorem on the scenario of the three sessions. *)
Lemma estimate_is_whole_and_nonnegative_witness :
  estimate_time_to_target Scenarios.three_sessions_model 18 20 5 1.15
  = Some (42 # 1)
  /\ exists z : Z, (42 # 1) == inject_Z z.
Proof.
  assert (E : estimate_time_to_target Scenarios.three_sessions_model 18 20 5 1.15
              = Some (42 # 1)) by (vm_compute; reflexivity).
  split; [exact E|].
  exact (proj1 (estimate_is_whole_and_nonnegative
                  Scenarios.three_sessions_model 18 20 5 1.15 (42 # 1) E)).
Defined.

End ThermalModelMoreFacts.

(** * feedback.py: tracking, recording and storage *)

Module FeedbackMoreFacts.

Import Feedback.
Import PyFacts.
Import PyMoreFacts.

(** X9: without a tracked cycle [record_result] returns nothing and leaves
    the loop as it is; a cycle is recorded once, since recording clears the
    tracking and a second call then returns nothing and changes nothing. *)
Theorem result_recorded_once :
  (forall (self : FeedbackLoop) (current_temp : Q) (reached : bool)
          (now : Py.datetime),
      _pending_start self = None ->
      record_result self current_temp reached now = (self, None))
  /\ (forall (self : FeedbackLoop) (current_temp current_temp' : Q)
             (reached reached' : bool) (now now' : Py.datetime),
      let after := fst (record_result self current_temp reached now) in
      _pending_start after = None
      /\ record_result after current_temp' reached' now' = (after, None)).
Proof.
  assert (A : forall self c b now, _pending_start self = None ->
                record_result self c b now = (self, None)).
  { intros self c b now P. unfold record_result. rewrite P. reflexivity. }
  split; [exact A|].
  intros self c c' b b' now now' after.
  assert (P : _pending_start after = None).
  { unfold after, record_result.
    destruct (_pending_start self) eqn:E; simpl; [reflexivity | exact E]. }
  split; [exact P | apply A, P].
Qed.

(** A run of X9's theorem on a loop that tracks nothing. *)
Lemma result_recorded_once_witness :
  _pending_start (init "salon") = None
  /\ record_result (init "salon") 20 true 0%Z = (init "salon", None).
Proof.
  split; [reflexivity|].
  apply (proj1 result_recorded_once (init "salon") 20 true 0%Z).
  reflexivity.
Defined.

(** X10: a cycle tracked with [start_tracking] and closed with
    [record_result] is appended to the history with the tracked target,
    target time, start temperature, margin, advisor adjustment and outdoor
    temperature, the temperature and outcome given at the end, whatever was
    tracked before. *)
Theorem tracked_cycle_is_recorded :
  forall (self : FeedbackLoop) (target : Q) (target_time0 : Py.datetime)
         (start margin llm ext : Q) (started : Py.datetime)
         (current_temp : Q) (reached : bool) (now : Py.datetime),
    let closed :=
      record_result
        (start_tracking self target target_time0 start margin llm ext started)
        current_temp reached now in
    exists r kept,
      snd closed = Some r
      /\ history (fst closed) = kept ++ [r]
      /\ target_temp r = target
      /\ target_time r = target_time0
      /\ temp_at_start r = start
      /\ margin_used r = margin
      /\ llm_adjustment r = llm
      /\ ext_temp_avg r = ext
      /\ actual_temp_at_target_time r = current_temp
      /\ success r = Some reached
      /\ date r = now.
Proof.
  intros self tg tt st mg llm ext t0 c b now closed.
  unfold closed, record_result, start_tracking. simpl.
  eexists.
  destruct (MAX_HISTORY <? length (history self ++ [_]))%nat eqn:E.
  - exists (skipn (length (history self) + 1 - MAX_HISTORY) (history self)).
    split; [reflexivity|].
    split; [apply last_n_app_one; unfold MAX_HISTORY; lia|].
    repeat split.
  - exists (history self). repeat split.
Qed.



(** X12: the suggestion is read off the last 10 results alone: two loops
    whose histories end with the same 10 results get the same suggestion,
    whatever came before and whatever they are tracking. *)
Theorem suggestion_reads_last_ten :
  forall (zone1 zone2 : string) (pending1 pending2 : option Pending)
         (old1 old2 window : list AnticipationResult),
    length window = 10%nat ->
    get_margin_suggestion
      {| zone_name := zone1; history := old1 ++ window; _pending_start := pending1 |}
    = get_margin_suggestion
        {| zone_name := zone2; history := old2 ++ window; _pending_start := pending2 |}.
Proof.
  intros z1 z2 p1 p2 o1 o2 w L.
  unfold get_margin_suggestion, recent_results. simpl.
  rewrite !(last_n_app_exact 10) by exact L. reflexivity.
Qed.

(** A run of X12's theorem: ten late results after twenty early ones. *)
Lemma suggestion_reads_last_ten_witness :
  length (repeat (Scenarios.result_early (-4) (Some false)) 10) = 10%nat
  /\ get_margin_suggestion
       {| zone_name := "salon";
          history := repeat (Scenarios.result_early 12 (Some true)) 20
                     ++ repeat (Scenarios.result_early (-4) (Some false)) 10;
          _pending_start := None |}
     = get_margin_suggestion
         {| zone_name := "salon";
            history := [] ++ repeat (Scenarios.result_early (-4) (Some false)) 10;
            _pending_start := None |}.
Proof.
  split; [reflexivity|].
  apply (suggestion_reads_last_ten "salon" "salon" None None
           (repeat (Scenarios.result_early 12 (Some true)) 20) []
           (repeat (Scenarios.result_early (-4) (Some false)) 10)).
  reflexivity.
Defined.

Import FeedbackStore.

Lemma result_from_dict_to_dict (r : AnticipationResult) :
  FeedbackStore.from_dict (FeedbackStore.to_dict r) = Some r.
Proof. destruct r; reflexivity. Qed.

Lemma decode_all_to_dict (l : list AnticipationResult) :
  decode_all (map FeedbackStore.to_dict l) = Some l.
Proof.
  induction l as [|r l IH]; [reflexivity|]. cbn [map decode_all].
  rewrite result_from_dict_to_dict, IH. reflexivity.
Qed.

Lemma decode_all_missing (data : list ResultDict) (d : ResultDict) :
  In d data -> FeedbackStore.from_dict d = None -> decode_all data = None.
Proof.
  induction data as [|x data IH]; intros I N; [contradiction|].
  simpl. destruct I as [-> | I].
  - rewrite N. reflexivity.
  - destruct (FeedbackStore.from_dict x); [|reflexivity].
    rewrite (IH I N). reflexivity.
Qed.

(** X13: a result written to storage reads back as itself; loading what
    [get_history_data] exported gives the last 30 results of the exporting
    loop (all of them when it holds at most 30); and one persisted record
    that lacks a field makes [load_history] start from an empty history. *)
Theorem feedback_history_survives_storage :
  (forall r : AnticipationResult,
      FeedbackStore.from_dict (FeedbackStore.to_dict r) = Some r)
  /\ (forall self other : FeedbackLoop,
      history (load_history_data self (get_history_dicts other))
      = Py.last_n 30 (history other))
  /\ (forall self other : FeedbackLoop,
      (length (history other) <= 30)%nat ->
      history (load_history_data self (get_history_dicts other)) = history other)
  /\ (forall (self : FeedbackLoop) (data : list ResultDict) (d : ResultDict),
      In d data ->
      FeedbackStore.from_dict d = None ->
      history (load_history_data self data) = []).
Proof.
  split; [exact result_from_dict_to_dict|].
  assert (A : forall self other,
             history (load_history_data self (get_history_dicts other))
             = Py.last_n 30 (history other)).
  { intros self other. unfold load_history_data, get_history_dicts, load_history.
    simpl. rewrite decode_all_to_dict. reflexivity. }
  split; [exact A|]. split.
  - intros self other L. rewrite A. apply last_n_all, L.
  - intros self data d I N. unfold load_history_data, load_history. simpl.
    rewrite (decode_all_missing data d I N). reflexivity.
Qed.

(** A run of X13's theorem: a loop with three results, exported and
    loaded. *)
Lemma feedback_history_survives_storage_witness :
  (length (history (Scenarios.tracking_loop
                      (repeat (Scenarios.result_early 3 (Some true)) 3))) <= 30)%nat
  /\ history (load_history_data (init "salon")
                (get_history_dicts
                   (Scenarios.tracking_loop
                      (repeat (Scenarios.result_early 3 (Some true)) 3))))
     = history (Scenarios.tracking_loop
                  (repeat (Scenarios.result_early 3 (Some true)) 3)).
Proof.
  assert (L : (length (history (Scenarios.tracking_loop
                 (repeat (Scenarios.result_early 3 (Some true)) 3))) <= 30)%nat).
  { simpl. lia. }
  split; [exact L|].
  apply (proj1 (proj2 (proj2 feedback_history_survives_storage))
           (init "salon")
           (Scenarios.tracking_loop (repeat (Scenarios.result_early 3 (Some true)) 3))
           L).
Defined.

End FeedbackMoreFacts.

(** * anticipation.py: what one evaluation can do *)

Module AnticipationMoreFacts.

Import HA.
Import Anticipation.
Import PyFacts.
Import PyMoreFacts.

Section Evaluation.

Context `{Builtins}.

(** The five outcomes of [async_evaluate]: nothing, a reset, the loss of
    the inputs, an activation, a stay. *)
Lemma evaluate_cases (env : Env) (self : AnticipationEngine)
    (temp_indoor temp_outdoor minutes_needed0 next_consigne : option Q)
    (gate : bool) (target_time0 : option Py.datetime) (margin : Q) :
  let r :=
    async_evaluate env self temp_indoor temp_outdoor minutes_needed0
      next_consigne gate target_time0 margin in
  r = (self, [])
  \/ (active (state self) = true /\ r = (_deactivate self, []))
  \/ (active (state self) = true
      /\ (temp_indoor = None \/ next_consigne = None \/ minutes_needed0 = None)
      /\ r = (with_state self (set_active (state self) false), []))
  \/ (active (state self) = false /\ gate = false
      /\ exists ti nc mn t,
           temp_indoor = Some ti /\ next_consigne = Some nc
           /\ minutes_needed0 = Some mn
           /\ ti < nc - 0.2 /\ 0.3 < nc - ti /\ 0 < mn
           /\ fst (decide_start env self mn nc target_time0) = true
           /\ t = match snd (decide_start env self mn nc target_time0) with
                  | Some t => t
                  | None => (now env + Py.timedelta_minutes mn)%Z
                  end
           /\ r = _send_consigne env
                    (with_state self (Invariants.activated nc ti mn t (now env)))
                    nc)
  \/ (active (state self) = true
      /\ exists ti nc mn,
           temp_indoor = Some ti /\ next_consigne = Some nc
           /\ minutes_needed0 = Some mn
           /\ ti < nc - 0.2
           /\ (fst (decide_start env self mn nc target_time0) = true
               \/ ~ nc == 0)
           /\ r = stay_active env self).
Proof.
  cbv zeta. unfold async_evaluate.
  destruct temp_indoor as [ti|], next_consigne as [nc|], minutes_needed0 as [mn|];
    try (destruct (active (state self)) eqn:A;
         [right; right; left; split; [reflexivity|]; split; [|reflexivity]; auto
         |left; reflexivity]).
  destruct (Qle_bool (nc - 0.2) ti) eqn:R.
  { destruct (active (state self)) eqn:A;
      [right; left; split; reflexivity | left; reflexivity]. }
  apply Qle_bool_false_iff in R.
  destruct gate, (active (state self)) eqn:A; simpl;
    try (left; reflexivity);
    destruct (decide_start env self mn nc target_time0) as [ss ett] eqn:D; simpl.
  - (* gate set, Active *)
    rewrite andb_false_r.
    destruct (ss || Py.truthy nc && Py.Qlt_bool ti (nc - 0.2)) eqn:C.
    + right; right; right; right. split; [reflexivity|].
      exists ti, nc, mn. repeat split; try assumption.
      apply orb_true_iff in C. destruct C as [C | C]; [left; rewrite D; exact C|].
      right. apply andb_true_iff in C. destruct C as [T _]. unfold Py.truthy in T.
      intros Z. apply Qeq_bool_iff in Z. rewrite Z in T. discriminate.
    + right; left. split; reflexivity.
  - (* gate clear, Active *)
    rewrite andb_false_r.
    destruct (ss || Py.truthy nc && Py.Qlt_bool ti (nc - 0.2)) eqn:C.
    + right; right; right; right. split; [reflexivity|].
      exists ti, nc, mn. repeat split; try assumption.
      apply orb_true_iff in C. destruct C as [C | C]; [left; rewrite D; exact C|].
      right. apply andb_true_iff in C. destruct C as [T _]. unfold Py.truthy in T.
      intros Z. apply Qeq_bool_iff in Z. rewrite Z in T. discriminate.
    + right; left. split; reflexivity.
  - (* gate clear, Idle *)
    rewrite andb_true_r. destruct ss; [|left; reflexivity].
    destruct (Py.Qlt_bool 0.3 (nc - ti)) eqn:D3; [|left; reflexivity].
    destruct (Py.Qlt_bool 0 mn) eqn:Dm; [|left; reflexivity]. simpl.
    right; right; right; left. split; [reflexivity|]. split; [reflexivity|].
    exists ti, nc, mn. eexists.
    apply Qlt_bool_iff in D3. apply Qlt_bool_iff in Dm.
    rewrite D. simpl.
    repeat split; try assumption; reflexivity.
Qed.

Lemma stay_active_state_eq (env : Env) (self : AnticipationEngine) :
  state (fst (stay_active env self))
  = set_minutes_until_target (state self)
      (Some (Py.max 0 match target_time (state self) with
                      | Some t => minutes_from (now env) t
                      | None => 0
                      end)).
Proof.
  unfold stay_active, _send_consigne, no_command. cbv zeta. simpl.
  destruct (target_consigne (state self)) as [t|]; [|reflexivity].
  destruct (should_resend env _ && Py.truthy t); [|reflexivity].
  destruct (service_ok env); reflexivity.
Qed.

Lemma send_state (env : Env) (self : AnticipationEngine) (t : Q) :
  state (fst (_send_consigne env self t)) = state self
  /\ snd (_send_consigne env self t) = [t].
Proof. unfold _send_consigne. destruct (service_ok env); split; reflexivity. Qed.

Lemma evaluate_keeps_complete (env : Env) (self : AnticipationEngine)
    (temp_indoor temp_outdoor minutes_needed0 next_consigne : option Q)
    (gate : bool) (target_time0 : option Py.datetime) (margin : Q) :
  Invariants.state_complete (state self) ->
  Invariants.state_complete
    (state (fst (async_evaluate env self temp_indoor temp_outdoor
                   minutes_needed0 next_consigne gate target_time0 margin))).
Proof.
  intros C.
  destruct (evaluate_cases env self temp_indoor temp_outdoor minutes_needed0
              next_consigne gate target_time0 margin)
    as [E | [[_ E] | [[_ [_ E]] | [[_ [_ [ti [nc [mn [t [_ [_ [_ [_ [_ [_ [_ [_ E]]]]]]]]]]]]]]
       | [A [ti [nc [mn [_ [_ [_ [_ [_ E]]]]]]]]]]]]];
    rewrite E.
  - exact C.
  - intros F. discriminate F.
  - intros F. discriminate F.
  - rewrite (proj1 (send_state env _ nc)). intros _. simpl.
    do 6 eexists. repeat split.
  - rewrite stay_active_state_eq. intros _.
    destruct (C A) as [g [tm [nd [rm [sa [tp [T1 [T2 [T3 [T4 [T5 T6]]]]]]]]]]].
    simpl. rewrite T1, T2, T3, T5, T6. do 6 eexists. repeat split.
Qed.

Lemma evaluate_commands (env : Env) (self : AnticipationEngine)
    (temp_indoor temp_outdoor minutes_needed0 next_consigne : option Q)
    (gate : bool) (target_time0 : option Py.datetime) (margin : Q) :
  let r :=
    async_evaluate env self temp_indoor temp_outdoor minutes_needed0
      next_consigne gate target_time0 margin in
  (length (snd r) <= 1)%nat
  /\ forall t, In t (snd r) ->
                active (state (fst r)) = true
                /\ target_consigne (state (fst r)) = Some t.
Proof.
  cbv zeta.
  destruct (evaluate_cases env self temp_indoor temp_outdoor minutes_needed0
              next_consigne gate target_time0 margin)
    as [E | [[_ E] | [[_ [_ E]] | [[_ [_ [ti [nc [mn [t [_ [_ [_ [_ [_ [_ [_ [_ E]]]]]]]]]]]]]]
       | [A [ti [nc [mn [_ [_ [_ [_ [_ E]]]]]]]]]]]]];
    rewrite E; try (simpl; split; [lia | intros t []]).
  - destruct (send_state env
                (with_state self (Invariants.activated nc ti mn t (now env))) nc)
      as [S C].
    rewrite S, C. simpl. split; [lia|].
    intros x [<- | []]. split; reflexivity.
  - rewrite AnticipationFacts.stay_active_commands.
    destruct (AnticipationFacts.stay_active_state env self) as [Sa [St _]].
    rewrite Sa, St.
    destruct (target_consigne (state self)) as [g|]; [|simpl; split; [lia | intros t []]].
    destruct (should_resend env self && Py.truthy g); simpl;
      [|split; [lia | intros t []]].
    split; [lia|]. intros x [<- | []]. split; [exact A | reflexivity].
Qed.

Lemma decide_start_known_time (env : Env) (self : AnticipationEngine)
    (mn nc : Q) (t : Py.datetime) :
  0 < mn ->
  snd (decide_start env self mn nc (Some t)) = Some t
  /\ (fst (decide_start env self mn nc (Some t)) = true
      <-> minutes_from (now env) t - mn <= 2).
Proof.
  intros P. unfold decide_start. cbv zeta.
  apply Qlt_bool_iff in P. rewrite P. apply Qlt_bool_iff in P.
  destruct (Qle_bool (minutes_from (now env) t - mn) 2) eqn:L.
  - apply Qle_bool_iff in L. simpl. split; [reflexivity|]. tauto.
  - apply Qle_bool_false_iff in L.
    destruct (Py.Qlt_bool (minutes_from (now env) t) 0) eqn:N.
    + apply Qlt_bool_iff in N. exfalso. lra.
    + simpl. split; [reflexivity|]. split; [discriminate | intros; exfalso; lra].
Qed.

Lemma decide_start_unknown_time (env : Env) (self : AnticipationEngine)
    (mn nc : Q) :
  fst (decide_start env self mn nc None) = true ->
  snd (decide_start env self mn nc None)
  = Some (now env + Py.timedelta_minutes mn)%Z.
Proof.
  unfold decide_start. cbv zeta.
  destruct (_get_current_consigne env self) as [c|]; [|discriminate].
  destruct (Py.Qlt_bool (c + 0.3) nc); [reflexivity | discriminate].
Qed.

Lemma sent_is_recorded (env : Env) (self : AnticipationEngine)
    (temp_indoor temp_outdoor minutes_needed0 next_consigne : option Q)
    (gate : bool) (target_time0 : option Py.datetime) (margin : Q) :
  let r :=
    async_evaluate env self temp_indoor temp_outdoor minutes_needed0
      next_consigne gate target_time0 margin in
  service_ok env = true ->
  snd r <> [] ->
  _last_consigne_sent_time (fst r) = Some (send_now env)
  /\ _last_consigne_sent (fst r) = target_consigne (state (fst r)).
Proof.
  cbv zeta. intros Ok.
  destruct (evaluate_cases env self temp_indoor temp_outdoor minutes_needed0
              next_consigne gate target_time0 margin)
    as [E | [[_ E] | [[_ [_ E]] | [[_ [_ [ti [nc [mn [t [_ [_ [_ [_ [_ [_ [_ [_ E]]]]]]]]]]]]]]
       | [A [ti [nc [mn [_ [_ [_ [_ [_ E]]]]]]]]]]]]];
    rewrite E; try (simpl; congruence).
  - intros _. unfold _send_consigne. rewrite Ok. split; reflexivity.
  - unfold stay_active, _send_consigne, no_command. cbv zeta. simpl.
    destruct (target_consigne (state self)) as [g|] eqn:T; [|simpl; congruence].
    destruct (should_resend env _ && Py.truthy g); [|simpl; congruence].
    rewrite Ok. simpl. intros _. rewrite T. split; reflexivity.
Qed.

End Evaluation.

(** X14: an Active state always has its target, target time, minutes
    needed, remaining minutes, start time and start temperature set: this
    holds of a new engine and after [_deactivate], and [async_evaluate] and
    [async_restore_consigne] keep it. *)
Theorem active_state_is_complete :
  (forall (zone climate : string) (schedule : option string) (anti : bool)
          (min_off : Z),
      Invariants.state_complete (state (init zone climate schedule anti min_off)))
  /\ (forall self : AnticipationEngine,
      Invariants.state_complete (state (_deactivate self)))
  /\ (forall (env : Env) (self : AnticipationEngine) (temperature : Q),
      Invariants.state_complete (state self) ->
      Invariants.state_complete
        (state (fst (async_restore_consigne env self temperature))))
  /\ (forall (B : Builtins) (env : Env) (self : AnticipationEngine)
             (temp_indoor temp_outdoor minutes_needed next_consigne : option Q)
             (gate : bool) (target_time : option Py.datetime) (margin : Q),
      Invariants.state_complete (state self) ->
      Invariants.state_complete
        (state (fst (async_evaluate env self temp_indoor temp_outdoor
                       minutes_needed next_consigne gate target_time margin)))).
Proof.
  split; [intros ? ? ? ? ? F; discriminate F|].
  split; [intros self F; discriminate F|].
  split.
  - intros env self t C. unfold async_restore_consigne.
    rewrite (proj1 (send_state env self t)). exact C.
  - intros B env self ti to mn nc gate tt m C.
    apply evaluate_keeps_complete, C.
Qed.

(** A run of X14's theorem: the Idle engine at 16:50, 30 minutes needed
    for 17:00. *)
Lemma active_state_is_complete_witness :
  Invariants.state_complete (state Scenarios.idle_engine)
  /\ Invariants.state_complete
       (state (fst (@async_evaluate Scenarios.simple_builtins
                      (Scenarios.env_at (Scenarios.minute 1010) 16 true)
                      Scenarios.idle_engine (Some 17) (Some 5) (Some 30)
                      (Some 19.5) false (Some (Scenarios.minute 1020)) 1.15))).
Proof.
  assert (C : Invariants.state_complete (state Scenarios.idle_engine)).
  { intros F. discriminate F. }
  split; [exact C|].
  apply (proj2 (proj2 (proj2 active_state_is_complete))
           Scenarios.simple_builtins
           (Scenarios.env_at (Scenarios.minute 1010) 16 true)
           Scenarios.idle_engine (Some 17) (Some 5) (Some 30) (Some 19.5)
           false (Some (Scenarios.minute 1020)) 1.15 C).
Defined.

(** X16: with the transition time known, an Idle engine with the gate
    clear, more than 0.3 degrees to gain and a positive estimate starts
    exactly when the minutes to the transition minus the minutes needed are
    at most 2, whatever the schedule entity shows. *)
Theorem starts_within_two_minutes_of_optimal :
  forall (B : Builtins) (env : Env) (self : AnticipationEngine)
         (temp_indoor minutes_needed next_consigne : Q) (temp_outdoor : option Q)
         (target_time : Py.datetime) (margin : Q),
    active (state self) = false ->
    0.3 < next_consigne - temp_indoor ->
    0 < minutes_needed ->
    (active (state (fst (async_evaluate env self (Some temp_indoor) temp_outdoor
                           (Some minutes_needed) (Some next_consigne) false
                           (Some target_time) margin))) = true
     <-> minutes_from (now env) target_time - minutes_needed <= 2).
Proof.
  intros B env self ti mn nc to tt m Idle D3 Pm.
  destruct (decide_start_known_time env self mn nc tt Pm) as [_ Iff].
  unfold async_evaluate.
  assert (R : Qle_bool (nc - 0.2) ti = false) by (apply Qle_bool_false_iff; lra).
  rewrite R, Idle. cbn [andb negb].
  destruct (decide_start env self mn nc (Some tt)) as [ss ett]. simpl in Iff.
  apply Qlt_bool_iff in D3. apply Qlt_bool_iff in Pm.
  destruct ss; cbn [andb negb].
  - rewrite D3, Pm. cbn [andb].
    rewrite (proj1 (send_state env _ nc)). simpl. tauto.
  - unfold no_command. simpl. rewrite Idle.
    split; [congruence|]. intros L. apply Iff in L. discriminate L.
Qed.

(** A run of X16's theorem: at 16:50 with 30 minutes needed for 17:00. *)
Lemma starts_within_two_minutes_of_optimal_witness :
  active (state Scenarios.idle_engine) = false
  /\ 0.3 < 19.5 - 17
  /\ 0 < 30
  /\ (active (state (fst (@async_evaluate Scenarios.simple_builtins
          (Scenarios.env_at (Scenarios.minute 1010) 16 true)
          Scenarios.idle_engine (Some 17) (Some 5) (Some 30) (Some 19.5) false
          (Some (Scenarios.minute 1020)) 1.15))) = true
      <-> minutes_from (Scenarios.minute 1010) (Scenarios.minute 1020) - 30 <= 2).
Proof.
  split; [reflexivity|]. split; [reflexivity|]. split; [reflexivity|].
  apply (starts_within_two_minutes_of_optimal Scenarios.simple_builtins
           (Scenarios.env_at (Scenarios.minute 1010) 16 true)
           Scenarios.idle_engine 17 30 19.5 (Some 5) (Scenarios.minute 1020) 1.15);
    reflexivity.
Defined.

(** X17: one evaluation sends at most one command; a command is only sent
    by an engine that is Active after the call, and it is that engine's
    target set-point. *)
Theorem commands_are_the_target :
  forall (B : Builtins) (env : Env) (self : AnticipationEngine)
         (temp_indoor temp_outdoor minutes_needed next_consigne : option Q)
         (gate : bool) (target_time : option Py.datetime) (margin : Q),
    let r :=
      async_evaluate env self temp_indoor temp_outdoor minutes_needed
        next_consigne gate target_time margin in
    (length (snd r) <= 1)%nat
    /\ forall t, In t (snd r) ->
                  active (state (fst r)) = true
                  /\ target_consigne (state (fst r)) = Some t.
Proof. intros B env self ti to mn nc gate tt m. apply evaluate_commands. Qed.

(** A run of X17's theorem on the resend at 16:41. *)
Lemma commands_are_the_target_witness :
  In 19.5 (snd (@async_evaluate Scenarios.simple_builtins
            (Scenarios.env_at (Scenarios.minute 1001) 19.5 true)
            (Scenarios.active_engine (Some (Scenarios.minute 990)))
            (Some 17) (Some 5) (Some 40) (Some 19.5) false
            (Some (Scenarios.minute 1020)) 1.15))
  /\ target_consigne (state (fst (@async_evaluate Scenarios.simple_builtins
            (Scenarios.env_at (Scenarios.minute 1001) 19.5 true)
            (Scenarios.active_engine (Some (Scenarios.minute 990)))
            (Some 17) (Some 5) (Some 40) (Some 19.5) false
            (Some (Scenarios.minute 1020)) 1.15))) = Some 19.5.
Proof.
  assert (I : In 19.5 (snd (@async_evaluate Scenarios.simple_builtins
            (Scenarios.env_at (Scenarios.minute 1001) 19.5 true)
            (Scenarios.active_engine (Some (Scenarios.minute 990)))
            (Some 17) (Some 5) (Some 40) (Some 19.5) false
            (Some (Scenarios.minute 1020)) 1.15))).
  { vm_compute. left; reflexivity. }
  split; [exact I|].
  exact (proj2 (proj2 (commands_are_the_target Scenarios.simple_builtins
           (Scenarios.env_at (Scenarios.minute 1001) 19.5 true)
           (Scenarios.active_engine (Some (Scenarios.minute 990)))
           (Some 17) (Some 5) (Some 40) (Some 19.5) false
           (Some (Scenarios.minute 1020)) 1.15) 19.5 I)).
Defined.

(** X18: an Active engine that loses one of its inputs becomes inactive
    without being reset: the target, the target time, the start data and
    the record of the last command stay as they were, and nothing is
    sent. *)
Theorem lost_inputs_deactivate_without_reset :
  forall (B : Builtins) (env : Env) (self : AnticipationEngine)
         (temp_indoor temp_outdoor minutes_needed next_consigne : option Q)
         (gate : bool) (target_time0 : option Py.datetime) (margin : Q),
    active (state self) = true ->
    temp_indoor = None \/ next_consigne = None \/ minutes_needed = None ->
    let r :=
      async_evaluate env self temp_indoor temp_outdoor minutes_needed
        next_consigne gate target_time0 margin in
    active (state (fst r)) = false
    /\ target_consigne (state (fst r)) = target_consigne (state self)
    /\ target_time (state (fst r)) = target_time (state self)
    /\ started_at (state (fst r)) = started_at (state self)
    /\ temp_at_start (state (fst r)) = temp_at_start (state self)
    /\ _last_consigne_sent (fst r) = _last_consigne_sent self
    /\ _last_consigne_sent_time (fst r) = _last_consigne_sent_time self
    /\ snd r = [].
Proof.
  intros B env self ti to mn nc gate tt m Act Missing r.
  assert (E : r = (with_state self (set_active (state self) false), [])).
  { unfold r, async_evaluate.
    destruct Missing as [-> | [-> | ->]];
      [|destruct ti|destruct ti, nc]; rewrite ?Act; reflexivity. }
  rewrite E. repeat split.
Qed.

(** A run of X18's theorem: the indoor sensor is unavailable. *)
Lemma lost_inputs_deactivate_without_reset_witness :
  active (state (Scenarios.active_engine (Some (Scenarios.minute 990)))) = true
  /\ ((None : option Q) = None \/ Some 19.5 = None \/ Some 40 = None)
  /\ target_consigne (state (fst (@async_evaluate Scenarios.simple_builtins
          (Scenarios.env_at (Scenarios.minute 1001) 19.5 true)
          (Scenarios.active_engine (Some (Scenarios.minute 990)))
          None (Some 5) (Some 40) (Some 19.5) false
          (Some (Scenarios.minute 1020)) 1.15)))
     = Some 19.5.
Proof.
  split; [reflexivity|]. split; [left; reflexivity|].
  exact (proj1 (proj2 (lost_inputs_deactivate_without_reset
           Scenarios.simple_builtins
           (Scenarios.env_at (Scenarios.minute 1001) 19.5 true)
           (Scenarios.active_engine (Some (Scenarios.minute 990)))
           None (Some 5) (Some 40) (Some 19.5) false
           (Some (Scenarios.minute 1020)) 1.15 eq_refl (or_introl eq_refl)))).
Defined.



End AnticipationMoreFacts.

(** * schedule_parser.py: what the resolver returns and when it raises *)

Module ScheduleParserMoreFacts.

Import HA.
Import ScheduleParser.
Import PyFacts.
Import PyMoreFacts.

Section Parser.

Context `{Builtins}.

Lemma lower_all_raises (days : list pyval) (e : Py.exn) :
  lower_all days = Py.Raise e -> e = Py.AttributeError.
Proof.
  induction days as [|d days IH]; simpl; [intros E; discriminate E|].
  destruct d; try (intros E; injection E as <-; reflexivity).
  destruct (lower_all days) as [l|e']; simpl; [intros E; discriminate E|].
  intros E. injection E as <-. apply IH. reflexivity.
Qed.

Lemma lower_all_strings (days : list pyval) :
  Forall (fun x => exists s, x = PStr s) days ->
  exists names, lower_all days = Py.Return names.
Proof.
  induction 1 as [|d days [s ->] _ [names IH]]; simpl.
  - eexists; reflexivity.
  - rewrite IH. simpl. eexists; reflexivity.
Qed.

(** The only exception [_parse_single_event] lets through is the
    [AttributeError] of an entry that is not as expected. *)
Ltac split_matches :=
  repeat match goal with
         | |- context [match ?x with _ => _ end] => destruct x
         end.

Lemma single_event_raises (event : pyval) (date : Z) (weekday : string)
    (e : Py.exn) :
  _parse_single_event event date weekday = Py.Raise e -> e = Py.AttributeError.
Proof.
  unfold _parse_single_event.
  destruct event as [| | | | |d]; try (intros E; injection E as <-; reflexivity).
  cbv zeta.
  match goal with |- Py.bind ?a _ = _ -> _ => set (applies := a) end.
  assert (A : forall x, applies = Py.Raise x -> x = Py.AttributeError).
  { unfold applies.
    destruct (d !! "days"%string) as [[| | | |[|x xs]|]|];
      try (intros y E; discriminate E).
    intros y. destruct (lower_all (x :: xs)) as [names|e'] eqn:L;
      cbn [Py.bind]; intros E; [discriminate E|].
    injection E as <-. apply (lower_all_raises _ _ L). }
  clearbody applies. destruct applies as [ok|x]; cbn [Py.bind].
  - destruct (negb ok); [intros E; discriminate E|].
    split_matches; cbn [Py.bind]; split_matches; intros E; discriminate E.
  - intros E. injection E as <-. apply A. reflexivity.
Qed.

Lemma single_event_not_dict (event : pyval) (date : Z) (weekday : string) :
  (forall d, event <> PDict d) ->
  _parse_single_event event date weekday = Py.Raise Py.AttributeError.
Proof.
  intros N. destruct event; try reflexivity. exfalso. apply (N d). reflexivity.
Qed.

Lemma single_event_well_formed (event : pyval) (date : Z) (weekday : string) :
  Invariants.well_formed_event event ->
  exists r, _parse_single_event event date weekday = Py.Return r.
Proof.
  unfold Invariants.well_formed_event, _parse_single_event.
  destruct event as [| | | | |d]; try contradiction.
  cbv zeta. intros W.
  assert (Applies :
    exists ok,
      match d !! "days"%string with
      | Some (PList (d0 :: ds)) =>
          Py.bind (lower_all (d0 :: ds))
            (fun names => Py.Return (existsb (String.eqb weekday) names))
      | _ => Py.Return true
      end = Py.Return ok).
  { destruct (d !! "days"%string) as [[| | | |[|x xs]|]|];
      try (eexists; reflexivity).
    destruct (lower_all_strings (x :: xs) W) as [names L].
    rewrite L. eexists; reflexivity. }
  destruct Applies as [ok ->]. cbn [Py.bind].
  destruct (negb ok); [eexists; reflexivity|].
  split_matches; cbn [Py.bind]; split_matches; eexists; reflexivity.
Qed.

Lemma parse_all_raises (events : list pyval) (date : Z) (weekday : string)
    (e : Py.exn) :
  parse_all events date weekday = Py.Raise e -> e = Py.AttributeError.
Proof.
  induction events as [|ev events IH]; simpl; [intros E; discriminate E|].
  destruct (_parse_single_event ev date weekday) as [r|e'] eqn:S; simpl.
  - destruct (parse_all events date weekday) as [rs|e'']; simpl;
      [intros E; discriminate E|].
    intros E. injection E as <-. apply IH. reflexivity.
  - intros E. injection E as <-. apply (single_event_raises _ _ _ _ S).
Qed.

Lemma parse_all_bad_entry (events : list pyval) (date : Z) (weekday : string)
    (bad : pyval) :
  In bad events ->
  (forall d, bad <> PDict d) ->
  parse_all events date weekday = Py.Raise Py.AttributeError.
Proof.
  intros I N. induction events as [|ev events IH]; [contradiction|]. simpl.
  destruct (_parse_single_event ev date weekday) as [r|e'] eqn:S; simpl.
  - destruct I as [-> | I].
    + rewrite (single_event_not_dict bad date weekday N) in S. discriminate.
    + rewrite (IH I). reflexivity.
  - rewrite (single_event_raises _ _ _ _ S). reflexivity.
Qed.

Lemma parse_all_well_formed (events : list pyval) (date : Z) (weekday : string) :
  Forall Invariants.well_formed_event events ->
  exists parsed,
    parse_all events date weekday = Py.Return parsed
    /\ (length parsed <= length events)%nat.
Proof.
  induction 1 as [|ev events W _ [parsed [IH Len]]]; simpl.
  - exists []. split; [reflexivity | simpl; lia].
  - destruct (single_event_well_formed ev date weekday W) as [r S].
    rewrite S, IH. simpl.
    destruct r; eexists; (split; [reflexivity | simpl; lia]).
Qed.

Lemma next_tomorrow_well_formed (events : list pyval) (date : Z)
    (weekday : string) (current : Q) :
  Forall Invariants.well_formed_event events ->
  exists r, next_tomorrow events date weekday current = Py.Return r.
Proof.
  induction 1 as [|ev events W _ [r IH]]; simpl.
  - eexists; reflexivity.
  - destruct (single_event_well_formed ev date weekday W) as [p S].
    rewrite S. simpl.
    destruct p as [e|]; [|eexists; exact IH].
    destruct (float_of_str (ev_state e)); [|eexists; exact IH].
    destruct (Py.Qlt_bool (current + 0.3) q); eexists; [reflexivity | exact IH].
Qed.

Ltac split_hyp E :=
  repeat match type of E with
         | context [Py.bind ?a _] =>
             destruct a eqn:?; cbn [Py.bind] in E; try discriminate E
         | context [match ?x with _ => _ end] =>
             destruct x eqn:?; try discriminate E
         end.

Lemma parse_time_range (v : pyval) (t : Z) :
  Invariants.times_of_day ->
  _parse_time v = Py.Return t -> (0 <= t < Py.one_day)%Z.
Proof.
  intros T E. unfold _parse_time in E. cbv zeta in E.
  destruct (strptime_time _ "%H:%M:%S") as [a|] eqn:A.
  { injection E as <-. apply (T _ _ _ A). }
  destruct (strptime_time _ "%H:%M") as [b|] eqn:Bq.
  { injection E as <-. apply (T _ _ _ Bq). }
  destruct (strptime_time _ "%I:%M %p") as [c|] eqn:C; [|discriminate E].
  injection E as <-. apply (T _ _ _ C).
Qed.

Lemma single_event_window (event : pyval) (date : Z) (weekday : string)
    (p : ParsedEvent) :
  Invariants.times_of_day ->
  _parse_single_event event date weekday = Py.Return (Some p) ->
  (date * Py.one_day <= start_dt p < (date + 1) * Py.one_day)%Z
  /\ (start_dt p < end_dt p <= start_dt p + Py.one_day)%Z.
Proof.
  intros T E. unfold _parse_single_event in E.
  destruct event as [| | | | |d]; try discriminate E.
  cbv zeta in E.
  match type of E with Py.bind ?a _ = _ => destruct a as [ok|] end;
    cbn [Py.bind] in E; [|discriminate E].
  destruct (negb ok); [discriminate E|].
  destruct (or_else (or_else (d !! "start"%string) (d !! "from"%string))
              (d !! "time_start"%string)) as [sv|]; [|discriminate E].
  destruct (or_else (or_else (d !! "state"%string) (d !! "value"%string))
              (d !! "temperature"%string)) as [stv|]; [|discriminate E].
  destruct (negb (truthy sv) || negb (truthy stv)); [discriminate E|].
  destruct (_parse_time sv) as [st|] eqn:Ps; [|discriminate E].
  pose proof (parse_time_range sv st T Ps) as Rs.
  unfold combine, Py.one_day in *.
  destruct (or_else (or_else (d !! "end"%string) (d !! "to"%string))
              (d !! "time_end"%string)) as [ev|].
  - destruct (truthy ev).
    + destruct (_parse_time ev) as [et|] eqn:Pe; cbn [Py.bind] in E;
        [|discriminate E].
      pose proof (parse_time_range ev et T Pe) as Re. unfold Py.one_day in Re.
      injection E as <-. simpl.
      destruct (Z.leb_spec (date * 86400000000 + et) (date * 86400000000 + st));
        lia.
    + injection E as <-. simpl. lia.
  - injection E as <-. simpl. lia.
Qed.

Lemma parse_schedule_state_some (st : State) (current : Q) (now : Py.datetime)
    (t : NextTransition) :
  _parse_schedule_state st current now = Py.Return (Some t) ->
  source t = "schedule_state"%string
  /\ (exists time, target_time t = Some time)
  /\ current_temp_schedule t = current.
Proof.
  intros E. unfold _parse_schedule_state in E. cbv zeta in E.
  split_hyp E.
  all: injection E as <-; simpl; repeat split; eexists; reflexivity.
Qed.

Lemma parse_vtherm_attrs_shape (st : State) (current : Q) (t : NextTransition) :
  _parse_vtherm_attrs st current = Some t ->
  source t = "vtherm_preset"%string
  /\ target_time t = None
  /\ current_temp_schedule t = current
  /\ current < target_temp t.
Proof.
  intros E. apply ScheduleParserFacts.parse_vtherm_attrs_some in E.
  destruct E as [comfort [eco [_ [[L1 L2] ->]]]]. simpl.
  repeat split. lra.
Qed.

Lemma length_insert_by_start (e : ParsedEvent) (l : list ParsedEvent) :
  length (insert_by_start e l) = S (length l).
Proof.
  induction l as [|x l IH]; simpl; [reflexivity|].
  destruct (start_dt e <=? start_dt x)%Z; simpl; [reflexivity | rewrite IH; reflexivity].
Qed.

Lemma length_sort_by_start (l : list ParsedEvent) :
  length (sort_by_start l) = length l.
Proof.
  induction l as [|x l IH]; simpl; [reflexivity|].
  rewrite length_insert_by_start, IH. reflexivity.
Qed.

End Parser.

(** X21: with [strptime] giving times of day, every event read for a date
    starts on that date and ends after its start, at most one day later:
    an end at or before the start is taken on the next day, and an event
    without end lasts 23 hours 59 minutes. *)
Theorem parsed_event_window :
  forall (B : Builtins) (event : pyval) (date : Z) (weekday : string)
         (p : ParsedEvent),
    Invariants.times_of_day ->
    _parse_single_event event date weekday = Py.Return (Some p) ->
    (date * Py.one_day <= start_dt p < (date + 1) * Py.one_day)%Z
    /\ (start_dt p < end_dt p <= start_dt p + Py.one_day)%Z.
Proof. intros B. apply single_event_window. Qed.

Lemma simple_builtins_times_of_day :
  @Invariants.times_of_day Scenarios.simple_builtins.
Proof.
  intros s fmt t. simpl.
  destruct (String.eqb fmt "%H:%M"); [|discriminate].
  destruct (String.eqb s "08:00"); [intros E; injection E as <-; unfold Py.one_day; lia|].
  destruct (String.eqb s "17:00"); [intros E; injection E as <-; unfold Py.one_day; lia|].
  destruct (String.eqb s "21:00"); [intros E; injection E as <-; unfold Py.one_day; lia|].
  discriminate.
Qed.

(** A run of X21's theorem: the overnight event 21:00 to 08:00. *)
Lemma parsed_event_window_witness :
  @Invariants.times_of_day Scenarios.simple_builtins
  /\ @_parse_single_event Scenarios.simple_builtins
       (Scenarios.event "21:00" "08:00" "16") 20000%Z "friday"
     = Py.Return (Some {| start_dt := 1728075600000000%Z;
                          end_dt := 1728115200000000%Z;
                          ev_state := "16" |})
  /\ (1728075600000000 < 1728115200000000 <= 1728075600000000 + Py.one_day)%Z.
Proof.
  assert (E : @_parse_single_event Scenarios.simple_builtins
                (Scenarios.event "21:00" "08:00" "16") 20000%Z "friday"
              = Py.Return (Some {| start_dt := 1728075600000000%Z;
                                   end_dt := 1728115200000000%Z;
                                   ev_state := "16" |}))
    by (vm_compute; reflexivity).
  split; [exact simple_builtins_times_of_day|]. split; [exact E|].
  exact (proj2 (parsed_event_window Scenarios.simple_builtins _ _ _ _
                  simple_builtins_times_of_day E)).
Defined.

(** X22: an entry of the event list that is not a dictionary is not
    skipped: [_parse_schedule_state] raises [AttributeError], and so does
    [get_next_heating_transition] for an entity with a numeric
    set-point. *)
Theorem malformed_entry_raises :
  forall (B : Builtins) (self : ScheduleParser) (hass : Hass) (now : Py.datetime)
         (entity : string) (st : State) (current : Q)
         (events : list pyval) (bad : pyval),
    schedule_entity self = Some entity ->
    entity <> ""%string ->
    hass !! entity = Some st ->
    state st <> STATE_UNAVAILABLE ->
    state st <> STATE_UNKNOWN ->
    float_of_str (state st) = Some current ->
    attributes st !! "events"%string = Some (PList events) ->
    In bad events ->
    (forall d, bad <> PDict d) ->
    _parse_schedule_state st current now = Py.Raise Py.AttributeError
    /\ get_next_heating_transition self hass now = Py.Raise Py.AttributeError.
Proof.
  intros B self hass now entity st cur events bad He Hne Hs Hu Hk Hf Ev I N.
  assert (P : _parse_schedule_state st cur now = Py.Raise Py.AttributeError).
  { unfold _parse_schedule_state. cbv zeta. rewrite Ev.
    destruct events as [|e0 es]; [contradiction|].
    simpl truthy_opt. simpl is_list. cbn [negb orb]. simpl truthy. cbn [negb].
    cbn [iterate Py.bind].
    rewrite (parse_all_bad_entry (e0 :: es) _ _ bad I N). reflexivity. }
  split; [exact P|].
  unfold get_next_heating_transition.
  rewrite He. apply String.eqb_neq in Hne. rewrite Hne, Hs.
  apply String.eqb_neq in Hu. apply String.eqb_neq in Hk. rewrite Hu, Hk. simpl.
  rewrite Hf, P. reflexivity.
Qed.

(** A run of X22's theorem: a number among the events. *)
Lemma malformed_entry_raises_witness :
  In (PNum 17) [Scenarios.event "08:00" "17:00" "16"; PNum 17]
  /\ @get_next_heating_transition Scenarios.simple_builtins
       Scenarios.planning_parser
       (<["sensor.planning"%string := MoreScenarios.broken_entity]> ∅)
       (Scenarios.minute 1010)
     = Py.Raise Py.AttributeError.
Proof.
  assert (I : In (PNum 17) [Scenarios.event "08:00" "17:00" "16"; PNum 17])
    by (right; left; reflexivity).
  split; [exact I|].
  apply (malformed_entry_raises Scenarios.simple_builtins
           Scenarios.planning_parser
           (<["sensor.planning"%string := MoreScenarios.broken_entity]> ∅)
           (Scenarios.minute 1010) "sensor.planning" MoreScenarios.broken_entity
           16 [Scenarios.event "08:00" "17:00" "16"; PNum 17] (PNum 17)
           eq_refl ltac:(discriminate) eq_refl ltac:(discriminate)
           ltac:(discriminate) eq_refl eq_refl I ltac:(discriminate)).
Defined.

(** X23: when the event list is a non-empty list of dictionaries whose
    [days] hold strings only, nothing raises, whatever the times and values
    are: an unreadable time only drops its event, and an entity with a
    numeric set-point always gets a transition. *)
Theorem well_formed_schedule_never_raises :
  forall (B : Builtins) (self : ScheduleParser) (hass : Hass) (now : Py.datetime)
         (entity : string) (st : State) (current : Q) (events : list pyval),
    schedule_entity self = Some entity ->
    entity <> ""%string ->
    hass !! entity = Some st ->
    state st <> STATE_UNAVAILABLE ->
    state st <> STATE_UNKNOWN ->
    float_of_str (state st) = Some current ->
    attributes st !! "events"%string = Some (PList events) ->
    events <> [] ->
    Forall Invariants.well_formed_event events ->
    (exists r, _parse_schedule_state st current now = Py.Return r)
    /\ (exists t, get_next_heating_transition self hass now = Py.Return (Some t)).
Proof.
  intros B self hass now entity st cur events He Hne Hs Hu Hk Hf Ev NE W.
  assert (P : exists r, _parse_schedule_state st cur now = Py.Return r).
  { unfold _parse_schedule_state. cbv zeta. rewrite Ev.
    destruct events as [|e0 es]; [congruence|]. simpl truthy_opt. simpl is_list.
    cbn [negb orb]. simpl truthy. cbn [negb]. cbn [iterate Py.bind].
    destruct (parse_all_well_formed (e0 :: es) (date_of now)
                (weekday_of (date_of now)) W) as [parsed [Pa _]].
    rewrite Pa. cbn [Py.bind].
    destruct parsed as [|p ps]; [eexists; reflexivity|].
    destruct (next_today now (sort_by_start (p :: ps))) as [e|].
    - cbn [Py.bind]. destruct (float_of_str (ev_state e)); eexists; reflexivity.
    - destruct (next_tomorrow_well_formed (e0 :: es) (date_of now + 1)
                  (weekday_of (date_of now + 1)) cur W) as [r Nt].
      rewrite Nt. cbn [Py.bind].
      destruct r as [e|]; [|eexists; reflexivity].
      destruct (float_of_str (ev_state e)); eexists; reflexivity. }
  split; [exact P|]. destruct P as [r P].
  unfold get_next_heating_transition.
  rewrite He. apply String.eqb_neq in Hne. rewrite Hne, Hs.
  apply String.eqb_neq in Hu. apply String.eqb_neq in Hk. rewrite Hu, Hk. simpl.
  rewrite Hf, P. simpl.
  destruct r as [t|]; [eexists; reflexivity|].
  destruct (_parse_vtherm_attrs st cur); eexists; reflexivity.
Qed.

(** A run of X23's theorem on the two events of the scenario. *)
Lemma well_formed_schedule_never_raises_witness :
  Forall Invariants.well_formed_event
    [Scenarios.event "08:00" "17:00" "16"; Scenarios.event "17:00" "21:00" "19.5"]
  /\ exists t,
       @get_next_heating_transition Scenarios.simple_builtins
         Scenarios.planning_parser
         (<["sensor.planning"%string := Scenarios.event_entity]> ∅)
         (Scenarios.minute 1010)
       = Py.Return (Some t).
Proof.
  assert (W : Forall Invariants.well_formed_event
                [Scenarios.event "08:00" "17:00" "16";
                 Scenarios.event "17:00" "21:00" "19.5"]).
  { repeat constructor. }
  split; [exact W|].
  exact (proj2 (well_formed_schedule_never_raises Scenarios.simple_builtins
           Scenarios.planning_parser
           (<["sensor.planning"%string := Scenarios.event_entity]> ∅)
           (Scenarios.minute 1010) "sensor.planning" Scenarios.event_entity 16
           [Scenarios.event "08:00" "17:00" "16";
            Scenarios.event "17:00" "21:00" "19.5"]
           eq_refl ltac:(discriminate) eq_refl ltac:(discriminate)
           ltac:(discriminate) eq_refl eq_refl ltac:(discriminate) W)).
Defined.

End ScheduleParserMoreFacts.

(** * The resolver seen from its callers, and coordinator.py *)

Module CoordinatorFacts.

Import HA.
Import PyFacts.
Import PyMoreFacts.

Section Readers.

Context `{Builtins}.

(** [get_next_heating_transition] in terms of the set-point the coordinator
    reads for the same entity. *)
Lemma get_next_by_reading (self : ScheduleParser.ScheduleParser)
    (coord : Coordinator.Coordinator) (hass : Hass) (now : Py.datetime) :
  ScheduleParser.schedule_entity self = Coordinator.schedule_entity coord ->
  (Coordinator._get_schedule_consigne coord hass = None
   /\ ScheduleParser.get_next_heating_transition self hass now = Py.Return None)
  \/ (exists entity st current,
        ScheduleParser.schedule_entity self = Some entity
        /\ hass !! entity = Some st
        /\ float_of_str (state st) = Some current
        /\ Coordinator._get_schedule_consigne coord hass = Some current
        /\ ScheduleParser.get_next_heating_transition self hass now
           = Py.bind (ScheduleParser._parse_schedule_state st current now)
               (fun transition =>
                  Py.Return
                    (Some match transition with
                          | Some t => t
                          | None =>
                              match ScheduleParser._parse_vtherm_attrs st current with
                              | Some t => t
                              | None => Spec.current_only current
                              end
                          end))).
Proof.
  intros Same.
  unfold Coordinator._get_schedule_consigne, Coordinator._get_float_state,
    ScheduleParser.get_next_heating_transition.
  rewrite <- Same.
  destruct (ScheduleParser.schedule_entity self) as [entity|]; [|left; split; reflexivity].
  destruct (String.eqb entity ""); [left; split; reflexivity|].
  destruct (hass !! entity) as [st|] eqn:Hs; [|left; split; reflexivity].
  destruct (String.eqb (state st) STATE_UNAVAILABLE
            || String.eqb (state st) STATE_UNKNOWN);
    [left; split; reflexivity|].
  destruct (float_of_str (state st)) as [current|] eqn:F;
    [|left; split; reflexivity].
  right. exists entity, st, current. repeat split; try assumption.
  destruct (ScheduleParser._parse_schedule_state st current now) as [[t|]|e];
    simpl; try reflexivity.
  destruct (ScheduleParser._parse_vtherm_attrs st current); reflexivity.
Qed.

End Readers.

(** X24: a transition returned by [get_next_heating_transition] always
    carries the entity's numeric state as its current value, and has one of
    three shapes: from the event list with a known time; to the comfort
    preset with no time and a target above the current value; or the
    fallback with no time and the current value as target, which is never
    a heating-up transition. *)
Theorem returned_transition_shape :
  forall (B : Builtins) (self : ScheduleParser.ScheduleParser) (hass : Hass)
         (now : Py.datetime) (t : ScheduleParser.NextTransition),
    ScheduleParser.get_next_heating_transition self hass now = Py.Return (Some t) ->
    (exists entity st,
        ScheduleParser.schedule_entity self = Some entity
        /\ hass !! entity = Some st
        /\ float_of_str (state st) = Some (ScheduleParser.current_temp_schedule t))
    /\ ((ScheduleParser.source t = "schedule_state"%string
         /\ exists time, ScheduleParser.target_time t = Some time)
        \/ (ScheduleParser.source t = "vtherm_preset"%string
            /\ ScheduleParser.target_time t = None
            /\ ScheduleParser.current_temp_schedule t < ScheduleParser.target_temp t)
        \/ (ScheduleParser.source t = "current_only"%string
            /\ ScheduleParser.target_time t = None
            /\ ScheduleParser.target_temp t = ScheduleParser.current_temp_schedule t
            /\ ScheduleParser.is_heating_up t = false)).
Proof.
  intros B self hass now t E.
  destruct (get_next_by_reading self
              {| Coordinator.schedule_entity := ScheduleParser.schedule_entity self;
                 Coordinator.safety_margin := 0;
                 Coordinator.warmup_ignore_min := 0;
                 Coordinator.anti_short_cycle := false;
                 Coordinator.min_off_time_sec := 0;
                 Coordinator.min_sessions := 0;
                 Coordinator.thermal_model := ThermalModel.init 0;
                 Coordinator.feedback := Feedback.init "";
                 Coordinator._current_session := None;
                 Coordinator._last_off_time := None;
                 Coordinator._anticipation_active := false;
                 Coordinator._llm_margin_adjustment := 0 |}
              hass now eq_refl)
    as [[_ N] | [entity [st [current [He [Hs [Hf [_ G]]]]]]]].
  { rewrite N in E. discriminate E. }
  rewrite G in E.
  destruct (ScheduleParser._parse_schedule_state st current now) as [[t'|]|e] eqn:P;
    simpl in E; try discriminate E; injection E as <-.
  - destruct (ScheduleParserMoreFacts.parse_schedule_state_some st current now t' P)
      as [S [T C]].
    split; [exists entity, st; rewrite C; auto|]. left. auto.
  - destruct (ScheduleParser._parse_vtherm_attrs st current) as [t'|] eqn:V.
    + destruct (ScheduleParserMoreFacts.parse_vtherm_attrs_shape st current t' V)
        as [S [T [C L]]].
      split; [exists entity, st; rewrite C; auto|].
      right; left. rewrite C. auto.
    + split; [exists entity, st; auto|].
      right; right. simpl. repeat split.
      unfold ScheduleParser.is_heating_up. simpl.
      apply Qlt_bool_false_iff. lra.
Qed.

(** A run of X24's theorem on the event list of the scenario. *)
Lemma returned_transition_shape_witness :
  @ScheduleParser.get_next_heating_transition Scenarios.simple_builtins
    Scenarios.planning_parser
    (<["sensor.planning"%string := Scenarios.event_entity]> ∅)
    (Scenarios.minute 1010)
  = Py.Return (Some {| ScheduleParser.target_time := Some (Scenarios.minute 1020);
                       ScheduleParser.target_temp := 19.5;
                       ScheduleParser.current_temp_schedule := 16;
                       ScheduleParser.source := "schedule_state" |})
  /\ exists entity st,
       ScheduleParser.schedule_entity Scenarios.planning_parser = Some entity
       /\ (<["sensor.planning"%string := Scenarios.event_entity]> ∅ : Hass) !! entity
          = Some st
       /\ @float_of_str Scenarios.simple_builtins (state st) = Some 16.
Proof.
  split; [exact ScheduleParserFacts.event_list_scenario|].
  exact (proj1 (returned_transition_shape Scenarios.simple_builtins _ _ _ _
                  ScheduleParserFacts.event_list_scenario)).
Defined.

(** X25: the three readers of the schedule set-point agree when they are
    given the same entity: the engine's [_get_current_consigne] is the
    coordinator's [_get_schedule_consigne]; the resolver returns [None]
    exactly when that reading is absent (entity not configured, missing,
    unavailable, unknown or not numeric), and the current value of any
    transition it returns is that reading. *)
Theorem schedule_readers_agree :
  forall (B : Builtins) (parser : ScheduleParser.ScheduleParser)
         (engine : Anticipation.AnticipationEngine)
         (coord : Coordinator.Coordinator) (env : Anticipation.Env)
         (now : Py.datetime),
    ScheduleParser.schedule_entity parser = Coordinator.schedule_entity coord ->
    Anticipation.schedule_entity engine = Coordinator.schedule_entity coord ->
    Anticipation._get_current_consigne env engine
    = Coordinator._get_schedule_consigne coord (Anticipation.hass env)
    /\ (ScheduleParser.get_next_heating_transition parser (Anticipation.hass env) now
        = Py.Return None
        <-> Coordinator._get_schedule_consigne coord (Anticipation.hass env) = None)
    /\ (forall t,
          ScheduleParser.get_next_heating_transition parser (Anticipation.hass env) now
          = Py.Return (Some t) ->
          Coordinator._get_schedule_consigne coord (Anticipation.hass env)
          = Some (ScheduleParser.current_temp_schedule t)).
Proof.
  intros B parser engine coord env now Sp Se.
  split.
  { unfold Anticipation._get_current_consigne, Coordinator._get_schedule_consigne,
      Coordinator._get_float_state.
    rewrite Se. reflexivity. }
  destruct (get_next_by_reading parser coord (Anticipation.hass env) now Sp)
    as [[R N] | [entity [st [current [He [Hs [Hf [R G]]]]]]]].
  - rewrite R, N. split; [tauto|]. intros t E. discriminate E.
  - rewrite R, G. split.
    + split; [|intros E; discriminate E].
      destruct (ScheduleParser._parse_schedule_state st current now) as [[t|]|e];
        simpl; intros E; discriminate E.
    + intros t E.
      destruct (ScheduleParser._parse_schedule_state st current now)
        as [[t'|]|e] eqn:P; simpl in E; try discriminate E; injection E as <-.
      * destruct (ScheduleParserMoreFacts.parse_schedule_state_some st current
                    now t' P) as [_ [_ C]].
        rewrite C. reflexivity.
      * destruct (ScheduleParser._parse_vtherm_attrs st current) as [t'|] eqn:V;
          [|reflexivity].
        destruct (ScheduleParserMoreFacts.parse_vtherm_attrs_shape st current t' V)
          as [_ [_ [C _]]].
        rewrite C. reflexivity.
Qed.

(** A run of X25's theorem: the zone of the scenarios, schedule at 16. *)
Lemma schedule_readers_agree_witness :
  ScheduleParser.schedule_entity Scenarios.planning_parser
  = Coordinator.schedule_entity
      (MoreScenarios.coordinator (ThermalModel.init 0) None 3)
  /\ Anticipation.schedule_entity Scenarios.idle_engine
     = Coordinator.schedule_entity
         (MoreScenarios.coordinator (ThermalModel.init 0) None 3)
  /\ @Anticipation._get_current_consigne Scenarios.simple_builtins
       (Scenarios.env_at (Scenarios.minute 1010) 16 true) Scenarios.idle_engine
     = @Coordinator._get_schedule_consigne Scenarios.simple_builtins
         (MoreScenarios.coordinator (ThermalModel.init 0) None 3)
         (Anticipation.hass (Scenarios.env_at (Scenarios.minute 1010) 16 true)).
Proof.
  split; [reflexivity|]. split; [reflexivity|].
  exact (proj1 (schedule_readers_agree Scenarios.simple_builtins
           Scenarios.planning_parser Scenarios.idle_engine
           (MoreScenarios.coordinator (ThermalModel.init 0) None 3)
           (Scenarios.env_at (Scenarios.minute 1010) 16 true)
           (Scenarios.minute 1010) eq_refl eq_refl)).
Defined.




(** X28: the end of a heating period arms the anti-short-cycle gate even
    when the period is too short to be recorded: with an indoor temperature
    the time of the stop is kept, and the gate is then set exactly while it
    is enabled and fewer than [min_off_time_sec] seconds have passed;
    without an indoor temperature the stop is not registered. *)
Theorem end_of_heating_arms_the_gate :
  forall (format_date : Py.datetime -> string) (self : Coordinator.Coordinator)
         (session : Coordinator.CurrentSession)
         (temp_indoor temp_outdoor : option Q) (clock : nat -> Py.datetime)
         (now : Py.datetime),
    Coordinator._current_session self = Some session ->
    let after :=
      fst (Coordinator._end_session format_date self temp_indoor temp_outdoor clock) in
    (temp_indoor <> None ->
     Coordinator._last_off_time after = Some (clock 0%nat)
     /\ (Coordinator._is_anti_cycle_active after now = true
         <-> Coordinator.anti_short_cycle self = true
             /\ Py.total_seconds (now - clock 0%nat)%Z
                < inject_Z (Coordinator.min_off_time_sec self)))
    /\ (temp_indoor = None ->
        Coordinator._last_off_time after = Coordinator._last_off_time self).
Proof.
  intros fmt self session ti to clock now Cs after.
  unfold after, Coordinator._end_session. rewrite Cs.
  destruct ti as [ti|]; [|split; [congruence | reflexivity]].
  split; [|intros E; discriminate E]. intros _. cbv zeta.
  assert (G : forall c : Coordinator.Coordinator,
    Coordinator._last_off_time c = Some (clock 0%nat) ->
    Coordinator.anti_short_cycle c = Coordinator.anti_short_cycle self ->
    Coordinator.min_off_time_sec c = Coordinator.min_off_time_sec self ->
    Coordinator._last_off_time c = Some (clock 0%nat)
    /\ (Coordinator._is_anti_cycle_active c now = true
        <-> Coordinator.anti_short_cycle self = true
            /\ Py.total_seconds (now - clock 0%nat)%Z
               < inject_Z (Coordinator.min_off_time_sec self))).
  { intros c L A M. split; [exact L|].
    unfold Coordinator._is_anti_cycle_active. rewrite L, A, M.
    destruct (Coordinator.anti_short_cycle self); simpl.
    - rewrite Qlt_bool_iff. tauto.
    - split; [discriminate | intros [E _]; discriminate E]. }
  destruct (_ || _); [apply G; reflexivity|].
  destruct (Qle_bool _ 0); apply G; reflexivity.
Qed.

(** A run of X28's theorem: heating stops at 16:02, two minutes after it
    began; the gate is set at 16:10. *)
Lemma end_of_heating_arms_the_gate_witness :
  Coordinator._current_session
    (MoreScenarios.coordinator (ThermalModel.init 0)
       (Some MoreScenarios.running_session) 3)
  = Some MoreScenarios.running_session
  /\ Some 17.1 <> None
  /\ Coordinator._last_off_time
       (fst (Coordinator._end_session MoreScenarios.format_date
               (MoreScenarios.coordinator (ThermalModel.init 0)
                  (Some MoreScenarios.running_session) 3)
               (Some 17.1) (Some 4)
               (MoreScenarios.at_instant (Scenarios.minute 962))))
     = Some (Scenarios.minute 962).
Proof.
  split; [reflexivity|].
  assert (N : Some 17.1 <> None) by discriminate.
  split; [exact N|].
  exact (proj1 (proj1 (end_of_heating_arms_the_gate MoreScenarios.format_date
           (MoreScenarios.coordinator (ThermalModel.init 0)
              (Some MoreScenarios.running_session) 3)
           MoreScenarios.running_session (Some 17.1) (Some 4)
           (MoreScenarios.at_instant (Scenarios.minute 962))
           (Scenarios.minute 970) eq_refl) N)).
Defined.

Section Calculation.

Context `{Builtins}.


End Calculation.



(** X30: while the history holds fewer than [min_sessions] sessions the
    zone is "learning": [_calculate_anticipation] gives nothing, and an
    Idle engine evaluated with what it gives stays Idle and sends nothing;
    [reset_sessions] puts a zone with a positive [min_sessions] back into
    that state. *)
Theorem learning_zone_never_anticipates :
  forall (B : Builtins) (self : Coordinator.Coordinator) (hass : Hass)
         (temp_indoor temp_outdoor : option Q)
         (next_transition : option ScheduleParser.NextTransition)
         (now : Py.datetime),
    let c :=
      Coordinator._calculate_anticipation self hass temp_indoor temp_outdoor
        next_transition now in
    ((Coordinator.num_sessions (Coordinator.thermal_model self)
      < Coordinator.min_sessions self)%Z ->
     c = Coordinator.no_calc
     /\ Coordinator._compute_state self = Coordinator.STATE_LEARNING
     /\ forall (env : Anticipation.Env) (engine : Anticipation.AnticipationEngine)
               (gate : bool) (target_time : option Py.datetime) (margin : Q),
          Anticipation.active (Anticipation.state engine) = false ->
          Anticipation.async_evaluate env engine temp_indoor temp_outdoor
            (Coordinator.minutes_needed c) (Coordinator.next_consigne c)
            gate target_time margin
          = (engine, []))
    /\ ((0 < Coordinator.min_sessions self)%Z ->
        (Coordinator.num_sessions
           (Coordinator.thermal_model (Coordinator.reset_sessions self))
         < Coordinator.min_sessions (Coordinator.reset_sessions self))%Z
        /\ ThermalModel._inertia
             (Coordinator.thermal_model (Coordinator.reset_sessions self)) = None).
Proof.
  intros B self hass ti to nt now c. split.
  - intros Few.
    assert (E : c = Coordinator.no_calc).
    { unfold c, Coordinator._calculate_anticipation.
      destruct ti; [|reflexivity]. destruct to; [|reflexivity].
      apply Z.ltb_lt in Few. rewrite Few. reflexivity. }
    split; [exact E|]. split.
    + unfold Coordinator._compute_state. apply Z.ltb_lt in Few. rewrite Few.
      reflexivity.
    + intros env engine gate tt m Idle. rewrite E. simpl.
      unfold Anticipation.async_evaluate. rewrite Idle.
      destruct ti; reflexivity.
  - intros P. split; [simpl; exact P | reflexivity].
Qed.

(** A run of X30's theorem: an empty history and three sessions asked
    for. *)
Lemma learning_zone_never_anticipates_witness :
  (Coordinator.num_sessions
     (Coordinator.thermal_model
        (MoreScenarios.coordinator (ThermalModel.init 0) None 3))
   < Coordinator.min_sessions
       (MoreScenarios.coordinator (ThermalModel.init 0) None 3))%Z
  /\ @Coordinator._calculate_anticipation Scenarios.simple_builtins
       (MoreScenarios.coordinator (ThermalModel.init 0) None 3)
       (Scenarios.home "19.5" 16) (Some 17) (Some 5) None (Scenarios.minute 1010)
     = Coordinator.no_calc.
Proof.
  assert (Few : (Coordinator.num_sessions
     (Coordinator.thermal_model
        (MoreScenarios.coordinator (ThermalModel.init 0) None 3))
   < Coordinator.min_sessions
       (MoreScenarios.coordinator (ThermalModel.init 0) None 3))%Z)
    by reflexivity.
  split; [exact Few|].
  exact (proj1 (proj1 (learning_zone_never_anticipates Scenarios.simple_builtins
           (MoreScenarios.coordinator (ThermalModel.init 0) None 3)
           (Scenarios.home "19.5" 16) (Some 17) (Some 5) None
           (Scenarios.minute 1010)) Few)).
Defined.

End CoordinatorFacts.

(** * Binary64: rounding keeps order and sign and is idempotent *)

Module Binary64Facts.

Import Binary64.
Import PyFacts.
Import PyMoreFacts.

Lemma pow2_pos (e : Z) : 0 < 2 ^ e.
Proof. apply Qpower_0_lt. reflexivity. Qed.

Lemma pow2_succ (e : Z) : 2 ^ (e + 1) == 2 * 2 ^ e.
Proof. rewrite Qpower_plus by discriminate. simpl (2 ^ 1). ring. Qed.

Lemma pow2_pred (e : Z) : 2 ^ (e - 1) == 2 ^ e / 2.
Proof.
  unfold Z.sub. rewrite Qpower_plus by discriminate.
  change (2 ^ (-1)) with (/ 2). reflexivity.
Qed.

Lemma pow2_sub (a b : Z) : 2 ^ (a - b) == 2 ^ a / 2 ^ b.
Proof. apply Qpower_minus. discriminate. Qed.

Lemma pow2_add (a b : Z) : 2 ^ (a + b) == 2 ^ a * 2 ^ b.
Proof. apply Qpower_plus. discriminate. Qed.

Lemma pow2_le (a b : Z) : (a <= b)%Z -> 2 ^ a <= 2 ^ b.
Proof. intros L. apply Qpower_le_compat_l; [exact L | discriminate]. Qed.

Lemma pow2_lt (a b : Z) : (a < b)%Z -> 2 ^ a < 2 ^ b.
Proof. intros L. apply Qpower_lt_compat_l; [exact L | reflexivity]. Qed.

Lemma pow2_inject (a : Z) : (0 <= a)%Z -> inject_Z (2 ^ a) == 2 ^ a.
Proof. intros L. apply (Zpower_Qpower 2 a L). Qed.

Lemma log2_bounds (n : Z) :
  (0 < n)%Z -> 2 ^ Z.log2 n <= inject_Z n /\ inject_Z n < 2 * 2 ^ Z.log2 n.
Proof.
  intros P. destruct (Z.log2_spec n P) as [Lo Hi].
  pose proof (Z.log2_nonneg n) as NN.
  rewrite <- pow2_succ, <- !pow2_inject by lia.
  split; [rewrite <- Zle_Qle; exact Lo | rewrite <- Zlt_Qlt; exact Hi].
Qed.

Lemma Qabs_as_div (x : Q) :
  Qabs x == inject_Z (Z.abs (Qnum x)) / inject_Z (Zpos (Qden x)).
Proof. destruct x as [n d]. simpl. apply Qmake_Qdiv. Qed.

Lemma Qabs_num_pos (x : Q) : ~ x == 0 -> (0 < Z.abs (Qnum x))%Z.
Proof.
  intros NZ. destruct x as [n d]. simpl.
  assert (n <> 0)%Z; [|lia].
  intros ->. apply NZ. reflexivity.
Qed.

(** The binade of a non-zero number. *)
Lemma mag_bounds (x : Q) :
  ~ x == 0 -> 2 ^ (mag x - 1) <= Qabs x /\ Qabs x < 2 ^ mag x.
Proof.
  intros NZ. unfold mag. cbv zeta.
  pose proof (Qabs_num_pos x NZ) as PN.
  assert (PD : (0 < Zpos (Qden x))%Z) by reflexivity.
  destruct (log2_bounds _ PN) as [NLo NHi].
  destruct (log2_bounds _ PD) as [DLo DHi].
  pose proof (Qabs_as_div x) as A.
  set (a := Z.log2 (Z.abs (Qnum x))) in *.
  set (b := Z.log2 (Zpos (Qden x))) in *.
  set (N := inject_Z (Z.abs (Qnum x))) in *.
  set (D := inject_Z (Zpos (Qden x))) in *.
  pose proof (pow2_pos a) as PA. pose proof (pow2_pos b) as PB.
  pose proof (pow2_sub a b) as S.
  set (A2 := 2 ^ a) in *. set (B2 := 2 ^ b) in *.
  assert (D0 : 0 < D) by lra.
  assert (Hi : Qabs x < 2 * (A2 / B2)).
  { rewrite A. apply Qlt_shift_div_r; [exact D0|].
    assert (E : 2 * (A2 / B2) * D == 2 * A2 * (D / B2)) by (field; lra).
    rewrite E.
    assert (1 <= D / B2) by (apply Qle_shift_div_l; lra).
    nra. }
  assert (Lo : A2 / B2 / 2 < Qabs x).
  { rewrite A. apply Qlt_shift_div_l; [exact D0|].
    assert (E : A2 / B2 / 2 * D == A2 * (D / (2 * B2))) by (field; lra).
    rewrite E.
    assert (D / (2 * B2) < 1) by (apply Qlt_shift_div_r; lra).
    nra. }
  destruct (Qle_bool (2 ^ (a - b)) (Qabs x)) eqn:C.
  - apply Qle_bool_iff in C.
    replace (a - b + 1 - 1)%Z with (a - b)%Z by lia.
    split; [exact C|]. rewrite pow2_succ, S. exact Hi.
  - apply Qle_bool_false_iff in C.
    split; [|exact C]. rewrite pow2_pred, S. apply Qlt_le_weak, Lo.
Qed.

Lemma mag_unique (x : Q) (k : Z) :
  2 ^ (k - 1) <= Qabs x -> Qabs x < 2 ^ k -> mag x = k.
Proof.
  intros Lo Hi.
  assert (NZ : ~ x == 0).
  { intros E. rewrite E in Lo. change (Qabs 0) with 0 in Lo.
    pose proof (pow2_pos (k - 1)). lra. }
  destruct (mag_bounds x NZ) as [Lo' Hi'].
  destruct (Z.lt_trichotomy (mag x) k) as [L | [E | L]]; [|exact E|]; exfalso.
  - assert (2 ^ mag x <= 2 ^ (k - 1)) by (apply pow2_le; lia). lra.
  - assert (2 ^ k <= 2 ^ (mag x - 1)) by (apply pow2_le; lia). lra.
Qed.

Lemma mag_comp (x y : Q) : ~ x == 0 -> x == y -> mag x = mag y.
Proof.
  intros NZ E. symmetry. destruct (mag_bounds x NZ) as [Lo Hi].
  apply mag_unique; rewrite <- E; assumption.
Qed.

Lemma mag_opp (x : Q) : ~ x == 0 -> mag (- x) = mag x.
Proof.
  intros NZ. destruct (mag_bounds x NZ) as [Lo Hi].
  apply mag_unique; rewrite Qabs_opp; assumption.
Qed.

Lemma mag_mono (x y : Q) : 0 < x -> x <= y -> (mag x <= mag y)%Z.
Proof.
  intros P L.
  assert (NX : ~ x == 0) by lra. assert (NY : ~ y == 0) by lra.
  destruct (mag_bounds x NX) as [Lo _]. destruct (mag_bounds y NY) as [_ Hi].
  rewrite Qabs_pos in Lo by lra. rewrite Qabs_pos in Hi by lra.
  destruct (Z_le_gt_dec (mag x) (mag y)) as [K | K]; [exact K|exfalso].
  assert (2 ^ mag y <= 2 ^ (mag x - 1)) by (apply pow2_le; lia). lra.
Qed.

Lemma round_half_even_int (z : Z) : Py.round_half_even (inject_Z z) = z.
Proof.
  unfold Py.round_half_even. rewrite Qfloor_Z.
  assert (C : Qcompare (inject_Z z - inject_Z z) (1 # 2) = Lt).
  { apply (proj1 (Qlt_alt _ _)). lra. }
  rewrite C. reflexivity.
Qed.

Lemma Qfloor_unique (x : Q) (z : Z) :
  inject_Z z <= x -> x < inject_Z z + 1 -> Qfloor x = z.
Proof.
  intros Lo Hi.
  pose proof (Qfloor_le x) as F1. pose proof (Qlt_floor x) as F2.
  rewrite inject_Z_plus in F2. change (inject_Z 1) with 1 in F2.
  assert (A : inject_Z z < inject_Z (Qfloor x) + 1) by lra.
  assert (B : inject_Z (Qfloor x) < inject_Z z + 1) by lra.
  change 1 with (inject_Z 1) in A, B. rewrite <- inject_Z_plus in A, B.
  rewrite <- Zlt_Qlt in A, B. lia.
Qed.

Lemma inject_Z_opp_pred (f : Z) : inject_Z (- f - 1) == - inject_Z f - 1.
Proof.
  unfold Z.sub. rewrite inject_Z_plus, !inject_Z_opp.
  change (inject_Z 1) with 1. ring.
Qed.

(** Rounding to the nearest integer, ties to even, is symmetric. *)
Lemma round_half_even_opp (x : Q) :
  Py.round_half_even (- x) = (- Py.round_half_even x)%Z.
Proof.
  pose proof (Qfloor_le x) as F1. pose proof (Qlt_floor x) as F2.
  rewrite inject_Z_plus in F2. change (inject_Z 1) with 1 in F2.
  set (f := Qfloor x) in *.
  destruct (Qeq_dec x (inject_Z f)) as [I | NI].
  - rewrite (round_half_even_comp (- x) (inject_Z (- f)))
      by (rewrite inject_Z_opp, I; reflexivity).
    rewrite (round_half_even_comp x (inject_Z f) I).
    rewrite !round_half_even_int. reflexivity.
  - assert (FL : inject_Z f < x).
    { destruct (Qle_lt_or_eq _ _ F1) as [FL | FE]; [exact FL|].
      exfalso. apply NI. symmetry. exact FE. }
    assert (G : Qfloor (- x) = (- f - 1)%Z).
    { apply Qfloor_unique; rewrite inject_Z_opp_pred; lra. }
    unfold Py.round_half_even. fold f. rewrite G.
    assert (E : - x - inject_Z (- f - 1) == 1 - (x - inject_Z f)).
    { rewrite inject_Z_opp_pred. ring. }
    assert (C : Qcompare (- x - inject_Z (- f - 1)) (1 # 2)
                = Qcompare (1 - (x - inject_Z f)) (1 # 2))
      by (apply Qcompare_comp; [exact E | reflexivity]).
    rewrite C. clear C E.
    assert (Ev : Z.even (- f - 1) = negb (Z.even f)).
    { rewrite Z.even_sub, Z.even_opp. destruct (Z.even f); reflexivity. }
    rewrite Ev.
    destruct (Qcompare (x - inject_Z f) (1 # 2)) eqn:Cx;
      destruct (Qcompare (1 - (x - inject_Z f)) (1 # 2)) eqn:Cy;
      cmp_to_order; try (exfalso; lra);
      try (destruct (Z.even f); simpl); lia.
Qed.

Lemma fl_zero (x : Q) : x == 0 -> fl x = 0.
Proof. intros E. unfold fl. apply Qeq_bool_iff in E. rewrite E. reflexivity. Qed.

Lemma fl_nonzero (x : Q) :
  ~ x == 0 ->
  fl x == inject_Z (Py.round_half_even (x / 2 ^ (mag x - prec))) * 2 ^ (mag x - prec).
Proof.
  intros NZ. unfold fl.
  destruct (Qeq_bool x 0) eqn:E; [apply Qeq_bool_iff in E; contradiction|].
  cbv zeta. apply Qred_correct.
Qed.

(** [fl] does not depend on how the rational is written. *)
Lemma fl_comp (x y : Q) : x == y -> fl x = fl y.
Proof.
  intros E. unfold fl.
  destruct (Qeq_bool x 0) eqn:X; destruct (Qeq_bool y 0) eqn:Y.
  - reflexivity.
  - apply Qeq_bool_iff in X. apply Qeq_bool_neq in Y. exfalso. apply Y.
    apply (Qeq_trans _ x); [symmetry; exact E | exact X].
  - apply Qeq_bool_iff in Y. apply Qeq_bool_neq in X. exfalso. apply X.
    apply (Qeq_trans _ y); [exact E | exact Y].
  - apply Qeq_bool_neq in X. cbv zeta.
    rewrite <- (mag_comp x y X E).
    rewrite (round_half_even_comp (y / 2 ^ (mag x - prec)) (x / 2 ^ (mag x - prec)))
      by (apply Qdiv_comp; [symmetry; exact E | reflexivity]).
    reflexivity.
Qed.

#[export] Instance fl_proper : Proper (Qeq ==> Qeq) fl.
Proof. intros x y E. rewrite (fl_comp x y E). reflexivity. Qed.

Lemma fl_opp (x : Q) : fl (- x) == - fl x.
Proof.
  destruct (Qeq_dec x 0) as [Z0 | NZ].
  - rewrite (fl_zero x Z0), (fl_zero (- x)) by (rewrite Z0; reflexivity).
    reflexivity.
  - assert (NZ' : ~ - x == 0) by (intros E; apply NZ; lra).
    rewrite (fl_nonzero _ NZ), (fl_nonzero _ NZ'), (mag_opp x NZ).
    rewrite (round_half_even_comp (- x / 2 ^ (mag x - prec))
               (- (x / 2 ^ (mag x - prec)))).
    + rewrite round_half_even_opp, inject_Z_opp. ring.
    + pose proof (pow2_pos (mag x - prec)). field. lra.
Qed.

Lemma scaled_bounds (x : Q) :
  0 < x ->
  2 ^ (prec - 1) <= x / 2 ^ (mag x - prec) /\ x / 2 ^ (mag x - prec) < 2 ^ prec.
Proof.
  intros P. assert (NZ : ~ x == 0) by lra.
  destruct (mag_bounds x NZ) as [Lo Hi]. rewrite Qabs_pos in Lo, Hi by lra.
  pose proof (pow2_pos (mag x - prec)) as PE.
  assert (E1 : 2 ^ (mag x - 1) == 2 ^ (prec - 1) * 2 ^ (mag x - prec)).
  { rewrite <- pow2_add. f_equiv. lia. }
  assert (E2 : 2 ^ mag x == 2 ^ prec * 2 ^ (mag x - prec)).
  { rewrite <- pow2_add. f_equiv. lia. }
  split.
  - apply Qle_shift_div_l; [exact PE|]. rewrite <- E1. exact Lo.
  - apply Qlt_shift_div_r; [exact PE|]. rewrite <- E2. exact Hi.
Qed.

Lemma mant_bounds (x : Q) :
  0 < x ->
  (2 ^ (prec - 1) <= Py.round_half_even (x / 2 ^ (mag x - prec)) <= 2 ^ prec)%Z.
Proof.
  intros P. destruct (scaled_bounds x P) as [Lo Hi].
  rewrite <- (pow2_inject (prec - 1)) in Lo by (unfold prec; lia).
  rewrite <- (pow2_inject prec) in Hi by (unfold prec; lia).
  split.
  - rewrite <- (round_half_even_int (2 ^ (prec - 1))).
    apply round_half_even_mono, Lo.
  - rewrite <- (round_half_even_int (2 ^ prec)).
    apply round_half_even_mono, Qlt_le_weak, Hi.
Qed.

(** A positive number is rounded inside its binade. *)
Lemma fl_pos_bounds (x : Q) :
  0 < x -> 2 ^ (mag x - 1) <= fl x /\ fl x <= 2 ^ mag x.
Proof.
  intros P. assert (NZ : ~ x == 0) by lra.
  rewrite (fl_nonzero x NZ).
  destruct (mant_bounds x P) as [Lo Hi].
  pose proof (pow2_pos (mag x - prec)) as PE.
  rewrite Zle_Qle in Lo, Hi.
  rewrite (pow2_inject (prec - 1)) in Lo by (unfold prec; lia).
  rewrite (pow2_inject prec) in Hi by (unfold prec; lia).
  assert (E1 : 2 ^ (mag x - 1) == 2 ^ (prec - 1) * 2 ^ (mag x - prec)).
  { rewrite <- pow2_add. f_equiv. lia. }
  assert (E2 : 2 ^ mag x == 2 ^ prec * 2 ^ (mag x - prec)).
  { rewrite <- pow2_add. f_equiv. lia. }
  rewrite E1, E2.
  split; apply Qmult_le_compat_r; try assumption; apply Qlt_le_weak, PE.
Qed.

Lemma fl_pos (x : Q) : 0 < x -> 0 < fl x.
Proof.
  intros P. destruct (fl_pos_bounds x P) as [Lo _].
  pose proof (pow2_pos (mag x - 1)). lra.
Qed.

Lemma fl_mono_pos (x y : Q) : 0 < x -> x <= y -> fl x <= fl y.
Proof.
  intros P L. assert (Py' : 0 < y) by lra.
  pose proof (mag_mono x y P L) as M.
  destruct (Z.eq_dec (mag x) (mag y)) as [E | N].
  - rewrite (fl_nonzero x), (fl_nonzero y) by lra. rewrite E.
    pose proof (pow2_pos (mag y - prec)) as PE.
    apply Qmult_le_compat_r; [|apply Qlt_le_weak, PE].
    rewrite <- Zle_Qle. apply round_half_even_mono.
    unfold Qdiv. apply Qmult_le_compat_r; [exact L|].
    apply Qlt_le_weak, Qinv_lt_0_compat, PE.
  - destruct (fl_pos_bounds x P) as [_ Hi].
    destruct (fl_pos_bounds y Py') as [Lo _].
    assert (2 ^ mag x <= 2 ^ (mag y - 1)) by (apply pow2_le; lia).
    lra.
Qed.

(** Rounding keeps the order. *)
Theorem fl_mono (x y : Q) : x <= y -> fl x <= fl y.
Proof.
  intros L.
  destruct (Qlt_le_dec 0 x) as [Px | Nx].
  - apply fl_mono_pos; assumption.
  - destruct (Qlt_le_dec 0 y) as [Py' | Ny].
    + assert (fl x <= 0).
      { destruct (Qeq_dec x 0) as [Z0 | NZ]; [rewrite (fl_zero x Z0); lra|].
        assert (Pm : 0 < - x).
        { destruct (Qle_lt_or_eq _ _ Nx) as [K | K]; [lra | contradiction]. }
        pose proof (fl_pos _ Pm) as F. rewrite fl_opp in F. lra. }
      pose proof (fl_pos y Py'). lra.
    + destruct (Qeq_dec y 0) as [Y0 | NY].
      * rewrite (fl_zero y Y0).
        destruct (Qeq_dec x 0) as [Z0 | NZ]; [rewrite (fl_zero x Z0); lra|].
        assert (Pm : 0 < - x).
        { destruct (Qle_lt_or_eq _ _ Nx) as [K | K]; [lra | contradiction]. }
        pose proof (fl_pos _ Pm) as F. rewrite fl_opp in F. lra.
      * assert (Pm : 0 < - y).
        { destruct (Qle_lt_or_eq _ _ Ny) as [K | K]; [lra | contradiction]. }
        assert (Lm : - y <= - x) by lra.
        pose proof (fl_mono_pos _ _ Pm Lm) as F. rewrite !fl_opp in F. lra.
Qed.

Lemma fl_0 : fl 0 = 0.
Proof. reflexivity. Qed.

Lemma fl_nonneg (x : Q) : 0 <= x -> 0 <= fl x.
Proof. intros L. apply fl_mono in L. rewrite fl_0 in L. exact L. Qed.

Lemma fl_nonpos (x : Q) : x <= 0 -> fl x <= 0.
Proof. intros L. apply fl_mono in L. rewrite fl_0 in L. exact L. Qed.

Lemma fl_neg (x : Q) : x < 0 -> fl x < 0.
Proof.
  intros L. assert (P : 0 < - x) by lra.
  apply fl_pos in P. rewrite fl_opp in P. lra.
Qed.

(** The sign of a number is the sign of its rounding. *)
Lemma fl_le_0_iff (x : Q) : fl x <= 0 <-> x <= 0.
Proof.
  split; [|apply fl_nonpos].
  intros L. destruct (Qlt_le_dec 0 x) as [P | N]; [|exact N].
  apply fl_pos in P. lra.
Qed.

Lemma fl_ge_0_iff (x : Q) : 0 <= fl x <-> 0 <= x.
Proof.
  split; [|apply fl_nonneg].
  intros L. destruct (Qlt_le_dec x 0) as [N | P]; [|exact P].
  apply fl_neg in N. lra.
Qed.

(** The absolute value of a rounding is the rounding of the absolute
    value. *)
Lemma fl_abs (x : Q) : Qabs (fl x) == fl (Qabs x).
Proof.
  apply Qabs_case; intros S.
  - apply (proj1 (fl_ge_0_iff x)) in S.
    rewrite (fl_comp (Qabs x) x (Qabs_pos x S)). reflexivity.
  - apply (proj1 (fl_le_0_iff x)) in S.
    rewrite (fl_comp (Qabs x) (- x) (Qabs_neg x S)).
    rewrite fl_opp. reflexivity.
Qed.

Lemma fl_pos_iff (x : Q) : 0 < fl x <-> 0 < x.
Proof.
  split; [|apply fl_pos].
  intros L. destruct (Qlt_le_dec 0 x) as [P | N]; [exact P|].
  apply fl_nonpos in N. lra.
Qed.

Lemma fl_of_scaled_int (x : Q) (n : Z) :
  ~ x == 0 -> x / 2 ^ (mag x - prec) == inject_Z n -> fl x == x.
Proof.
  intros NZ E. rewrite (fl_nonzero x NZ).
  rewrite (round_half_even_comp _ _ E), round_half_even_int, <- E.
  pose proof (pow2_pos (mag x - prec)). field. lra.
Qed.

Lemma mag_scaled_int (m e : Z) :
  (0 < m)%Z -> mag (inject_Z m * 2 ^ e) = (Z.log2 m + 1 + e)%Z.
Proof.
  intros P. destruct (log2_bounds m P) as [Lo Hi].
  pose proof (pow2_pos e) as PE. pose proof (pow2_pos (Z.log2 m)) as PJ.
  assert (0 < inject_Z m) by (rewrite <- (Zlt_Qlt 0); exact P).
  apply mag_unique; rewrite Qabs_pos by (apply Qlt_le_weak; nra).
  - replace (Z.log2 m + 1 + e - 1)%Z with (Z.log2 m + e)%Z by lia.
    rewrite pow2_add. apply Qmult_le_compat_r; lra.
  - replace (Z.log2 m + 1 + e)%Z with ((Z.log2 m + 1) + e)%Z by lia.
    rewrite pow2_add, pow2_succ. apply Qmult_lt_compat_r; lra.
Qed.

Lemma fl_exact_pos (m e : Z) :
  (0 < m <= 2 ^ prec)%Z -> fl (inject_Z m * 2 ^ e) == inject_Z m * 2 ^ e.
Proof.
  intros [P B].
  pose proof (pow2_pos e) as PE.
  assert (PM : 0 < inject_Z m) by (rewrite <- (Zlt_Qlt 0); exact P).
  assert (NZ : ~ inject_Z m * 2 ^ e == 0) by nra.
  pose proof (Z.log2_nonneg m) as JN.
  destruct (Z.log2_spec m P) as [JLo JHi].
  destruct (Z.eq_dec m (2 ^ prec)%Z) as [Top | Below].
  - apply (fl_of_scaled_int _ (2 ^ (prec - 1)) NZ).
    rewrite (mag_scaled_int m e P). subst m.
    rewrite Z.log2_pow2 by (unfold prec; lia).
    rewrite !pow2_inject by (unfold prec; lia).
    replace (prec + 1 + e - prec)%Z with (e + 1)%Z by lia.
    replace prec with ((prec - 1) + 1)%Z at 1 by lia.
    rewrite (pow2_succ (prec - 1)), (pow2_succ e).
    pose proof (pow2_pos (prec - 1)). field. lra.
  - assert (J : (Z.log2 m < prec)%Z).
    { apply Z.log2_lt_pow2; [exact P | lia]. }
    apply (fl_of_scaled_int _ (m * 2 ^ (prec - 1 - Z.log2 m)) NZ).
    rewrite (mag_scaled_int m e P).
    rewrite inject_Z_mult, pow2_inject by lia.
    replace (Z.log2 m + 1 + e - prec)%Z with (e - (prec - 1 - Z.log2 m))%Z by lia.
    rewrite pow2_sub.
    pose proof (pow2_pos (prec - 1 - Z.log2 m)). field. lra.
Qed.

(** A number with a mantissa of at most 53 bits is not changed by rounding. *)
Lemma fl_exact (m e : Z) :
  (Z.abs m <= 2 ^ prec)%Z -> fl (inject_Z m * 2 ^ e) == inject_Z m * 2 ^ e.
Proof.
  intros B. destruct (Z.lt_trichotomy m 0) as [N | [Z0 | P]].
  - assert (E : inject_Z m * 2 ^ e == - (inject_Z (- m) * 2 ^ e))
      by (rewrite inject_Z_opp; ring).
    rewrite E, fl_opp, fl_exact_pos by lia. reflexivity.
  - subst m. rewrite (fl_zero (inject_Z 0 * 2 ^ e)) by ring. ring.
  - apply fl_exact_pos. lia.
Qed.

Lemma fl_int (z : Z) : (Z.abs z <= 2 ^ prec)%Z -> fl (inject_Z z) == inject_Z z.
Proof.
  intros B. pose proof (fl_exact z 0 B) as E.
  change (2 ^ 0) with 1 in E. rewrite Qmult_1_r in E. exact E.
Qed.

(** Rounding twice is rounding once: the value of [fl] is a double. *)
Theorem fl_idem (x : Q) : fl (fl x) == fl x.
Proof.
  assert (Pos : forall y, 0 < y -> fl (fl y) == fl y).
  { intros y P. assert (NZ : ~ y == 0) by lra.
    rewrite (fl_nonzero y NZ). apply fl_exact.
    destruct (mant_bounds y P). lia. }
  destruct (Qlt_le_dec 0 x) as [P | N]; [apply Pos, P|].
  destruct (Qeq_dec x 0) as [Z0 | NZ].
  - rewrite (fl_zero x Z0). reflexivity.
  - assert (Pm : 0 < - x).
    { destruct (Qle_lt_or_eq _ _ N) as [K | K]; [lra | contradiction]. }
    pose proof (Pos _ Pm) as E. rewrite fl_opp, fl_opp in E. lra.
Qed.

Lemma is_float_fl (x : Q) : is_float (fl x).
Proof. apply fl_idem. Qed.

Lemma is_float_opp (x : Q) : is_float x -> is_float (- x).
Proof. unfold is_float. intros F. rewrite fl_opp, F. reflexivity. Qed.

Lemma is_floatb_iff (x : Q) : is_floatb x = true <-> is_float x.
Proof. apply Qeq_bool_iff. Qed.

Lemma floats_cons (x : Q) (l : list Q) :
  floats (x :: l) <-> is_float x /\ floats l.
Proof.
  unfold floats. simpl. rewrite andb_true_iff, is_floatb_iff. reflexivity.
Qed.

Lemma floats_In (x : Q) (l : list Q) : floats l -> In x l -> is_float x.
Proof.
  unfold floats. intros F I. apply is_floatb_iff.
  exact (proj1 (forallb_forall _ _) F x I).
Qed.

Lemma round_whole_pos (x : Q) :
  0 < x -> is_float x -> is_float (inject_Z (Py.round_half_even x)).
Proof.
  intros P F. unfold is_float in *.
  assert (NZ : ~ x == 0) by lra.
  rewrite (fl_nonzero x NZ) in F.
  destruct (mant_bounds x P) as [MLo MHi].
  set (m := Py.round_half_even (x / 2 ^ (mag x - prec))) in *.
  set (e := (mag x - prec)%Z) in *.
  destruct (Z_le_gt_dec 0 e) as [E | E].
  - assert (I : x == inject_Z (m * 2 ^ e)).
    { rewrite inject_Z_mult, pow2_inject by exact E. symmetry. exact F. }
    rewrite (round_half_even_comp _ _ I), round_half_even_int.
    rewrite inject_Z_mult, pow2_inject by exact E.
    apply fl_exact. lia.
  - apply fl_int.
    assert (U : x <= inject_Z (2 ^ (prec - 1))).
    { rewrite <- F, pow2_inject by (unfold prec; lia).
      assert (2 ^ e <= 2 ^ (-1)) by (apply pow2_le; lia).
      change (2 ^ (-1)) with (1 # 2) in *.
      rewrite Zle_Qle, (pow2_inject prec) in MHi by (unfold prec; lia).
      replace prec with ((prec - 1) + 1)%Z in MHi at 1 by lia.
      rewrite pow2_succ in MHi.
      pose proof (pow2_pos e). pose proof (pow2_pos (prec - 1)).
      assert (M0 : 0 < inject_Z m).
      { rewrite <- (Zlt_Qlt 0). assert (0 < 2 ^ (prec - 1))%Z by (unfold prec; lia). lia. }
      apply (Qle_trans _ (inject_Z m * (1 # 2))); [|lra].
      apply Qmult_le_l; [exact M0|]. lra. }
    apply round_half_even_mono in U. rewrite round_half_even_int in U.
    assert (L : (0 <= Py.round_half_even x)%Z).
    { rewrite <- (round_half_even_int 0). apply round_half_even_mono.
      change (inject_Z 0) with 0. lra. }
    assert (2 ^ (prec - 1) <= 2 ^ prec)%Z by (unfold prec; lia).
    lia.
Qed.

(** [round(x)] of a double is a double. *)
Lemma round_whole (x : Q) :
  is_float x -> is_float (inject_Z (Py.round_half_even x)).
Proof.
  intros F. destruct (Qlt_le_dec 0 x) as [P | N]; [apply round_whole_pos; assumption|].
  destruct (Qeq_dec x 0) as [Z0 | NZ].
  - rewrite (round_half_even_comp x 0 Z0). reflexivity.
  - assert (Pm : 0 < - x).
    { destruct (Qle_lt_or_eq _ _ N) as [K | K]; [lra | contradiction]. }
    pose proof (round_whole_pos _ Pm (is_float_opp x F)) as R.
    rewrite round_half_even_opp, inject_Z_opp in R.
    apply is_float_opp in R. unfold is_float in *.
    rewrite (fl_comp _ (inject_Z (Py.round_half_even x))) in R by ring.
    rewrite R. ring.
Qed.

(** The doubles of some well-known literals and results, as Python's
    [float.as_integer_ratio] gives them. *)
Example well_known_doubles :
  lit 0.1 == 3602879701896397 # 36028797018963968
  /\ add (lit 0.1) (lit 0.2) == 1351079888211149 # 4503599627370496
  /\ lit 0.3 == 5404319552844595 # 18014398509481984
  /\ ~ add (lit 0.1) (lit 0.2) == lit 0.3
  /\ div 1 3 == 6004799503160661 # 18014398509481984
  /\ round_ndigits (lit 2.675) 2 == lit 2.67
  /\ mean [lit 0.1; lit 0.2; lit 0.4] == 4203359652212463 # 18014398509481984.
Proof.
  repeat split; try (vm_compute; reflexivity).
  vm_compute. discriminate.
Qed.

End Binary64Facts.

(** * thermal_model.py in binary64: the time estimate *)

Module ThermalModel64Facts.

Import ThermalModel.
Import ThermalModel64.
Import PyFacts.
Import PyMoreFacts.
Import Binary64Facts.

Lemma bucket_of_spec (t : Q) : bucket_of t = Spec64.bucket t.
Proof. unfold bucket_of, Spec64.bucket. lia. Qed.

Lemma filter_bool_cons {A : Type} (f : A -> bool) (x : A) (l : list A) :
  filter f (x :: l) = if f x then x :: filter f l else filter f l.
Proof. rewrite filter_cons. destruct (f x); reflexivity. Qed.

Lemma nearby_filter (ext_temp : Q) (ss : list HeatingSession) :
  filter (fun v => Py.Qlt_bool 0 v)
         (map speed_degc_per_min (filter (Spec64.near ext_temp) ss))
  = Spec64.nearby_speeds ext_temp ss.
Proof.
  induction ss as [|s ss IH]; [reflexivity|].
  rewrite filter_bool_cons. simpl Spec64.nearby_speeds.
  destruct (Spec64.near ext_temp s); [|exact IH].
  simpl map. rewrite filter_bool_cons.
  destruct (Py.Qlt_bool 0 (speed_degc_per_min s)); simpl; [rewrite IH|];
    reflexivity || exact IH.
Qed.

Lemma nearby_speeds_spec (self : ThermalModel) (ext_temp : Q) :
  filter (fun v => Py.Qlt_bool 0 v)
         (map speed_degc_per_min (nearby_sessions self ext_temp))
  = Spec64.nearby_speeds ext_temp (sessions self).
Proof.
  unfold nearby_sessions. rewrite bucket_of_spec.
  exact (nearby_filter ext_temp (sessions self)).
Qed.

(** [_get_speed_for_ext_temp] selects the speed of the specification. *)
Lemma selected_speed_spec (self : ThermalModel) (ext_temp : Q) :
  _get_speed_for_ext_temp self ext_temp = Spec64.selected_speed self ext_temp.
Proof.
  unfold _get_speed_for_ext_temp, Spec64.selected_speed. cbv zeta.
  rewrite nearby_speeds_spec.
  destruct (sessions self) as [|s ss]; [reflexivity|].
  destruct (Spec64.nearby_speeds ext_temp (s :: ss)); reflexivity.
Qed.

Lemma valid_speeds_spec (ss : list HeatingSession) :
  map speed_degc_per_min (filter is_valid ss) = Spec64.valid_speeds ss.
Proof.
  induction ss as [|s ss IH]; [reflexivity|].
  rewrite filter_bool_cons. simpl Spec64.valid_speeds. unfold is_valid at 1.
  destruct (Py.Qlt_bool 0 (speed_degc_per_min s) && Qle_bool 5 (duration_min s));
    [simpl; rewrite IH; reflexivity | exact IH].
Qed.

(** After [_recalculate] the stored average is the global mean speed. *)
Lemma avg_speed_after_recalculate (self : ThermalModel) :
  Spec64.valid_speeds (sessions self) <> [] ->
  avg_speed_of (_recalculate self)
  = Some (Spec64.global_mean_speed (sessions self)).
Proof.
  intros NE. unfold avg_speed_of, _recalculate, recalculate_inertia,
    Spec64.global_mean_speed. simpl.
  rewrite <- valid_speeds_spec in *.
  destruct (sessions self) as [|s ss]; [contradiction NE; reflexivity|].
  destruct (map speed_degc_per_min (filter is_valid (s :: ss))) as [|v vs];
    [contradiction NE; reflexivity|].
  reflexivity.
Qed.

Lemma no_average_without_valid_session (self : ThermalModel) :
  Spec64.valid_speeds (sessions self) = [] ->
  avg_speed_of (_recalculate self) = None.
Proof.
  intros E. unfold avg_speed_of, _recalculate, recalculate_inertia. simpl.
  rewrite <- valid_speeds_spec in E.
  destruct (sessions self) as [|s ss]; [reflexivity|].
  rewrite E. reflexivity.
Qed.

(** On a model whose statistics are recalculated, as [add_session] and
    [load_sessions] leave it, [_get_speed_for_ext_temp] selects the speed
    of the specification. *)
Lemma speed_for_spec (self : ThermalModel) (ext_temp : Q) :
  _get_speed_for_ext_temp (_recalculate self) ext_temp
  = Spec64.speed_for (sessions self) ext_temp.
Proof.
  rewrite selected_speed_spec. unfold Spec64.selected_speed, Spec64.speed_for.
  change (sessions (_recalculate self)) with (sessions self).
  destruct (sessions self) as [|s ss] eqn:E; [reflexivity|].
  destruct (Spec64.nearby_speeds ext_temp (s :: ss)); [|reflexivity].
  rewrite <- E.
  destruct (Spec64.valid_speeds (sessions self)) eqn:V.
  - apply no_average_without_valid_session, V.
  - apply avg_speed_after_recalculate. rewrite V. discriminate.
Qed.

(** [round(x, 0)] of a double is the nearest whole number. *)
Lemma round_0_whole (x : Q) :
  Binary64.is_float x ->
  Binary64.round_ndigits x 0 == inject_Z (Py.round_half_even x).
Proof.
  intros F. unfold Binary64.round_ndigits.
  rewrite (fl_comp _ _ (round_ndigits_0 x)). apply round_whole, F.
Qed.

Lemma round_0_mono (x y : Q) :
  x <= y -> Binary64.round_ndigits x 0 <= Binary64.round_ndigits y 0.
Proof. intros L. apply fl_mono, round_ndigits_mono, L. Qed.

Lemma round_0_nonneg (x : Q) : 0 <= x -> 0 <= Binary64.round_ndigits x 0.
Proof. intros L. apply fl_nonneg, round_ndigits_nonneg, L. Qed.

Lemma estimate_of_speed (self : ThermalModel)
    (current_temp target_temp ext_temp margin speed : Q) :
  _get_speed_for_ext_temp self ext_temp = Some speed ->
  0 < speed ->
  0 < Binary64.sub target_temp current_temp ->
  estimate_time_to_target self current_temp target_temp ext_temp margin
  = Some (Binary64.round_ndigits
            (Binary64.mul
               (Binary64.div (Binary64.sub target_temp current_temp) speed)
               margin) 0).
Proof.
  intros Hs Hpos Hlt. unfold estimate_time_to_target. cbv zeta.
  assert (D : Qle_bool (Binary64.sub target_temp current_temp) 0 = false)
    by (apply Qle_bool_false_iff; exact Hlt).
  rewrite D, Hs.
  assert (P : Qle_bool speed 0 = false) by (apply Qle_bool_false_iff; lra).
  rewrite P. reflexivity.
Qed.

Lemma estimate_when_reached (self : ThermalModel)
    (current_temp target_temp ext_temp margin : Q) :
  Binary64.sub target_temp current_temp <= 0 ->
  estimate_time_to_target self current_temp target_temp ext_temp margin = Some 0.
Proof.
  intros L. unfold estimate_time_to_target. cbv zeta.
  apply Qle_bool_iff in L. rewrite L. reflexivity.
Qed.

(** The float difference is positive exactly when the target is above the
    current temperature. *)
Lemma delta_positive (current_temp target_temp : Q) :
  0 < Binary64.sub target_temp current_temp <-> current_temp < target_temp.
Proof. unfold Binary64.sub. rewrite fl_pos_iff. split; intros; lra. Qed.

(** C1, as the code has it, on doubles: on a model whose statistics are
    recalculated, as [add_session] and [load_sessions] leave it, with
    [current_temp < target_temp] and a positive selected speed (the median
    of the positive speeds of the sessions within 5 of the bucket of the
    outdoor temperature, or else the mean speed of the valid sessions to 5
    decimals), [estimate_time_to_target] returns
    [(target_temp - current_temp) / speed * margin], each operation rounded
    to the nearest double, rounded to the nearest whole minute (ties to
    even), for every margin; with recorded speeds 0.05, 0.06 and 0.055
    around 5 degrees outside, the estimate from 18 to 20 at margin 1.15 is
    42. *)
Theorem estimate_rounds_to_nearest :
  (forall (self : ThermalModel) (current_temp target_temp ext_temp margin speed : Q),
      Binary64.floats (numbers self) ->
      Binary64.floats [current_temp; target_temp; ext_temp; margin] ->
      Spec64.speed_for (sessions self) ext_temp = Some speed ->
      0 < speed ->
      current_temp < target_temp ->
      exists minutes,
        estimate_time_to_target (_recalculate self) current_temp target_temp
          ext_temp margin
        = Some minutes
        /\ minutes
           == inject_Z
                (Py.round_half_even
                   (Binary64.mul
                      (Binary64.div (Binary64.sub target_temp current_temp) speed)
                      margin)))
  /\ (exists minutes,
        Spec64.speed_for (sessions Scenarios64.three_sessions_model) 5
        = Some (Binary64.lit 0.055)
        /\ estimate_time_to_target Scenarios64.three_sessions_model 18 20 5
             (Binary64.lit 1.15)
           = Some minutes
        /\ minutes == 42).
Proof.
  split.
  - intros self c t e m s _ _ Hs Hpos Hlt.
    rewrite <- speed_for_spec in Hs.
    apply delta_positive in Hlt.
    eexists. split; [apply (estimate_of_speed _ _ _ _ _ _ Hs Hpos Hlt)|].
    apply round_0_whole, is_float_fl.
  - exists 42.
    split; [vm_compute; reflexivity|].
    split; [vm_compute; reflexivity|reflexivity].
Qed.

(** A run of C1's theorem: speed 1, one degree to gain, margin 1.2. *)
Lemma estimate_rounds_to_nearest_witness :
  Binary64.floats (numbers Scenarios64.unit_speed_model)
  /\ Binary64.floats [18; 19; 5; Binary64.lit 1.2]
  /\ Spec64.speed_for (sessions Scenarios64.unit_speed_model) 5 = Some 1
  /\ 0 < 1
  /\ 18 < 19
  /\ exists minutes,
       estimate_time_to_target (_recalculate Scenarios64.unit_speed_model) 18 19 5
         (Binary64.lit 1.2) = Some minutes
       /\ minutes
          == inject_Z (Py.round_half_even
                         (Binary64.mul (Binary64.div (Binary64.sub 19 18) 1)
                                       (Binary64.lit 1.2))).
Proof.
  split; [vm_compute; reflexivity|].
  split; [vm_compute; reflexivity|].
  split; [vm_compute; reflexivity|].
  split; [reflexivity|].
  split; [reflexivity|].
  apply (proj1 estimate_rounds_to_nearest Scenarios64.unit_speed_model 18 19 5
           (Binary64.lit 1.2) 1);
    [vm_compute; reflexivity | vm_compute; reflexivity | vm_compute; reflexivity
    | reflexivity | reflexivity].
Defined.

(** C1 as the spec words it fails.  With speed 1, one degree to gain and
    margin 1.2 the raw time is 1.2 minutes: the code answers 1, the ceiling
    is 2.  With sessions recorded around 20 degrees outside and a query at
    0 degrees no session is near: the speed is the stored average 0.05667,
    not the mean 0.0566... of the valid speeds.  With a nearby session of
    speed 0 and one of speed 0.06 the speed is 0.06, the median of the
    positive speeds, not 0.03. *)
Lemma estimate_is_not_the_ceiling :
  (Spec64.speed_for (sessions Scenarios64.unit_speed_model) 5 = Some 1
   /\ 18 < 19
   /\ estimate_time_to_target Scenarios64.unit_speed_model 18 19 5
        (Binary64.lit 1.2) = Some 1
   /\ Py.ceil ((19 - 18) / 1 * 1.2) = 2%Z
   /\ Py.ceil (Binary64.mul (Binary64.div (Binary64.sub 19 18) 1) (Binary64.lit 1.2))
      = 2%Z
   /\ ~ (exists minutes,
           estimate_time_to_target Scenarios64.unit_speed_model 18 19 5
             (Binary64.lit 1.2) = Some minutes
           /\ minutes == inject_Z 2))
  /\ (Spec64.nearby_speeds 0 (sessions Scenarios64.mild_days_model) = []
      /\ _get_speed_for_ext_temp Scenarios64.mild_days_model 0
         = Some (Binary64.lit 0.05667)
      /\ ~ Binary64.mean (Spec64.valid_speeds (sessions Scenarios64.mild_days_model))
           == Binary64.lit 0.05667)
  /\ (_get_speed_for_ext_temp Scenarios64.stalled_session_model 5
      = Some (Binary64.lit 0.06)
      /\ Binary64.median
           (map speed_degc_per_min
                (nearby_sessions Scenarios64.stalled_session_model 5))
         = Some (Binary64.lit 0.03)).
Proof.
  split; [|split].
  - split; [vm_compute; reflexivity|].
    split; [reflexivity|].
    split; [vm_compute; reflexivity|].
    split; [vm_compute; reflexivity|].
    split; [vm_compute; reflexivity|].
    intros [minutes [E Q]].
    vm_compute in E. injection E as <-.
    vm_compute in Q. discriminate Q.
  - split; [vm_compute; reflexivity|].
    split; [vm_compute; reflexivity|].
    vm_compute. discriminate.
  - split; vm_compute; reflexivity.
Qed.

(** From 18 to 18.7 at speed 0.04 and margin 1: the float difference is
    0.6999999999999993, the raw time 17.499999999999982, the estimate 17;
    on the exact quotient 17.5 the tie would go to 18. *)
Example estimate_below_a_tie :
  estimate_time_to_target Scenarios64.slow_model 18 (Binary64.lit 18.7) 5 1
  = Some 17
  /\ Py.round_half_even ((18.7 - 18) / 0.04 * 1) = 18%Z.
Proof. split; vm_compute; reflexivity. Qed.

(** C7, on doubles: for a selected positive speed and a margin that is not
    negative the estimate does not decrease when
    [target_temp - current_temp] grows, as a value or as the float
    difference the code computes; and for a positive speed it does not
    decrease when the margin grows. *)
Theorem estimate_monotone :
  (forall (self : ThermalModel) (ext_temp margin speed c1 t1 c2 t2 : Q),
      Binary64.floats (numbers self) ->
      Binary64.floats [ext_temp; margin; c1; t1; c2; t2] ->
      _get_speed_for_ext_temp self ext_temp = Some speed ->
      0 < speed ->
      0 <= margin ->
      t1 - c1 <= t2 - c2 \/ Binary64.sub t1 c1 <= Binary64.sub t2 c2 ->
      exists m1 m2,
        estimate_time_to_target self c1 t1 ext_temp margin = Some m1
        /\ estimate_time_to_target self c2 t2 ext_temp margin = Some m2
        /\ m1 <= m2)
  /\ (forall (self : ThermalModel) (ext_temp speed current_temp target_temp
             margin1 margin2 : Q),
      Binary64.floats (numbers self) ->
      Binary64.floats [ext_temp; current_temp; target_temp; margin1; margin2] ->
      _get_speed_for_ext_temp self ext_temp = Some speed ->
      0 < speed ->
      margin1 <= margin2 ->
      exists m1 m2,
        estimate_time_to_target self current_temp target_temp ext_temp margin1
        = Some m1
        /\ estimate_time_to_target self current_temp target_temp ext_temp margin2
           = Some m2
        /\ m1 <= m2).
Proof.
  assert (Base : forall d speed, 0 <= d -> 0 < speed -> 0 <= Binary64.div d speed).
  { intros d speed Hd Hs. apply fl_nonneg.
    unfold Qdiv. apply Qmult_le_0_compat; [exact Hd|].
    apply Qlt_le_weak, Qinv_lt_0_compat, Hs. }
  split.
  - intros self e m s c1 t1 c2 t2 _ _ Hs Hpos Hm Hd.
    assert (D : Binary64.sub t1 c1 <= Binary64.sub t2 c2).
    { destruct Hd as [Hd | Hd]; [apply fl_mono, Hd | exact Hd]. }
    clear Hd.
    destruct (Qlt_le_dec 0 (Binary64.sub t1 c1)) as [L1 | L1];
      destruct (Qlt_le_dec 0 (Binary64.sub t2 c2)) as [L2 | L2].
    + do 2 eexists.
      split; [apply (estimate_of_speed _ _ _ _ _ _ Hs Hpos L1)|].
      split; [apply (estimate_of_speed _ _ _ _ _ _ Hs Hpos L2)|].
      apply round_0_mono, fl_mono.
      apply Qmult_le_compat_r; [|exact Hm].
      apply fl_mono. unfold Qdiv. apply Qmult_le_compat_r; [exact D|].
      apply Qlt_le_weak, Qinv_lt_0_compat, Hpos.
    + exfalso. lra.
    + do 2 eexists.
      split; [apply (estimate_when_reached _ _ _ _ _ L1)|].
      split; [apply (estimate_of_speed _ _ _ _ _ _ Hs Hpos L2)|].
      apply round_0_nonneg, fl_nonneg, Qmult_le_0_compat; [|exact Hm].
      apply Base; [apply Qlt_le_weak, L2 | exact Hpos].
    + do 2 eexists.
      split; [apply (estimate_when_reached _ _ _ _ _ L1)|].
      split; [apply (estimate_when_reached _ _ _ _ _ L2)|].
      apply Qle_refl.
  - intros self e s c t m1 m2 _ _ Hs Hpos Hm.
    destruct (Qlt_le_dec 0 (Binary64.sub t c)) as [L | L].
    + do 2 eexists.
      split; [apply (estimate_of_speed _ _ _ _ _ _ Hs Hpos L)|].
      split; [apply (estimate_of_speed _ _ _ _ _ _ Hs Hpos L)|].
      apply round_0_mono, fl_mono.
      rewrite (Qmult_comm _ m1), (Qmult_comm _ m2).
      apply Qmult_le_compat_r; [exact Hm|].
      apply Base; [apply Qlt_le_weak, L | exact Hpos].
    + do 2 eexists.
      split; [apply (estimate_when_reached _ _ _ _ _ L)|].
      split; [apply (estimate_when_reached _ _ _ _ _ L)|].
      apply Qle_refl.
Qed.

(** A run of C7's theorem at a rounding tie: at speed 0.04 the gain of 0.7
    from 15.0 to 15.7 is the float 0.6999999999999993 and takes 17 minutes,
    the gain of 0.7 from 15.1 to 15.8 is the float 0.7000000000000011 and
    takes 18; and from 15.0 to 15.7 at margins 1 and 1.2. *)
Lemma estimate_monotone_witness :
  (Binary64.floats (numbers Scenarios64.slow_model)
   /\ Binary64.floats [5; 1; 15; Binary64.lit 15.7; Binary64.lit 15.1; Binary64.lit 15.8]
   /\ _get_speed_for_ext_temp Scenarios64.slow_model 5 = Some (Binary64.lit 0.04)
   /\ 0 < Binary64.lit 0.04
   /\ 0 <= 1
   /\ Binary64.lit 15.7 - 15 <= Binary64.lit 15.8 - Binary64.lit 15.1
   /\ estimate_time_to_target Scenarios64.slow_model 15 (Binary64.lit 15.7) 5 1
      = Some 17
   /\ estimate_time_to_target Scenarios64.slow_model (Binary64.lit 15.1)
        (Binary64.lit 15.8) 5 1
      = Some 18
   /\ exists m1 m2,
        estimate_time_to_target Scenarios64.slow_model 15 (Binary64.lit 15.7) 5 1
        = Some m1
        /\ estimate_time_to_target Scenarios64.slow_model (Binary64.lit 15.1)
             (Binary64.lit 15.8) 5 1
           = Some m2
        /\ m1 <= m2)
  /\ (Binary64.floats [5; 15; Binary64.lit 15.7; 1; Binary64.lit 1.2]
      /\ 1 <= Binary64.lit 1.2
      /\ exists m1 m2,
           estimate_time_to_target Scenarios64.slow_model 15 (Binary64.lit 15.7) 5 1
           = Some m1
           /\ estimate_time_to_target Scenarios64.slow_model 15 (Binary64.lit 15.7) 5
                (Binary64.lit 1.2)
              = Some m2
           /\ m1 <= m2).
Proof.
  assert (F : Binary64.floats (numbers Scenarios64.slow_model))
    by (vm_compute; reflexivity).
  assert (G : Binary64.floats
                [5; 1; 15; Binary64.lit 15.7; Binary64.lit 15.1; Binary64.lit 15.8])
    by (vm_compute; reflexivity).
  assert (S : _get_speed_for_ext_temp Scenarios64.slow_model 5
              = Some (Binary64.lit 0.04)) by (vm_compute; reflexivity).
  assert (P : 0 < Binary64.lit 0.04) by (vm_compute; reflexivity).
  assert (M : 0 <= 1) by discriminate.
  assert (D : Binary64.lit 15.7 - 15 <= Binary64.lit 15.8 - Binary64.lit 15.1)
    by (vm_compute; discriminate).
  assert (G2 : Binary64.floats [5; 15; Binary64.lit 15.7; 1; Binary64.lit 1.2])
    by (vm_compute; reflexivity).
  assert (M2 : 1 <= Binary64.lit 1.2) by (vm_compute; discriminate).
  split.
  - split; [exact F|]. split; [exact G|].
    split; [exact S|]. split; [exact P|]. split; [exact M|]. split; [exact D|].
    split; [vm_compute; reflexivity|].
    split; [vm_compute; reflexivity|].
    exact (proj1 estimate_monotone Scenarios64.slow_model 5 1 (Binary64.lit 0.04)
             15 (Binary64.lit 15.7) (Binary64.lit 15.1) (Binary64.lit 15.8)
             F G S P M (or_introl D)).
  - split; [exact G2|]. split; [exact M2|].
    exact (proj2 estimate_monotone Scenarios64.slow_model 5 (Binary64.lit 0.04)
             15 (Binary64.lit 15.7) 1 (Binary64.lit 1.2) F G2 S P M2).
Defined.

End ThermalModel64Facts.

(** * feedback.py in binary64: the margin suggestion *)

Module Feedback64Facts.

Import Feedback.
Import Feedback64.
Import PyFacts.
Import PyMoreFacts.
Import Binary64Facts.










Lemma seconds_opp (a b : Z) :
  Binary64.total_seconds (a - b)%Z == - Binary64.total_seconds (b - a)%Z.
Proof.
  unfold Binary64.total_seconds. rewrite <- fl_opp.
  rewrite (fl_comp (inject_Z (a - b) / 1000000) (- (inject_Z (b - a) / 1000000)));
    [reflexivity|].
  replace (a - b)%Z with (- (b - a))%Z by lia.
  rewrite inject_Z_opp. unfold Qdiv. ring.
Qed.

Lemma seconds_nonneg (d : Z) : (0 <= d)%Z -> 0 <= Binary64.total_seconds d.
Proof.
  intros L. unfold Binary64.total_seconds. apply fl_nonneg.
  apply Qle_shift_div_l; [reflexivity|].
  rewrite Qmult_0_l. rewrite <- (Zle_Qle 0). exact L.
Qed.

Lemma minutes_opp (a b : Z) :
  - Binary64.div (Binary64.total_seconds (a - b)%Z) 60
  == Binary64.div (Binary64.total_seconds (b - a)%Z) 60.
Proof.
  unfold Binary64.div. rewrite <- fl_opp.
  rewrite (fl_comp (- (Binary64.total_seconds (a - b)%Z / 60))
                   (Binary64.total_seconds (b - a)%Z / 60)); [reflexivity|].
  rewrite (seconds_opp a b). unfold Qdiv. ring.
Qed.

Lemma minutes_nonneg (d : Z) :
  (0 <= d)%Z -> 0 <= Binary64.div (Binary64.total_seconds d) 60.
Proof.
  intros L. unfold Binary64.div. apply fl_nonneg.
  apply Qle_shift_div_l; [reflexivity|].
  rewrite Qmult_0_l. apply seconds_nonneg, L.
Qed.

(** X11, in binary64: the minutes-early of a result does not depend on the
    outcome: it is the time from the end of the cycle to the target time in
    seconds, as a double, divided by 60 and rounded to one decimal, not
    negative when the cycle ended by the target time and not positive when
    it ended after; only a reached target records an arrival time. *)
Theorem minutes_early_of_a_result :
  forall (self : FeedbackLoop) (current_temp : Q) (now : Py.datetime)
         (pending : Pending),
    _pending_start self = Some pending ->
    exists reached late,
      snd (record_result self current_temp true now) = Some reached
      /\ snd (record_result self current_temp false now) = Some late
      /\ minutes_early reached == minutes_early late
      /\ minutes_early reached
         = Binary64.round_ndigits
             (Binary64.div
                (Binary64.total_seconds (p_target_time pending - now)%Z) 60) 1
      /\ actual_arrival_time reached = Some now
      /\ actual_arrival_time late = None
      /\ ((now <= p_target_time pending)%Z -> 0 <= minutes_early reached)
      /\ ((p_target_time pending <= now)%Z -> minutes_early reached <= 0).
Proof.
  intros self c now p P. unfold record_result. rewrite P. simpl.
  do 2 eexists. split; [reflexivity|]. split; [reflexivity|]. simpl.
  split.
  { unfold Binary64.round_ndigits.
    rewrite (fl_comp _ _ (round_ndigits_comp _ _ 1
                            (minutes_opp now (p_target_time p)))).
    reflexivity. }
  split; [reflexivity|].
  split; [reflexivity|]. split; [reflexivity|].
  split; intros L.
  - apply fl_nonneg, round_ndigits_nonneg, minutes_nonneg. lia.
  - apply fl_nonpos, round_ndigits_nonpos.
    rewrite <- (minutes_opp now (p_target_time p)).
    assert (T : 0 <= Binary64.div
                       (Binary64.total_seconds (now - p_target_time p)%Z) 60)
      by (apply minutes_nonneg; lia).
    lra.
Qed.

(** A run of X11's theorem: the cycle tracked for minute 10 ends 9 seconds
    before; 9/60 as a double is below 0.15 and rounds to 0.1. *)
Lemma minutes_early_of_a_result_witness :
  _pending_start (Scenarios.tracking_loop []) = Some Scenarios.pending_cycle
  /\ exists reached late,
       snd (record_result (Scenarios.tracking_loop []) 20 true 591000000%Z)
       = Some reached
       /\ snd (record_result (Scenarios.tracking_loop []) 20 false 591000000%Z)
          = Some late
       /\ minutes_early reached == minutes_early late
       /\ minutes_early reached = Binary64.lit 0.1.
Proof.
  split; [reflexivity|].
  destruct (minutes_early_of_a_result (Scenarios.tracking_loop []) 20
              591000000%Z Scenarios.pending_cycle eq_refl)
    as [reached [late [R [L [E [V _]]]]]].
  exists reached, late.
  split; [exact R|]. split; [exact L|]. split; [exact E|].
  rewrite V. vm_compute. reflexivity.
Defined.

End Feedback64Facts.

(** * anticipation.py in binary64: the Idle/Active state machine *)

Module Anticipation64Facts.

Import HA.
Import Anticipation.
Import Anticipation64.
Import PyFacts.
Import PyMoreFacts.
Import Binary64Facts.

(** A comparison with a literal: what the exact order says of the float
    test. *)
Lemma le_lit (x c : Q) : x <= c -> Binary64.fl x <= Binary64.lit c.
Proof. apply fl_mono. Qed.

Lemma lit_lt (x c : Q) : Binary64.lit c < Binary64.fl x -> c < x.
Proof.
  intros L. destruct (Qlt_le_dec c x) as [K | K]; [exact K|].
  apply le_lit in K. lra.
Qed.

Lemma total_seconds_le (td : Z) (s : Z) :
  (td <= s * 1000000)%Z -> Binary64.total_seconds td <= Binary64.fl (inject_Z s).
Proof.
  intros L. unfold Binary64.total_seconds. apply fl_mono.
  apply Qle_shift_div_r; [reflexivity|].
  change 1000000 with (inject_Z 1000000).
  rewrite <- (inject_Z_mult s 1000000), <- Zle_Qle. exact L.
Qed.

(** More than 600 seconds, on the microseconds and as the code tests
    it. *)
Lemma more_than_ten_minutes (td : Z) :
  Py.Qlt_bool 600 (Binary64.total_seconds td) = true
  <-> (600 * 1000000 < td)%Z.
Proof.
  rewrite Qlt_bool_iff. split.
  - intros L. destruct (Z_lt_le_dec (600 * 1000000) td) as [K | K]; [exact K|].
    apply (total_seconds_le td 600) in K.
    assert (E : Binary64.fl (inject_Z 600) == 600) by (vm_compute; reflexivity).
    lra.
  - intros L.
    assert (M : Binary64.fl (inject_Z 600000001 / 1000000) <= Binary64.total_seconds td).
    { unfold Binary64.total_seconds. apply fl_mono.
      unfold Qdiv. apply Qmult_le_compat_r; [|discriminate].
      rewrite <- Zle_Qle. lia. }
    assert (C : 600 < Binary64.fl (inject_Z 600000001 / 1000000))
      by (vm_compute; reflexivity).
    lra.
Qed.

Section Evaluation.

Context `{Builtins}.

Lemma climate_setpoint_reported (env : Env) (self : AnticipationEngine) (r : Q) :
  _get_climate_setpoint env self = Some r
  <-> Spec64.reported_setpoint (hass env) (climate_entity self) r.
Proof.
  unfold _get_climate_setpoint, Spec64.reported_setpoint. split.
  - destruct (hass env !! climate_entity self) as [st|]; [|discriminate].
    destruct (attributes st !! "temperature"%string) as [v|] eqn:A;
      [|discriminate].
    intros E. exists st, v. split; [reflexivity|]. split; [exact A|].
    unfold float_or_none in E.
    destruct v; simpl in E |- *; try discriminate;
      try (injection E as <-; reflexivity).
    destruct (float_of_str s); [injection E as <-; reflexivity | discriminate].
  - intros [st [v [S [A F]]]]. rewrite S, A.
    destruct v; simpl in F |- *; try discriminate; unfold float_or_none; simpl;
      try (injection F as <-; reflexivity).
    destruct (float_of_str s); [injection F as <-; reflexivity | discriminate].
Qed.

(** [should_resend] decides the resend rule. *)
Lemma should_resend_rule (env : Env) (self : AnticipationEngine) (target : Q) :
  target_consigne (state self) = Some target ->
  (should_resend env self = true
   <-> Spec64.resend_rule (hass env) (climate_entity self)
         (_last_consigne_sent_time self) (now env) target).
Proof.
  intros T. unfold should_resend, Spec64.resend_rule, Spec64.drift.
  rewrite T, orb_true_iff. split.
  - intros [I | D].
    + destruct (_last_consigne_sent_time self) as [t|]; [|left; reflexivity].
      right; left. exists t. split; [reflexivity|].
      apply more_than_ten_minutes, I.
    + destruct (_get_climate_setpoint env self) as [r|] eqn:G; [|discriminate].
      right; right. exists r. split; [apply climate_setpoint_reported, G|].
      apply Qlt_bool_iff, D.
  - intros [N | [[t [E L]] | [r [R L]]]].
    + left. rewrite N. reflexivity.
    + left. rewrite E. apply more_than_ten_minutes, L.
    + right. apply climate_setpoint_reported in R. rewrite R.
      apply Qlt_bool_iff, L.
Qed.

Lemma staying_state (env : Env) (self : AnticipationEngine) :
  state (fst (stay_active env self))
  = set_minutes_until_target (state self)
      (Some (Py.max 0 match target_time (state self) with
                      | Some t => minutes_from (now env) t
                      | None => 0
                      end)).
Proof.
  unfold stay_active, _send_consigne, no_command. cbv zeta. simpl.
  destruct (target_consigne (state self)) as [t|]; [|reflexivity].
  destruct (should_resend env _ && Py.truthy t); [|reflexivity].
  destruct (service_ok env); reflexivity.
Qed.

Lemma staying_commands (env : Env) (self : AnticipationEngine) :
  snd (stay_active env self)
  = match target_consigne (state self) with
    | Some t => if should_resend env self && Py.truthy t then [t] else []
    | None => []
    end.
Proof.
  unfold stay_active. cbv zeta. simpl.
  destruct (target_consigne (state self)) as [t|] eqn:T; [|reflexivity].
  assert (R : should_resend env
                (with_state self (set_minutes_until_target (state self)
                   (Some (Py.max 0 match target_time (state self) with
                                   | Some t0 => minutes_from (now env) t0
                                   | None => 0
                                   end))))
              = should_resend env self).
  { unfold should_resend, _get_climate_setpoint. simpl. reflexivity. }
  rewrite R. destruct (should_resend env self && Py.truthy t); reflexivity.
Qed.

Lemma stay_active_record (env : Env) (self : AnticipationEngine) :
  service_ok env = false ->
  _last_consigne_sent (fst (stay_active env self)) = _last_consigne_sent self
  /\ _last_consigne_sent_time (fst (stay_active env self))
     = _last_consigne_sent_time self.
Proof.
  intros F. unfold stay_active, _send_consigne, no_command. cbv zeta. simpl.
  destruct (target_consigne (state self)) as [t|]; [|split; reflexivity].
  destruct (should_resend env _ && Py.truthy t); [|split; reflexivity].
  rewrite F. split; reflexivity.
Qed.

Lemma sending_state (env : Env) (self : AnticipationEngine) (t : Q) :
  state (fst (_send_consigne env self t)) = state self
  /\ snd (_send_consigne env self t) = [t].
Proof. unfold _send_consigne. destruct (service_ok env); split; reflexivity. Qed.

(** The five outcomes of [async_evaluate]: nothing, a reset, the loss of
    the inputs, an activation, a stay. *)
Lemma evaluate_outcomes (env : Env) (self : AnticipationEngine)
    (temp_indoor temp_outdoor minutes_needed0 next_consigne : option Q)
    (gate : bool) (target_time0 : option Py.datetime) (margin : Q) :
  let r :=
    async_evaluate env self temp_indoor temp_outdoor minutes_needed0
      next_consigne gate target_time0 margin in
  (active (state self) = false /\ r = (self, []))
  \/ (active (state self) = true /\ r = (_deactivate self, []))
  \/ (active (state self) = true
      /\ (temp_indoor = None \/ next_consigne = None \/ minutes_needed0 = None)
      /\ r = (with_state self (set_active (state self) false), []))
  \/ (active (state self) = false /\ gate = false
      /\ exists ti nc mn t,
           temp_indoor = Some ti /\ next_consigne = Some nc
           /\ minutes_needed0 = Some mn
           /\ ti < Binary64.sub nc (Binary64.lit 0.2)
           /\ Binary64.lit 0.3 < Binary64.sub nc ti
           /\ 0 < mn
           /\ fst (decide_start env self mn nc target_time0) = true
           /\ t = match snd (decide_start env self mn nc target_time0) with
                  | Some t => t
                  | None => (now env + Binary64.timedelta_minutes mn)%Z
                  end
           /\ r = _send_consigne env
                    (with_state self (Invariants.activated nc ti mn t (now env)))
                    nc)
  \/ (active (state self) = true
      /\ exists ti nc mn,
           temp_indoor = Some ti /\ next_consigne = Some nc
           /\ minutes_needed0 = Some mn
           /\ ti < Binary64.sub nc (Binary64.lit 0.2)
           /\ r = stay_active env self).
Proof.
  cbv zeta. unfold async_evaluate.
  destruct temp_indoor as [ti|], next_consigne as [nc|], minutes_needed0 as [mn|];
    try (destruct (active (state self)) eqn:A;
         [right; right; left; split; [reflexivity|]; split; [|reflexivity]; auto
         |left; split; reflexivity]).
  destruct (Qle_bool (Binary64.sub nc (Binary64.lit 0.2)) ti) eqn:R.
  { destruct (active (state self)) eqn:A;
      [right; left; split; reflexivity | left; split; reflexivity]. }
  apply Qle_bool_false_iff in R.
  destruct gate, (active (state self)) eqn:A; simpl;
    try (left; split; reflexivity);
    destruct (decide_start env self mn nc target_time0) as [ss ett] eqn:D; simpl.
  - (* gate set, Active *)
    rewrite andb_false_r.
    destruct (ss || Py.truthy nc
                    && Py.Qlt_bool ti (Binary64.sub nc (Binary64.lit 0.2))) eqn:C.
    + right; right; right; right. split; [reflexivity|].
      exists ti, nc, mn. repeat split; assumption.
    + right; left. split; reflexivity.
  - (* gate clear, Active *)
    rewrite andb_false_r.
    destruct (ss || Py.truthy nc
                    && Py.Qlt_bool ti (Binary64.sub nc (Binary64.lit 0.2))) eqn:C.
    + right; right; right; right. split; [reflexivity|].
      exists ti, nc, mn. repeat split; assumption.
    + right; left. split; reflexivity.
  - (* gate clear, Idle *)
    rewrite andb_true_r. destruct ss; [|left; split; reflexivity].
    destruct (Py.Qlt_bool (Binary64.lit 0.3) (Binary64.sub nc ti)) eqn:D3;
      [|left; split; reflexivity].
    destruct (Py.Qlt_bool 0 mn) eqn:Dm; [|left; split; reflexivity]. simpl.
    right; right; right; left. split; [reflexivity|]. split; [reflexivity|].
    exists ti, nc, mn. eexists.
    apply Qlt_bool_iff in D3. apply Qlt_bool_iff in Dm.
    rewrite D. simpl.
    repeat split; try assumption; reflexivity.
Qed.

(** An engine that is Active before and after a call went through the
    "still active" branch. *)
Lemma stays_active_by_staying (env : Env) (self : AnticipationEngine)
    (temp_indoor temp_outdoor minutes_needed0 next_consigne : option Q)
    (gate : bool) (target_time0 : option Py.datetime) (margin : Q) :
  let r :=
    async_evaluate env self temp_indoor temp_outdoor minutes_needed0
      next_consigne gate target_time0 margin in
  active (state self) = true ->
  active (state (fst r)) = true ->
  r = stay_active env self.
Proof.
  cbv zeta. intros A A'.
  destruct (evaluate_outcomes env self temp_indoor temp_outdoor minutes_needed0
              next_consigne gate target_time0 margin)
    as [[I _] | [[_ E] | [[_ [_ E]] | [[I _] | [_ [ti [nc [mn [_ [_ [_ [_ E]]]]]]]]]]]];
    try congruence; rewrite E in A'; simpl in A'; discriminate A'.
Qed.

(** What an evaluation leaves of the engine when the service call raises:
    the state and the commands are those of a successful call, the record
    of the last command is the one it had. *)
Lemma evaluate_failed_send (env : Env) (self : AnticipationEngine)
    (temp_indoor temp_outdoor minutes_needed0 next_consigne : option Q)
    (gate : bool) (target_time0 : option Py.datetime) (margin : Q) :
  let failed :=
    async_evaluate (with_service env false) self temp_indoor temp_outdoor
      minutes_needed0 next_consigne gate target_time0 margin in
  let sent :=
    async_evaluate (with_service env true) self temp_indoor temp_outdoor
      minutes_needed0 next_consigne gate target_time0 margin in
  state (fst failed) = state (fst sent)
  /\ snd failed = snd sent
  /\ (active (state (fst failed)) = true ->
      _last_consigne_sent (fst failed) = _last_consigne_sent self
      /\ _last_consigne_sent_time (fst failed) = _last_consigne_sent_time self).
Proof.
  unfold async_evaluate.
  destruct temp_indoor as [ti|], next_consigne as [nc|], minutes_needed0 as [mn|];
    try (destruct (active (state self)) eqn:A; simpl;
         repeat split; try congruence; intros; discriminate).
  destruct (Qle_bool (Binary64.sub nc (Binary64.lit 0.2)) ti).
  { destruct (active (state self)) eqn:A; simpl;
      repeat split; try congruence; intros; discriminate. }
  destruct (gate && negb (active (state self))).
  { simpl. repeat split. }
  change (decide_start (with_service env false) self mn nc target_time0)
    with (decide_start env self mn nc target_time0).
  change (decide_start (with_service env true) self mn nc target_time0)
    with (decide_start env self mn nc target_time0).
  destruct (decide_start env self mn nc target_time0) as [should_start estimated].
  destruct (should_start && negb (active (state self))).
  { destruct (Py.Qlt_bool (Binary64.lit 0.3) (Binary64.sub nc ti) && Py.Qlt_bool 0 mn);
      simpl; repeat split. }
  destruct (active (state self)) eqn:A; [|simpl; repeat split].
  destruct (should_start
            || Py.truthy nc && Py.Qlt_bool ti (Binary64.sub nc (Binary64.lit 0.2))).
  - unfold stay_active. cbv zeta. simpl.
    destruct (target_consigne (state self)) as [t|]; [|simpl; repeat split].
    change (should_resend (with_service env true)) with (should_resend env).
    change (should_resend (with_service env false)) with (should_resend env).
    destruct (should_resend env _ && Py.truthy t); simpl; repeat split.
  - simpl. repeat split; intros; discriminate.
Qed.

(** The commands of an engine that stays Active: its target, under the
    resend rule and unless the target is zero. *)
Lemma staying_resends_by_rule (env : Env) (self : AnticipationEngine)
    (temp_indoor temp_outdoor minutes_needed0 next_consigne : option Q)
    (gate : bool) (target_time0 : option Py.datetime) (margin : Q) (target : Q) :
  let next :=
    async_evaluate env self temp_indoor temp_outdoor minutes_needed0
      next_consigne gate target_time0 margin in
  active (state self) = true ->
  active (state (fst next)) = true ->
  target_consigne (state self) = Some target ->
  (~ target == 0 ->
   Spec64.resend_rule (hass env) (climate_entity self)
     (_last_consigne_sent_time self) (now env) target ->
   snd next = [target])
  /\ (~ Spec64.resend_rule (hass env) (climate_entity self)
          (_last_consigne_sent_time self) (now env) target ->
      snd next = [])
  /\ (target == 0 -> snd next = []).
Proof.
  cbv zeta. intros A A' T.
  rewrite (stays_active_by_staying env self temp_indoor temp_outdoor
             minutes_needed0 next_consigne gate target_time0 margin A A').
  rewrite staying_commands, T.
  pose proof (should_resend_rule env self target T) as Rule.
  split; [|split].
  - intros NZ R. apply Rule in R. rewrite R.
    assert (Tr : Py.truthy target = true).
    { unfold Py.truthy. destruct (Qeq_bool target 0) eqn:E; [|reflexivity].
      apply Qeq_bool_eq in E. contradiction. }
    rewrite Tr. reflexivity.
  - intros NR. destruct (should_resend env self) eqn:S; [|reflexivity].
    exfalso. apply NR, Rule. reflexivity.
  - intros Z. assert (Tr : Py.truthy target = false).
    { unfold Py.truthy. apply Qeq_bool_iff in Z. rewrite Z. reflexivity. }
    rewrite Tr, andb_false_r. reflexivity.
Qed.

Lemma sent_command_recorded (env : Env) (self : AnticipationEngine)
    (temp_indoor temp_outdoor minutes_needed0 next_consigne : option Q)
    (gate : bool) (target_time0 : option Py.datetime) (margin : Q) :
  let r :=
    async_evaluate env self temp_indoor temp_outdoor minutes_needed0
      next_consigne gate target_time0 margin in
  service_ok env = true ->
  snd r <> [] ->
  active (state (fst r)) = true
  /\ _last_consigne_sent_time (fst r) = Some (send_now env)
  /\ _last_consigne_sent (fst r) = target_consigne (state (fst r)).
Proof.
  cbv zeta. intros Ok.
  destruct (evaluate_outcomes env self temp_indoor temp_outdoor minutes_needed0
              next_consigne gate target_time0 margin)
    as [[_ E] | [[_ E] | [[_ [_ E]] | [[_ [_ [ti [nc [mn [t [_ [_ [_ [_ [_ [_ [_ [_ E]]]]]]]]]]]]]]
       | [A [ti [nc [mn [_ [_ [_ [_ E]]]]]]]]]]]];
    rewrite E; try (simpl; congruence).
  - intros _. unfold _send_consigne. rewrite Ok. repeat split.
  - unfold stay_active, _send_consigne, no_command. cbv zeta. simpl.
    destruct (target_consigne (state self)) as [g|] eqn:T; [|simpl; congruence].
    destruct (should_resend env _ && Py.truthy g); [|simpl; congruence].
    rewrite Ok. simpl. intros _. rewrite T, A. repeat split.
Qed.

Lemma decide_start_target_time (env : Env) (self : AnticipationEngine)
    (mn nc : Q) (tt : option Py.datetime) :
  0 < mn ->
  fst (decide_start env self mn nc tt) = true ->
  match snd (decide_start env self mn nc tt) with
  | Some t => t
  | None => (now env + Binary64.timedelta_minutes mn)%Z
  end
  = match tt with
    | Some t => t
    | None => (now env + Binary64.timedelta_minutes mn)%Z
    end.
Proof.
  intros P. unfold decide_start. cbv zeta.
  destruct tt as [t|].
  - apply Qlt_bool_iff in P. rewrite P.
    destruct (Qle_bool _ 2); [reflexivity|].
    destruct (Py.Qlt_bool _ 0); reflexivity.
  - destruct (_get_current_consigne env self) as [c|]; [|discriminate].
    destruct (Py.Qlt_bool _ nc); [reflexivity | discriminate].
Qed.

End Evaluation.

(** The strings the examples read denote doubles. *)
Lemma simple_builtins_typed : @Typed.builtins Scenarios.simple_builtins.
Proof.
  intros s q E. simpl in E.
  repeat match type of E with
  | (if ?c then _ else _) = _ => destruct c
  end;
    try discriminate; injection E as <-; vm_compute; reflexivity.
Qed.

Lemma typed_number (env : Env) (B : Builtins) (self : AnticipationEngine)
    (ti mn nc : option Q) (x : Q) :
  typed env self ti mn nc ->
  In x (Typed.number ti ++ Typed.number mn ++ Typed.number nc) ->
  Binary64.is_float x.
Proof.
  intros [_ [_ F]] I. apply (floats_In x _ F).
  rewrite !app_assoc in *. apply in_or_app. left. exact I.
Qed.

(** C5: an Active engine evaluated with indoor temperature, next set-point
    and minutes-needed all known and [temp_indoor >= next_consigne - 0.2]
    is deactivated by that call: the state is the default inactive state,
    the record of the last command is cleared, no command is sent.  The
    inputs are doubles; the comparison holds of their values, or of the
    difference as the code computes it in floating point. *)
Theorem reaching_target_deactivates :
  forall (B : Builtins) (env : Env) (self : AnticipationEngine)
         (temp_indoor minutes_needed next_consigne : Q)
         (temp_outdoor : option Q) (is_anti_cycle_active : bool)
         (target_time : option Py.datetime) (effective_margin : Q),
    typed env self (Some temp_indoor) (Some minutes_needed) (Some next_consigne) ->
    active (state self) = true ->
    next_consigne - 0.2 <= temp_indoor
    \/ Binary64.sub next_consigne (Binary64.lit 0.2) <= temp_indoor ->
    let after :=
      async_evaluate env self (Some temp_indoor) temp_outdoor
        (Some minutes_needed) (Some next_consigne) is_anti_cycle_active
        target_time effective_margin in
    active (state (fst after)) = false
    /\ state (fst after) = AnticipationState_default false
    /\ _last_consigne_sent (fst after) = None
    /\ _last_consigne_sent_time (fst after) = None
    /\ snd after = [].
Proof.
  intros B env self ti mn nc to gate tt m Ty Act Reached after.
  assert (R : Binary64.sub nc (Binary64.lit 0.2) <= ti).
  { destruct Reached as [L | L]; [|exact L].
    assert (F : Binary64.is_float ti)
      by (apply (typed_number _ _ _ _ _ _ _ Ty); left; reflexivity).
    unfold Binary64.is_float in F. rewrite <- F.
    apply fl_mono.
    assert (C : 0.2 <= Binary64.lit 0.2) by (vm_compute; discriminate).
    lra. }
  assert (E : after = (_deactivate self, [])).
  { unfold after, async_evaluate.
    apply Qle_bool_iff in R. rewrite R, Act. reflexivity. }
  rewrite E. repeat split.
Qed.

(** A run of C5's theorem: 19.4 degrees inside for a target of 19.5. *)
Lemma reaching_target_deactivates_witness :
  @typed Scenarios.simple_builtins
    (Scenarios.env_at (Scenarios.minute 1010) 19.5 true)
    (Scenarios.active_engine (Some (Scenarios.minute 990)))
    (Some (Binary64.lit 19.4)) (Some 3) (Some 19.5)
  /\ active (state (Scenarios.active_engine (Some (Scenarios.minute 990)))) = true
  /\ 19.5 - 0.2 <= Binary64.lit 19.4
  /\ state (fst (@async_evaluate Scenarios.simple_builtins
              (Scenarios.env_at (Scenarios.minute 1010) 19.5 true)
              (Scenarios.active_engine (Some (Scenarios.minute 990)))
              (Some (Binary64.lit 19.4)) (Some 5) (Some 3) (Some 19.5) false
              (Some (Scenarios.minute 1020)) (Binary64.lit 1.15)))
     = AnticipationState_default false.
Proof.
  assert (Ty : @typed Scenarios.simple_builtins
                 (Scenarios.env_at (Scenarios.minute 1010) 19.5 true)
                 (Scenarios.active_engine (Some (Scenarios.minute 990)))
                 (Some (Binary64.lit 19.4)) (Some 3) (Some 19.5)).
  { split; [exact simple_builtins_typed|]. split; vm_compute; reflexivity. }
  assert (L : 19.5 - 0.2 <= Binary64.lit 19.4) by (vm_compute; discriminate).
  split; [exact Ty|]. split; [reflexivity|]. split; [exact L|].
  apply (reaching_target_deactivates Scenarios.simple_builtins
           (Scenarios.env_at (Scenarios.minute 1010) 19.5 true)
           (Scenarios.active_engine (Some (Scenarios.minute 990)))
           (Binary64.lit 19.4) 3 19.5 (Some 5) false
           (Some (Scenarios.minute 1020)) (Binary64.lit 1.15)
           Ty eq_refl (or_introl L)).
Defined.

(** The doubles nearest to 19.9 and 20.1 are more than 0.2 apart, and so is
    their difference as a float: an engine evaluated at these inputs is
    still below its target and stays Active. *)
Example below_target_at_19_9_for_20_1 :
  ~ Binary64.lit 20.1 - 0.2 <= Binary64.lit 19.9
  /\ ~ Binary64.sub (Binary64.lit 20.1) (Binary64.lit 0.2) <= Binary64.lit 19.9
  /\ active (state (fst (@async_evaluate Scenarios.simple_builtins
              (Scenarios.env_at (Scenarios.minute 1010) 19.5 true)
              (Scenarios.active_engine (Some (Scenarios.minute 990)))
              (Some (Binary64.lit 19.9)) (Some 5) (Some 3)
              (Some (Binary64.lit 20.1)) false
              (Some (Scenarios.minute 1020)) (Binary64.lit 1.15))))
     = true.
Proof.
  split; [vm_compute; intros L; apply L; reflexivity|].
  split; [vm_compute; intros L; apply L; reflexivity|].
  vm_compute. reflexivity.
Qed.

(** C8: a send whose service call raises leaves the engine as it was, the
    active flag included.  Whether the call raises or not,
    [async_evaluate] ends in the same state and attempts the same commands;
    after a failure an engine that is Active still has the record of its
    last successful command.  An engine that is Active before and after an
    evaluation resends exactly under the resend rule: it sends its target
    when no command is recorded, or more than 10 minutes have passed since
    the recorded one, or the set-point the thermostat reports has drifted
    from the target by more than 0.3, and it sends nothing otherwise, nor
    when the target is zero.  So does the engine that an evaluation with a
    failed send left Active, the rule reading the record it had before
    that evaluation.  The numbers the calls read are doubles. *)
Theorem failed_send_keeps_engine :
  (forall (env : Env) (self : AnticipationEngine) (temperature : Q),
      service_ok env = false ->
      _send_consigne env self temperature = (self, [temperature]))
  /\ (forall (B : Builtins) (env : Env) (self : AnticipationEngine)
             (temp_indoor temp_outdoor minutes_needed next_consigne : option Q)
             (is_anti_cycle_active : bool) (target_time : option Py.datetime)
             (effective_margin : Q),
      typed env self temp_indoor minutes_needed next_consigne ->
      let failed :=
        async_evaluate (with_service env false) self temp_indoor temp_outdoor
          minutes_needed next_consigne is_anti_cycle_active target_time
          effective_margin in
      let sent :=
        async_evaluate (with_service env true) self temp_indoor temp_outdoor
          minutes_needed next_consigne is_anti_cycle_active target_time
          effective_margin in
      state (fst failed) = state (fst sent)
      /\ snd failed = snd sent
      /\ (active (state (fst failed)) = true ->
          _last_consigne_sent (fst failed) = _last_consigne_sent self
          /\ _last_consigne_sent_time (fst failed) = _last_consigne_sent_time self))
  /\ (forall (B : Builtins) (env : Env) (self : AnticipationEngine)
             (temp_indoor temp_outdoor minutes_needed next_consigne : option Q)
             (is_anti_cycle_active : bool) (target_time : option Py.datetime)
             (effective_margin target : Q),
      let next :=
        async_evaluate env self temp_indoor temp_outdoor minutes_needed
          next_consigne is_anti_cycle_active target_time effective_margin in
      typed env self temp_indoor minutes_needed next_consigne ->
      active (state self) = true ->
      active (state (fst next)) = true ->
      target_consigne (state self) = Some target ->
      (~ target == 0 ->
       Spec64.resend_rule (hass env) (climate_entity self)
         (_last_consigne_sent_time self) (now env) target ->
       snd next = [target])
      /\ (~ Spec64.resend_rule (hass env) (climate_entity self)
              (_last_consigne_sent_time self) (now env) target ->
          snd next = [])
      /\ (target == 0 -> snd next = []))
  /\ (forall (B : Builtins) (env1 env2 : Env) (self : AnticipationEngine)
             (temp_indoor1 temp_outdoor1 minutes_needed1 next_consigne1 : option Q)
             (gate1 : bool) (target_time1 : option Py.datetime) (margin1 : Q)
             (temp_indoor temp_outdoor minutes_needed next_consigne : option Q)
             (is_anti_cycle_active : bool) (target_time : option Py.datetime)
             (effective_margin target : Q),
      let failed :=
        fst (async_evaluate (with_service env1 false) self temp_indoor1
               temp_outdoor1 minutes_needed1 next_consigne1 gate1 target_time1
               margin1) in
      let next :=
        async_evaluate env2 failed temp_indoor temp_outdoor minutes_needed
          next_consigne is_anti_cycle_active target_time effective_margin in
      typed env1 self temp_indoor1 minutes_needed1 next_consigne1 ->
      typed env2 failed temp_indoor minutes_needed next_consigne ->
      active (state failed) = true ->
      active (state (fst next)) = true ->
      target_consigne (state failed) = Some target ->
      (~ target == 0 ->
       Spec64.resend_rule (hass env2) (climate_entity self)
         (_last_consigne_sent_time self) (now env2) target ->
       snd next = [target])
      /\ (~ Spec64.resend_rule (hass env2) (climate_entity self)
              (_last_consigne_sent_time self) (now env2) target ->
          snd next = [])
      /\ (target == 0 -> snd next = [])).
Proof.
  split; [intros env self t F; unfold _send_consigne; rewrite F; reflexivity|].
  split; [intros B env self ti to mn nc gate tt m _; apply evaluate_failed_send|].
  split.
  - intros B env self ti to mn nc gate tt m target next _ A A' T.
    apply staying_resends_by_rule; assumption.
  - intros B env1 env2 self ti1 to1 mn1 nc1 gate1 tt1 m1 ti to mn nc gate tt m
           target failed next _ _ A A' T.
    destruct (evaluate_failed_send env1 self ti1 to1 mn1 nc1 gate1 tt1 m1)
      as [_ [_ Kept]].
    destruct (Kept A) as [_ KeptTime]. fold failed in KeptTime.
    assert (C : climate_entity failed = climate_entity self).
    { unfold failed.
      destruct (evaluate_outcomes (with_service env1 false) self ti1 to1 mn1 nc1
                  gate1 tt1 m1)
        as [[_ E] | [[_ E] | [[_ [_ E]] | [[_ [_ [a [b [c [d [_ [_ [_ [_ [_ [_ [_ [_ E]]]]]]]]]]]]]]
           | [_ [a [b [c [_ [_ [_ [_ E]]]]]]]]]]]];
        rewrite E; try reflexivity.
      unfold stay_active, _send_consigne, no_command. cbv zeta. simpl.
      destruct (target_consigne (state self)) as [g|]; [|reflexivity].
      destruct (should_resend _ _ && Py.truthy g); reflexivity. }
    rewrite <- KeptTime, <- C.
    apply staying_resends_by_rule; assumption.
Qed.

(** A run of C8's theorem: the command of an Active engine was recorded at
    16:30; at 16:41 the thermostat still reports 19.5 and the service call
    raises.  The engine is unchanged by the send; the evaluation ends in
    the state it would have with a working service and keeps the record of
    16:30, having attempted the command the 10-minute rule asks for;
    evaluated again at 16:43 the engine is still Active and resends on the
    same rule. *)
Lemma failed_send_keeps_engine_witness :
  (service_ok Scenarios64.failing_env = false
   /\ _send_consigne Scenarios64.failing_env Scenarios64.engine_since_1630 19.5
      = (Scenarios64.engine_since_1630, [19.5]))
  /\ (@typed Scenarios.simple_builtins Scenarios64.failing_env
        Scenarios64.engine_since_1630
        (Some (Binary64.lit 17.2)) (Some 40) (Some 19.5)
      /\ state Scenarios64.after_failed_send
         = state (fst (@async_evaluate Scenarios.simple_builtins
                         (with_service Scenarios64.failing_env true)
                         Scenarios64.engine_since_1630
                         (Some (Binary64.lit 17.2)) (Some 5) (Some 40) (Some 19.5)
                         false (Some (Scenarios.minute 1020)) (Binary64.lit 1.15)))
      /\ _last_consigne_sent_time Scenarios64.after_failed_send
         = Some (Scenarios.minute 990))
  /\ (active (state Scenarios64.engine_since_1630) = true
      /\ ~ 19.5 == 0
      /\ @Spec64.resend_rule Scenarios.simple_builtins
           (hass Scenarios64.failing_env) "climate.salon"
           (Some (Scenarios.minute 990)) (Scenarios.minute 1001) 19.5
      /\ snd (@async_evaluate Scenarios.simple_builtins Scenarios64.failing_env
                Scenarios64.engine_since_1630
                (Some (Binary64.lit 17.2)) (Some 5) (Some 40) (Some 19.5) false
                (Some (Scenarios.minute 1020)) (Binary64.lit 1.15)) = [19.5])
  /\ (@typed Scenarios.simple_builtins Scenarios64.retry_env
        Scenarios64.after_failed_send
        (Some (Binary64.lit 17.3)) (Some 38) (Some 19.5)
      /\ active (state Scenarios64.after_failed_send) = true
      /\ @Spec64.resend_rule Scenarios.simple_builtins
           (hass Scenarios64.retry_env) "climate.salon"
           (Some (Scenarios.minute 990)) (Scenarios.minute 1003) 19.5
      /\ snd (@async_evaluate Scenarios.simple_builtins Scenarios64.retry_env
                Scenarios64.after_failed_send
                (Some (Binary64.lit 17.3)) (Some 5) (Some 38) (Some 19.5) false
                (Some (Scenarios.minute 1020)) (Binary64.lit 1.15)) = [19.5]).
Proof.
  assert (Ty1 : @typed Scenarios.simple_builtins Scenarios64.failing_env
                  Scenarios64.engine_since_1630
                  (Some (Binary64.lit 17.2)) (Some 40) (Some 19.5)).
  { split; [exact simple_builtins_typed|]. split; vm_compute; reflexivity. }
  assert (Ty2 : @typed Scenarios.simple_builtins Scenarios64.retry_env
                  Scenarios64.after_failed_send
                  (Some (Binary64.lit 17.3)) (Some 38) (Some 19.5)).
  { split; [exact simple_builtins_typed|]. split; vm_compute; reflexivity. }
  assert (NZ : ~ 19.5 == 0) by discriminate.
  assert (R1 : @Spec64.resend_rule Scenarios.simple_builtins
                 (hass Scenarios64.failing_env) "climate.salon"
                 (Some (Scenarios.minute 990)) (Scenarios.minute 1001) 19.5).
  { right; left. exists (Scenarios.minute 990). split; [reflexivity|].
    vm_compute. reflexivity. }
  assert (R2 : @Spec64.resend_rule Scenarios.simple_builtins
                 (hass Scenarios64.retry_env) "climate.salon"
                 (Some (Scenarios.minute 990)) (Scenarios.minute 1003) 19.5).
  { right; left. exists (Scenarios.minute 990). split; [reflexivity|].
    vm_compute. reflexivity. }
  assert (A : active (state Scenarios64.after_failed_send) = true)
    by (vm_compute; reflexivity).
  split.
  { split; [reflexivity|].
    apply (proj1 failed_send_keeps_engine Scenarios64.failing_env
             Scenarios64.engine_since_1630 19.5).
    reflexivity. }
  split.
  { split; [exact Ty1|].
    pose proof (proj1 (proj2 failed_send_keeps_engine) Scenarios.simple_builtins
                  Scenarios64.failing_env Scenarios64.engine_since_1630
                  (Some (Binary64.lit 17.2)) (Some 5) (Some 40)
                  (Some 19.5) false (Some (Scenarios.minute 1020))
                  (Binary64.lit 1.15) Ty1) as [Same [_ Kept]].
    split; [exact Same|].
    exact (proj2 (Kept A)). }
  split.
  { split; [reflexivity|]. split; [exact NZ|]. split; [exact R1|].
    apply (proj1 (proj1 (proj2 (proj2 failed_send_keeps_engine))
             Scenarios.simple_builtins Scenarios64.failing_env
             Scenarios64.engine_since_1630
             (Some (Binary64.lit 17.2)) (Some 5) (Some 40) (Some 19.5) false
             (Some (Scenarios.minute 1020)) (Binary64.lit 1.15) 19.5
             Ty1 eq_refl ltac:(vm_compute; reflexivity) eq_refl) NZ R1). }
  split; [exact Ty2|]. split; [exact A|]. split; [exact R2|].
  apply (proj1 (proj2 (proj2 (proj2 failed_send_keeps_engine))
           Scenarios.simple_builtins Scenarios64.failing_env Scenarios64.retry_env
           Scenarios64.engine_since_1630
           (Some (Binary64.lit 17.2)) (Some 5) (Some 40) (Some 19.5) false
           (Some (Scenarios.minute 1020)) (Binary64.lit 1.15)
           (Some (Binary64.lit 17.3)) (Some 5) (Some 38) (Some 19.5) false
           (Some (Scenarios.minute 1020)) (Binary64.lit 1.15) 19.5
           Ty1 Ty2 A ltac:(vm_compute; reflexivity) ltac:(vm_compute; reflexivity))
         NZ R2).
Defined.

(** The resend rule on the scenarios of the specification: last command 11
    minutes ago and no drift, resent; 9 minutes ago, not resent; 2 minutes
    ago with the thermostat at 19.8 for a target of 19.5, resent, the
    difference of the two doubles being above the double 0.3. *)
Example resend_scenarios :
  snd (@async_evaluate Scenarios.simple_builtins
         (Scenarios.env_at (Scenarios.minute 1001) 19.5 true)
         (Scenarios.active_engine (Some (Scenarios.minute 990)))
         (Some 17) (Some 5) (Some 40) (Some 19.5) false
         (Some (Scenarios.minute 1020)) (Binary64.lit 1.15)) = [19.5]
  /\ snd (@async_evaluate Scenarios.simple_builtins
            (Scenarios.env_at (Scenarios.minute 999) 19.5 true)
            (Scenarios.active_engine (Some (Scenarios.minute 990)))
            (Some 17) (Some 5) (Some 40) (Some 19.5) false
            (Some (Scenarios.minute 1020)) (Binary64.lit 1.15)) = []
  /\ snd (@async_evaluate Scenarios.simple_builtins
            (Scenarios.env_at (Scenarios.minute 992) (Binary64.lit 19.8) true)
            (Scenarios.active_engine (Some (Scenarios.minute 990)))
            (Some 17) (Some 5) (Some 40) (Some 19.5) false
            (Some (Scenarios.minute 1020)) (Binary64.lit 1.15)) = [19.5]
  /\ Binary64.lit 0.3 < Spec64.drift (Binary64.lit 19.8) 19.5.
Proof. vm_compute. repeat split. Qed.

(** X15: an Idle engine becomes Active only with the gate clear, all three
    inputs present, more than 0.3 degrees to gain and a positive estimate;
    it then holds the next set-point as target, the indoor temperature and
    the time of the call as start, the schedule's target time when one was
    given and now plus the estimate otherwise, and it has sent exactly one
    command, the next set-point.  The inputs are doubles; the gain is
    above 0.3 as a value and as the float difference the code compares with
    the double 0.3. *)
Theorem activation_conditions :
  forall (B : Builtins) (env : Env) (self : AnticipationEngine)
         (temp_indoor temp_outdoor minutes_needed next_consigne : option Q)
         (gate : bool) (target_time : option Py.datetime) (margin : Q),
    let r :=
      async_evaluate env self temp_indoor temp_outdoor minutes_needed
        next_consigne gate target_time margin in
    typed env self temp_indoor minutes_needed next_consigne ->
    active (state self) = false ->
    active (state (fst r)) = true ->
    gate = false
    /\ exists ti nc mn,
         temp_indoor = Some ti /\ next_consigne = Some nc
         /\ minutes_needed = Some mn
         /\ 0.3 < nc - ti
         /\ Binary64.lit 0.3 < Binary64.sub nc ti
         /\ 0 < mn
         /\ state (fst r)
            = Invariants.activated nc ti mn
                match target_time with
                | Some t => t
                | None => (now env + Binary64.timedelta_minutes mn)%Z
                end
                (now env)
         /\ snd r = [nc].
Proof.
  intros B env self ti0 to mn0 nc0 gate tt m r _ Idle Act. unfold r in *.
  destruct (evaluate_outcomes env self ti0 to mn0 nc0 gate tt m)
    as [[_ E] | [[A _] | [[A _] | [[_ [G [ti [nc [mn [t [Eti [Enc [Emn [_ [D3 [Pm [Fs [Et E]]]]]]]]]]]]]]
       | [A _]]]]]; try congruence.
  - rewrite E in Act. simpl in Act. congruence.
  - split; [exact G|]. exists ti, nc, mn.
    split; [exact Eti|]. split; [exact Enc|]. split; [exact Emn|].
    split; [apply lit_lt, D3|]. split; [exact D3|]. split; [exact Pm|].
    split.
    + rewrite E, (proj1 (sending_state env _ nc)). simpl. f_equal.
      rewrite Et. apply decide_start_target_time; assumption.
    + rewrite E. apply sending_state.
Qed.

(** A run of X15's theorem: Idle at 17.0 degrees at 16:50, the schedule
    goes to 17.3 at 17:00 and 30 minutes are needed. *)
Lemma activation_conditions_witness :
  @typed Scenarios.simple_builtins
    (Scenarios.env_at (Scenarios.minute 1010) 16 true)
    Scenarios.idle_engine (Some 17) (Some 30) (Some (Binary64.lit 17.3))
  /\ active (state Scenarios.idle_engine) = false
  /\ active (state (fst (@async_evaluate Scenarios.simple_builtins
         (Scenarios.env_at (Scenarios.minute 1010) 16 true)
         Scenarios.idle_engine (Some 17) (Some 5) (Some 30)
         (Some (Binary64.lit 17.3)) false
         (Some (Scenarios.minute 1020)) (Binary64.lit 1.15)))) = true
  /\ snd (@async_evaluate Scenarios.simple_builtins
         (Scenarios.env_at (Scenarios.minute 1010) 16 true)
         Scenarios.idle_engine (Some 17) (Some 5) (Some 30)
         (Some (Binary64.lit 17.3)) false
         (Some (Scenarios.minute 1020)) (Binary64.lit 1.15))
     = [Binary64.lit 17.3].
Proof.
  assert (Ty : @typed Scenarios.simple_builtins
                 (Scenarios.env_at (Scenarios.minute 1010) 16 true)
                 Scenarios.idle_engine (Some 17) (Some 30)
                 (Some (Binary64.lit 17.3))).
  { split; [exact simple_builtins_typed|]. split; vm_compute; reflexivity. }
  assert (I : active (state Scenarios.idle_engine) = false) by reflexivity.
  assert (A : active (state (fst (@async_evaluate Scenarios.simple_builtins
         (Scenarios.env_at (Scenarios.minute 1010) 16 true)
         Scenarios.idle_engine (Some 17) (Some 5) (Some 30)
         (Some (Binary64.lit 17.3)) false
         (Some (Scenarios.minute 1020)) (Binary64.lit 1.15)))) = true)
    by (vm_compute; reflexivity).
  split; [exact Ty|]. split; [exact I|]. split; [exact A|].
  destruct (activation_conditions Scenarios.simple_builtins
              (Scenarios.env_at (Scenarios.minute 1010) 16 true)
              Scenarios.idle_engine (Some 17) (Some 5) (Some 30)
              (Some (Binary64.lit 17.3))
              false (Some (Scenarios.minute 1020)) (Binary64.lit 1.15) Ty I A)
    as [_ [ti [nc [mn [_ [Enc [_ [_ [_ [_ [_ S]]]]]]]]]]].
  injection Enc as <-. exact S.
Defined.

(** X20: after an evaluation whose command went through, the engine is
    Active and the command and its time are recorded; a later evaluation
    sends nothing as long as no more than 600 seconds have passed since
    and the set-point the thermostat reports is within 0.3 of the
    target.  The numbers the calls read are doubles. *)
Theorem no_resend_within_ten_minutes :
  forall (B : Builtins) (env1 env2 : Env) (self : AnticipationEngine)
         (temp_indoor1 temp_outdoor1 minutes_needed1 next_consigne1 : option Q)
         (gate1 : bool) (target_time1 : option Py.datetime) (margin1 : Q)
         (temp_indoor temp_outdoor minutes_needed0 next_consigne : option Q)
         (gate : bool) (target_time0 : option Py.datetime) (margin : Q),
    let first :=
      async_evaluate env1 self temp_indoor1 temp_outdoor1 minutes_needed1
        next_consigne1 gate1 target_time1 margin1 in
    typed env1 self temp_indoor1 minutes_needed1 next_consigne1 ->
    typed env2 (fst first) temp_indoor minutes_needed0 next_consigne ->
    service_ok env1 = true ->
    snd first <> [] ->
    (now env2 - send_now env1 <= 600 * 1000000)%Z ->
    (forall reported target,
        Spec64.reported_setpoint (hass env2) (climate_entity self) reported ->
        target_consigne (state (fst first)) = Some target ->
        Qabs (reported - target) <= 0.3) ->
    active (state (fst first)) = true
    /\ _last_consigne_sent_time (fst first) = Some (send_now env1)
    /\ _last_consigne_sent (fst first) = target_consigne (state (fst first))
    /\ snd (async_evaluate env2 (fst first) temp_indoor temp_outdoor
              minutes_needed0 next_consigne gate target_time0 margin) = [].
Proof.
  intros B env1 env2 self ti1 to1 mn1 nc1 gate1 tt1 m1 ti to mn nc gate tt m
         first _ _ Ok Sent Soon Close.
  destruct (sent_command_recorded env1 self ti1 to1 mn1 nc1 gate1 tt1 m1 Ok Sent)
    as [Act [Rt Rc]].
  fold first in Act, Rt, Rc.
  split; [exact Act|]. split; [exact Rt|]. split; [exact Rc|].
  assert (C : climate_entity (fst first) = climate_entity self).
  { unfold first.
    destruct (evaluate_outcomes env1 self ti1 to1 mn1 nc1 gate1 tt1 m1)
      as [[_ E] | [[_ E] | [[_ [_ E]] | [[_ [_ [a [b [c [d [_ [_ [_ [_ [_ [_ [_ [_ E]]]]]]]]]]]]]]
         | [_ [a [b [c [_ [_ [_ [_ E]]]]]]]]]]]];
      rewrite E; try reflexivity.
    - unfold _send_consigne. destruct (service_ok env1); reflexivity.
    - unfold stay_active, _send_consigne, no_command. cbv zeta. simpl.
      destruct (target_consigne (state self)) as [g|]; [|reflexivity].
      destruct (should_resend _ _ && Py.truthy g); [|reflexivity].
      destruct (service_ok env1); reflexivity. }
  destruct (evaluate_outcomes env2 (fst first) ti to mn nc gate tt m)
    as [[_ E] | [[_ E] | [[_ [_ E]] | [[I _] | [_ [a [b [c [_ [_ [_ [_ E]]]]]]]]]]]];
    try (rewrite E; reflexivity); [congruence|].
  rewrite E, staying_commands.
  destruct (target_consigne (state (fst first))) as [g|] eqn:T; [|reflexivity].
  assert (R : should_resend env2 (fst first) = false).
  { unfold should_resend. rewrite Rt, T.
    assert (I : Py.Qlt_bool 600 (Binary64.total_seconds (now env2 - send_now env1)%Z)
                = false).
    { destruct (Py.Qlt_bool 600 _) eqn:K; [|reflexivity].
      apply more_than_ten_minutes in K. lia. }
    rewrite I. simpl.
    destruct (_get_climate_setpoint env2 (fst first)) as [rp|] eqn:G;
      [|reflexivity].
    apply climate_setpoint_reported in G. rewrite C in G.
    apply Qlt_bool_false_iff.
    specialize (Close rp g G eq_refl).
    unfold Binary64.sub.
    rewrite fl_abs. apply le_lit, Close. }
  rewrite R. reflexivity.
Qed.

(** A run of X20's theorem: the command sent at 16:50 is not sent again at
    16:52, the thermostat then reporting 19.6 for a target of 19.5. *)
Lemma no_resend_within_ten_minutes_witness :
  @typed Scenarios.simple_builtins Scenarios64.start_env Scenarios.idle_engine
    (Some 17) (Some 30) (Some 19.5)
  /\ @typed Scenarios.simple_builtins Scenarios64.later_env
       (fst Scenarios64.first_evaluation)
       (Some (Binary64.lit 17.1)) (Some 29) (Some 19.5)
  /\ service_ok Scenarios64.start_env = true
  /\ snd Scenarios64.first_evaluation = [19.5]
  /\ (now Scenarios64.later_env - send_now Scenarios64.start_env
      <= 600 * 1000000)%Z
  /\ Qabs (Binary64.lit 19.6 - 19.5) <= 0.3
  /\ snd (@async_evaluate Scenarios.simple_builtins Scenarios64.later_env
            (fst Scenarios64.first_evaluation)
            (Some (Binary64.lit 17.1)) (Some 5) (Some 29) (Some 19.5) false
            (Some (Scenarios.minute 1020)) (Binary64.lit 1.15)) = [].
Proof.
  assert (Ty1 : @typed Scenarios.simple_builtins Scenarios64.start_env
                  Scenarios.idle_engine (Some 17) (Some 30) (Some 19.5)).
  { split; [exact simple_builtins_typed|]. split; vm_compute; reflexivity. }
  assert (Ty2 : @typed Scenarios.simple_builtins Scenarios64.later_env
                  (fst Scenarios64.first_evaluation)
                  (Some (Binary64.lit 17.1)) (Some 29) (Some 19.5)).
  { split; [exact simple_builtins_typed|]. split; vm_compute; reflexivity. }
  assert (S1 : snd Scenarios64.first_evaluation = [19.5])
    by (vm_compute; reflexivity).
  assert (D : Qabs (Binary64.lit 19.6 - 19.5) <= 0.3) by (vm_compute; discriminate).
  split; [exact Ty1|]. split; [exact Ty2|]. split; [reflexivity|].
  split; [exact S1|]. split; [vm_compute; discriminate|]. split; [exact D|].
  apply (no_resend_within_ten_minutes Scenarios.simple_builtins
           Scenarios64.start_env Scenarios64.later_env
           Scenarios.idle_engine (Some 17) (Some 5) (Some 30) (Some 19.5) false
           (Some (Scenarios.minute 1020)) (Binary64.lit 1.15)
           (Some (Binary64.lit 17.1)) (Some 5) (Some 29) (Some 19.5) false
           (Some (Scenarios.minute 1020)) (Binary64.lit 1.15) Ty1 Ty2).
  - reflexivity.
  - change (snd Scenarios64.first_evaluation <> []). rewrite S1. discriminate.
  - vm_compute. discriminate.
  - intros reported target [st [value [S [A F]]]] T.
    vm_compute in S. injection S as <-. vm_compute in A. injection A as <-.
    simpl in F. injection F as <-. vm_compute in T. injection T as <-.
    exact D.
Defined.

End Anticipation64Facts.

(** * schedule_parser.py in binary64 *)

Module ScheduleParser64Facts.

Import HA.
Import ScheduleParser.
Import ScheduleParser64.
Import PyFacts.
Import PyMoreFacts.
Import Binary64Facts.

Section Parser.

Context `{Builtins}.

Lemma transitions_from_shape (prev : option Q) (parsed : list ParsedEvent)
    (t : NextTransition) :
  In t (transitions_from prev parsed) ->
  source t = "schedule_state"%string
  /\ (exists e, In e parsed /\ target_time t = Some (start_dt e)
                /\ float_of_str (ev_state e) = Some (target_temp t))
  /\ Binary64.lit 0.1
     < Qabs (Binary64.sub (target_temp t) (current_temp_schedule t)).
Proof.
  revert prev. induction parsed as [|ev rest IH]; intros prev;
    [intros []|].
  assert (Later : forall p, In t (transitions_from p rest) ->
            source t = "schedule_state"%string
            /\ (exists e, In e (ev :: rest) /\ target_time t = Some (start_dt e)
                          /\ float_of_str (ev_state e) = Some (target_temp t))
            /\ Binary64.lit 0.1
               < Qabs (Binary64.sub (target_temp t) (current_temp_schedule t))).
  { intros p I. destruct (IH p I) as [S [[e [Ie [Te Fe]]] D]].
    split; [exact S|]. split; [|exact D]. exists e. split; [right; exact Ie | auto]. }
  cbn [transitions_from].
  destruct (float_of_str (ev_state ev)) as [temp|] eqn:F;
    [|intros I; exact (Later _ I)].
  destruct prev as [p|]; [|intros I; exact (Later _ I)].
  destruct (Py.Qlt_bool (Binary64.lit 0.1) (Qabs (Binary64.sub temp p))) eqn:D;
    [|intros I; exact (Later _ I)].
  intros [<- | I]; [|exact (Later _ I)]. simpl.
  split; [reflexivity|]. split; [|apply Qlt_bool_iff, D].
  exists ev. split; [left; reflexivity | auto].
Qed.

Lemma transitions_from_length (prev : option Q) (parsed : list ParsedEvent) :
  (length (transitions_from prev parsed) <= length parsed)%nat
  /\ (prev = None ->
      (length (transitions_from prev parsed) <= pred (length parsed))%nat).
Proof.
  revert prev. induction parsed as [|ev rest IH]; intros prev.
  - simpl. split; [lia | intros _; lia].
  - cbn [transitions_from length].
    destruct (float_of_str (ev_state ev)) as [temp|].
    + destruct (IH (Some temp)) as [L _].
      destruct prev as [p|].
      * split; [|discriminate].
        destruct (Py.Qlt_bool (Binary64.lit 0.1) (Qabs (Binary64.sub temp p)));
          cbn [length]; lia.
      * split; [lia | intros _; simpl; lia].
    + destruct (IH prev) as [L N]. split; [lia|].
      intros E. specialize (N E). simpl. lia.
Qed.

Lemma parse_all_length (evs : list pyval) (date : Z) (weekday : string)
    (parsed : list ParsedEvent) :
  parse_all evs date weekday = Py.Return parsed ->
  (length parsed <= length evs)%nat.
Proof.
  revert parsed.
  induction evs as [|ev evs IH]; intros parsed Pa; simpl in Pa.
  - injection Pa as <-. simpl. lia.
  - destruct (_parse_single_event ev _ _) as [r|]; simpl in Pa;
      [|discriminate Pa].
    destruct (parse_all evs _ _) as [ps|]; simpl in Pa;
      [|discriminate Pa].
    specialize (IH ps eq_refl). injection Pa as <-.
    destruct r; simpl; lia.
Qed.

(** A float difference above the double 0.1 in absolute value is a
    difference above 0.1. *)
Lemma change_above_tenth (a b : Q) :
  Binary64.lit 0.1 < Qabs (Binary64.sub a b) -> 0.1 < Qabs (a - b).
Proof.
  unfold Binary64.sub. rewrite fl_abs. intros L.
  apply Qnot_le_lt. intros C.
  apply (Qlt_not_le _ _ L). apply fl_mono, C.
Qed.

End Parser.

(** The strings the examples on doubles read denote doubles. *)
Lemma simple_builtins_read_doubles : @Typed.builtins Scenarios64.simple_builtins.
Proof.
  intros s q E. simpl in E.
  repeat match type of E with
  | (if ?c then _ else _) = _ => destruct c
  end;
    try discriminate; injection E as <-; vm_compute; reflexivity.
Qed.

(** X26, on doubles: every transition [get_all_transitions_today] lists
    comes from an event of the list, with that event's start as its time
    and a value more than 0.1 away from the value before it, as values and
    as the float difference the code compares with the double 0.1; an
    event list of [n] entries gives at most [n - 1] transitions. *)
Theorem transitions_today_are_changes :
  forall (B : Builtins) (self : ScheduleParser) (hass : Hass)
         (now : Py.datetime) (l : list NextTransition),
    Typed.builtins ->
    get_all_transitions_today self hass now = Py.Return l ->
    (forall t, In t l ->
       source t = "schedule_state"%string
       /\ (exists time, target_time t = Some time)
       /\ 0.1 < Qabs (target_temp t - current_temp_schedule t)
       /\ Binary64.lit 0.1
          < Qabs (Binary64.sub (target_temp t) (current_temp_schedule t)))
    /\ (forall entity st events,
          schedule_entity self = Some entity ->
          hass !! entity = Some st ->
          attributes st !! "events"%string = Some (PList events) ->
          (length l <= pred (length events))%nat).
Proof.
  intros B self hass now l _ E.
  unfold get_all_transitions_today in E.
  assert (Empty : l = [] ->
    (forall t, In t l ->
       source t = "schedule_state"%string
       /\ (exists time, target_time t = Some time)
       /\ 0.1 < Qabs (target_temp t - current_temp_schedule t)
       /\ Binary64.lit 0.1
          < Qabs (Binary64.sub (target_temp t) (current_temp_schedule t)))
    /\ (forall entity st events,
          schedule_entity self = Some entity ->
          hass !! entity = Some st ->
          attributes st !! "events"%string = Some (PList events) ->
          (length l <= pred (length events))%nat)).
  { intros ->. split; [intros t []|]. intros; simpl; lia. }
  destruct (schedule_entity self) as [entity|];
    [|injection E as <-; apply Empty; reflexivity].
  destruct (String.eqb entity ""); [injection E as <-; apply Empty; reflexivity|].
  destruct (hass !! entity) as [st|] eqn:Hs;
    [|injection E as <-; apply Empty; reflexivity].
  destruct (float_of_str (state st)); [|injection E as <-; apply Empty; reflexivity].
  destruct (attributes st !! "events"%string) as [events|] eqn:Ev;
    [|injection E as <-; apply Empty; reflexivity].
  destruct (negb (truthy events)); [injection E as <-; apply Empty; reflexivity|].
  destruct events as [| | | |evs|]; simpl in E; try discriminate E.
  destruct (parse_all evs (date_of now) (weekday_of (date_of now)))
    as [parsed|e] eqn:Pa; simpl in E; [|discriminate E].
  injection E as <-. split.
  - intros t I.
    destruct (transitions_from_shape None _ t I) as [S [[e [_ [T _]]] D]].
    split; [exact S|]. split; [exists (start_dt e); exact T|].
    split; [apply change_above_tenth, D | exact D].
  - intros entity' st' events' He' Hs' Ev'.
    injection He' as <-. rewrite Hs in Hs'. injection Hs' as <-.
    rewrite Ev in Ev'. injection Ev' as <-.
    destruct (transitions_from_length None (sort_by_start parsed)) as [_ L].
    specialize (L eq_refl).
    rewrite ScheduleParserMoreFacts.length_sort_by_start in L.
    pose proof (parse_all_length _ _ _ _ Pa). lia.
Qed.

(** A run of X26's theorem: the schedule goes from 19.5 to 19.6 at 17:00;
    the difference of the two doubles is above the double 0.1 and the
    change is listed. *)
Lemma transitions_today_are_changes_witness :
  @Typed.builtins Scenarios64.simple_builtins
  /\ @get_all_transitions_today Scenarios64.simple_builtins
       Scenarios.planning_parser Scenarios64.small_step_home
       (Scenarios.minute 1010)
     = Py.Return [{| target_time := Some (Scenarios.minute 1020);
                     target_temp := Binary64.lit 19.6;
                     current_temp_schedule := Binary64.lit 19.5;
                     source := "schedule_state" |}]
  /\ 0.1 < Qabs (Binary64.lit 19.6 - Binary64.lit 19.5)
  /\ (1 <= pred 2)%nat.
Proof.
  assert (E : @get_all_transitions_today Scenarios64.simple_builtins
                Scenarios.planning_parser Scenarios64.small_step_home
                (Scenarios.minute 1010)
              = Py.Return
                  [{| target_time := Some (Scenarios.minute 1020);
                      target_temp := Binary64.lit 19.6;
                      current_temp_schedule := Binary64.lit 19.5;
                      source := "schedule_state" |}])
    by (vm_compute; reflexivity).
  split; [exact simple_builtins_read_doubles|].
  split; [exact E|].
  destruct (transitions_today_are_changes Scenarios64.simple_builtins _ _ _ _
              simple_builtins_read_doubles E) as [Each Count].
  split.
  - exact (proj1 (proj2 (proj2 (Each _ (or_introl eq_refl))))).
  - exact (Count "sensor.planning"%string Scenarios64.small_step_entity
             [Scenarios.event "08:00" "17:00" "19.5";
              Scenarios.event "17:00" "21:00" "19.6"]
             eq_refl ltac:(vm_compute; reflexivity) ltac:(vm_compute; reflexivity)).
Defined.

(** C9 fails on an entity that exposes an eco value of 0: with comfort at
    19, eco at 0 and the set-point at 0, the set-point is at eco and comfort
    exceeds eco by more than 0.3, and the event-list strategy yields
    nothing; yet the preset strategy yields nothing either and the fallback
    is returned, because [attrs.get("eco_temp") or attrs.get("eco")] takes
    the number 0 for a missing value.  With eco at 16 and the set-point at
    16 the same call returns the transition to comfort. *)
Theorem preset_strategy_misses_zero_eco :
  @Spec64.exposes_presets Scenarios64.simple_builtins Scenarios64.zero_eco_entity 19 0
  /\ Spec64.eco_now_comfort_next 0 19 0
  /\ (0 <= 0 + 0.3 /\ 0.3 < 19 - 0)
  /\ Binary64.floats [19; 0]
  /\ @_parse_schedule_state Scenarios64.simple_builtins
       Scenarios64.zero_eco_entity 0 (Scenarios.minute 1010)
     = Py.Return None
  /\ @_parse_vtherm_attrs Scenarios64.simple_builtins Scenarios64.zero_eco_entity 0
     = None
  /\ @get_next_heating_transition Scenarios64.simple_builtins
       Scenarios.planning_parser Scenarios64.zero_eco_home (Scenarios.minute 1010)
     = Py.Return (Some {| target_time := None;
                          target_temp := 0;
                          current_temp_schedule := 0;
                          source := "current_only" |})
  /\ @get_next_heating_transition Scenarios64.simple_builtins
       Scenarios.planning_parser (Scenarios.preset_home (PNum 19) (PNum 16))
       (Scenarios.minute 1010)
     = Py.Return (Some {| target_time := None;
                          target_temp := 19;
                          current_temp_schedule := 16;
                          source := "vtherm_preset" |}).
Proof.
  split.
  { split.
    - exists "comfort_temp"%string, (PNum 19).
      split; [left; reflexivity|]. split; [vm_compute; reflexivity | reflexivity].
    - exists "eco_temp"%string, (PNum 0).
      split; [left; reflexivity|]. split; [vm_compute; reflexivity | reflexivity]. }
  split; [split; [vm_compute; discriminate | vm_compute; reflexivity]|].
  split; [split; [discriminate | reflexivity]|].
  split; [vm_compute; reflexivity|].
  split; [vm_compute; reflexivity|].
  split; [vm_compute; reflexivity|].
  split; vm_compute; reflexivity.
Qed.

End ScheduleParser64Facts.
